(** * Consulta-optantes: batch lookup of CNPJ registrations

    A shallow embedding of the lookup client (app/services/consulta_site.py),
    the batch runner (app/services/consulta_optantes.py), the output builder
    (app/services/io_files.py) and the job manager (app/main.py), followed by
    the properties proved about them.

    Conventions of the embedding:
    - Python [str] is [string] (a sequence of bytes, UTF-8 for non-ASCII
      text); [int] is [Z]; the finite [float]s that occur (sleep durations,
      the wall clock) are exact rationals [Q].
    - Everything the code does to the outside world goes through the record
      [World]: the wall clock, the SQLite cache table, the answers of the
      remote API, the in-memory job table and the cancel requests that
      arrive while a batch runs.  A computation is a function from the world
      to an outcome (a value or a raised exception) and the new world.
    - [w_trace] is a ghost log of the observable events, in the order in
      which they happen. *)

From Stdlib Require Import ZArith QArith Qround Ascii String List Sorted Lia.
From stdpp Require Import base option list strings gmap fin_maps pretty.
Import ListNotations.
Set Warnings "-register-all".
Open Scope string_scope.
Open Scope Z_scope.

(** ** Python built-ins used by the code *)

Module Py.

(** A digit, for [\d] and [\D]: the ASCII digits (the other decimal
    digits of Unicode, which Python's [re] also accepts in a [str]
    pattern, are not told apart from the rest of a multi-byte sequence). *)
Definition is_digit (c : ascii) : bool :=
  (("0" <=? c) && (c <=? "9"))%char.

(** ASCII white space as [str.strip] sees it. *)
Definition is_space (c : ascii) : bool :=
  let n := nat_of_ascii c in
  ((9 <=? n) && (n <=? 13) || (28 <=? n) && (n <=? 32))%nat.

Fixpoint filter (p : ascii -> bool) (s : string) : string :=
  match s with
  | EmptyString => EmptyString
  | String c r => if p c then String c (filter p r) else filter p r
  end.

Fixpoint all (p : ascii -> bool) (s : string) : bool :=
  match s with
  | EmptyString => true
  | String c r => p c && all p r
  end.

Fixpoint lstrip (s : string) : string :=
  match s with
  | String c r => if is_space c then lstrip r else s
  | EmptyString => EmptyString
  end.

(** [s.strip()] *)
Definition strip (s : string) : string :=
  String.rev (lstrip (String.rev (lstrip s))).

(** [s.lower()] on ASCII letters and on the two-byte UTF-8 sequences of
    the Latin-1 capitals (C3 80 .. C3 9E, the multiplication sign
    excepted), which covers Portuguese text. *)
Fixpoint lower (s : string) : string :=
  match s with
  | EmptyString => EmptyString
  | String c r =>
      let n := nat_of_ascii c in
      if ((65 <=? n) && (n <=? 90))%nat
      then String (ascii_of_nat (n + 32)) (lower r)
      else if (n =? 195)%nat then
        match r with
        | String d r' =>
            let m := nat_of_ascii d in
            if ((128 <=? m) && (m <=? 158) && negb (m =? 151))%nat
            then String c (String (ascii_of_nat (m + 32)) (lower r'))
            else String c (String d (lower r'))
        | EmptyString => String c EmptyString
        end
      else String c (lower r)
  end.

(** [needle in hay] *)
Fixpoint contains (needle hay : string) : bool :=
  String.prefix needle hay ||
  match hay with
  | EmptyString => false
  | String _ r => contains needle r
  end.

(** [s in {...}] for a set of string literals *)
Definition mem (s : string) (l : list string) : bool :=
  existsb (String.eqb s) l.

(** [x or y] on strings *)
Definition str_or (x y : string) : string :=
  if String.eqb x "" then y else x.

(** [max(a, b)] and [min(a, b)]: the first argument wins a tie. *)
Definition Qltb (a b : Q) : bool := negb (Qle_bool b a).
Definition maxQ (a b : Q) : Q := if Qltb a b then b else a.
Definition maxZ (a b : Z) : Z := if a <? b then b else a.
Definition minZ (a b : Z) : Z := if b <? a then b else a.

(** [s.zfill(width)]: zeros go after a leading sign. *)
Definition zfill (width : nat) (s : string) : string :=
  let pad := String.concat "" (repeat "0" (width - String.length s)) in
  match s with
  | String c r =>
      if Ascii.eqb c "+" || Ascii.eqb c "-"
      then String c (pad ++ r) else pad ++ s
  | EmptyString => pad
  end.

(** *** [int(float(s))]

    The text of a decimal literal: optional sign, digits with an optional
    fraction, optional exponent, white space around it.  The value is
    taken exactly and truncated toward zero; a magnitude that [float]
    rounds to infinity makes [int] raise, and so does every other text
    ([None]).  Digit-group underscores and the rounding of the literal to
    binary64 are not modelled. *)

Fixpoint span_digits (s : string) : string * string :=
  match s with
  | String c r =>
      if is_digit c
      then let '(d, rest) := span_digits r in (String c d, rest)
      else (EmptyString, s)
  | EmptyString => (EmptyString, EmptyString)
  end.

Fixpoint digits_value (acc : Z) (s : string) : Z :=
  match s with
  | String c r => digits_value (10 * acc + (Z.of_nat (nat_of_ascii c) - 48)) r
  | EmptyString => acc
  end.

Definition take_sign (s : string) : bool * string :=
  match s with
  | String c r =>
      if Ascii.eqb c "-" then (true, r)
      else if Ascii.eqb c "+" then (false, r)
      else (false, s)
  | EmptyString => (false, s)
  end.

(** The exponent part: [Some 0] when there is none, [None] when the rest
    of the text is not an exponent. *)
Definition exponent (s : string) : option Z :=
  match s with
  | EmptyString => Some 0
  | String c r =>
      if Ascii.eqb c "e" || Ascii.eqb c "E" then
        let '(neg, r1) := take_sign r in
        let '(ds, r2) := span_digits r1 in
        if String.eqb ds "" then None
        else if String.eqb r2 ""
             then Some (if neg then - digits_value 0 ds else digits_value 0 ds)
             else None
      else None
  end.

Definition float_overflow : Z := 2 ^ 1024 - 2 ^ 970.

Definition int_float (text : string) : option Z :=
  let '(neg, s1) := take_sign (strip text) in
  let '(ip, s2) := span_digits s1 in
  let '(fp, s3) :=
    match s2 with
    | String c r => if Ascii.eqb c "." then span_digits r else (EmptyString, s2)
    | EmptyString => (EmptyString, s2)
    end in
  if String.eqb ip "" && String.eqb fp "" then None
  else
    match exponent s3 with
    | None => None
    | Some e =>
        let mant := digits_value 0 (ip ++ fp) in
        let scale := e - Z.of_nat (String.length fp) in
        let magnitude :=
          if 0 <=? scale then mant * 10 ^ scale else mant / 10 ^ (- scale) in
        if float_overflow <=? magnitude then None
        else Some (if neg then - magnitude else magnitude)
    end.

(** [datetime.strftime("%Y-%m-%d %H:%M:%S")] of an epoch second, read in
    UTC (the local time zone of the host is not modelled). *)
Definition pad (width : nat) (n : Z) : string := zfill width (pretty n).

Definition civil_from_days (days : Z) : Z * Z * Z :=
  let z := days + 719468 in
  let era := z / 146097 in
  let doe := z - era * 146097 in
  let yoe := (doe - doe / 1460 + doe / 36524 - doe / 146096) / 365 in
  let doy := doe - (365 * yoe + yoe / 4 - yoe / 100) in
  let mp := (5 * doy + 2) / 153 in
  let d := doy - (153 * mp + 2) / 5 + 1 in
  let m := if mp <? 10 then mp + 3 else mp - 9 in
  let y := yoe + era * 400 + (if m <=? 2 then 1 else 0) in
  (y, m, d).

Definition strftime (epoch : Z) : string :=
  let '(y, m, d) := civil_from_days (epoch / 86400) in
  let secs := epoch mod 86400 in
  pad 4 y ++ "-" ++ pad 2 m ++ "-" ++ pad 2 d ++ " " ++
  pad 2 (secs / 3600) ++ ":" ++ pad 2 (secs mod 3600 / 60) ++ ":" ++
  pad 2 (secs mod 60).

End Py.

(** ** Data *)

(** A parsed JSON document, as [r.json()] returns it.  A [dict] keeps its
    insertion order; its keys are distinct. *)
Inductive json :=
| JNull
| JBool (b : bool)
| JInt (n : Z)
| JFloat (x : Q)
| JStr (s : string)
| JList (items : list json)
| JDict (members : list (string * json)).

(** The exceptions that occur. [RequestException] stands for
    [requests.RequestException] and its subclasses, named by [cls];
    [CallbackError] for whatever [Exception] a caller's callback raises. *)
Inductive Exn :=
| RequestException (cls msg : string)
| AttributeError (msg : string)
| HTTPException (status_code : Z) (detail : string)
| KeyError (key : string)
| CallbackError (cls msg : string).

(** What one [requests.get] does: it raises, or it returns a response with
    a status code, possibly a [Retry-After] header, and a body that
    [r.json()] decodes or rejects (with requests 2.27 and later the
    rejection is [requests.exceptions.JSONDecodeError], a
    [RequestException]). *)
Inductive Body :=
| BadJson (msg : string)
| Json (v : json).

Inductive HttpOutcome :=
| NetFail (cls msg : string)
| Response (status_code : Z) (retry_after : option string) (body : Body).

(** The dict that [consultar_optante] returns. *)
Record Resultado := {
  cnpj : string;
  razao_social : string;
  simples_nacional : string;
  simei : string;
  data_consulta : string;
  erro : string;
  _cached : bool
}.

(** A row of the result table (the dict once ["_cached"] is popped). *)
Record Linha := {
  l_cnpj : string;
  l_razao_social : string;
  l_simples_nacional : string;
  l_simei : string;
  l_data_consulta : string;
  l_erro : string
}.

(** A row of the table [cnpja_cache]; the key [cnpj] is the map's key, the
    other columns are nullable. *)
Record CacheRow := {
  c_razao_social : option string;
  c_simples_nacional : option string;
  c_simei : option string;
  c_data_consulta : option string;
  c_fetched_at : option Z
}.

(** The bytes of an output file.  The pandas writers are outside the
    repository: a file is represented by the writer that produced it and
    the table it was given, and is never the empty byte string. *)
Inductive FileBytes :=
| CsvFile (rows : list Linha)
| XlsxFile (rows : list Linha).

Inductive Status := Queued | Running | Canceling | Canceled | Done | Error.

(** An entry of [JOBS]. *)
Record Job := {
  j_status : Status;
  j_progress : Z;
  j_total : Z;
  j_done : bool;
  j_file_bytes : option FileBytes;
  j_file_name : string;
  j_error : option string;
  j_cancel_event : bool
}.

(** The state of the web application: the job table, and the cancel
    requests that the event loop serves while a batch runs in its worker
    thread.  The worker looks at the table at its observation points only
    (each [should_cancel()] and the final [is_set()]); [incoming n] is the
    job id of the [POST /cancel] request served between observation [n - 1]
    and observation [n], if there is one. *)
Record App := {
  jobs : gmap string Job;
  incoming : nat -> option string;
  observations : nat
}.

(** What can be observed of a run: a request with its answer, a
    [time.sleep], a write to the cache and, in the batch runner, the
    record that a lookup returned, a call of the progress callback and an
    answer of [should_cancel()]. *)
Inductive Event :=
| EvGet (url : string) (answer : HttpOutcome)
| EvSleep (secs : Q)
| EvCacheSet (key : string)
| EvResult (r : Resultado)
| EvProgress (done total : Z)
| EvPoll (b : bool).

Record World := {
  w_clock : Q;                       (* time.time() *)
  w_ttl : Z;                         (* DEFAULT_CACHE_TTL_SECONDS *)
  w_cache : gmap string CacheRow;    (* the SQLite table *)
  w_net : nat -> HttpOutcome;        (* answer to the n-th requests.get *)
  w_calls : nat;                     (* requests.get calls made so far *)
  w_app : App;
  w_trace : list Event
}.

(** ** Computations *)

(** How a call ends: with a value or with an exception. *)
Inductive Outcome (A : Type) :=
| Returned (a : A)
| Raised (e : Exn).
Arguments Returned {A} a.
Arguments Raised {A} e.

(** Sequencing for code that touches nothing outside. *)
Definition obind {A B} (o : Outcome A) (k : A -> Outcome B) : Outcome B :=
  match o with
  | Returned a => k a
  | Raised e => Raised e
  end.

Notation "'let+' x := c1 'in' c2" := (obind c1 (fun x => c2))
  (at level 10, x pattern, c1 at level 100, c2 at level 200).

(** Code that acts on the world; what it did before raising stays done. *)
Definition M (A : Type) : Type := World -> Outcome A * World.

Definition lift {A} (o : Outcome A) : M A := fun w => (o, w).

Definition ret {A} (a : A) : M A := fun w => (Returned a, w).

Definition raise {A} (e : Exn) : M A := fun w => (Raised e, w).

Definition bind {A B} (c : M A) (k : A -> M B) : M B :=
  fun w =>
    match c w with
    | (Returned a, w') => k a w'
    | (Raised e, w') => (Raised e, w')
    end.

Notation "'let*' x := c1 'in' c2" := (bind c1 (fun x => c2))
  (at level 10, x pattern, c1 at level 100, c2 at level 200).
Notation "c1 ;; c2" := (bind c1 (fun _ => c2))
  (at level 100, c2 at level 200, right associativity).

(** [try: c  except requests.RequestException as e: h] *)
Definition except_RequestException {A} (c : M A) (h : string -> string -> M A) : M A :=
  fun w =>
    match c w with
    | (Raised (RequestException cls msg), w') => h cls msg w'
    | other => other
    end.

Definition log (e : Event) (w : World) : World :=
  {| w_clock := w_clock w; w_ttl := w_ttl w; w_cache := w_cache w;
     w_net := w_net w; w_calls := w_calls w; w_app := w_app w;
     w_trace := (w_trace w ++ [e])%list |}.

Definition emit (e : Event) : M unit := fun w => (Returned tt, log e w).

(** [int(x)] of a float: truncation toward zero. *)
Definition int_of_float (x : Q) : Z := Z.quot (Qnum x) (Z.pos (Qden x)).

(** [int(time.time())] *)
Definition time_time : M Z := fun w => (Returned (int_of_float (w_clock w)), w).

(** [datetime.now().strftime("%Y-%m-%d %H:%M:%S")] *)
Definition datetime_now : M string :=
  fun w => (Returned (Py.strftime (Qfloor (w_clock w))), w).

(** [time.sleep(secs)] *)
Definition time_sleep (secs : Q) : M unit :=
  fun w =>
    (Returned tt,
     log (EvSleep secs)
       {| w_clock := w_clock w + secs; w_ttl := w_ttl w; w_cache := w_cache w;
          w_net := w_net w; w_calls := w_calls w; w_app := w_app w;
          w_trace := w_trace w |}).

(** [DEFAULT_CACHE_TTL_SECONDS], fixed by the environment at import *)
Definition default_cache_ttl : M Z := fun w => (Returned (w_ttl w), w).

(** [requests.get(url, ...)]: the response as (status, Retry-After, body). *)
Definition requests_get (url : string) : M (Z * option string * Body) :=
  fun w =>
    let answer := w_net w (w_calls w) in
    let w' :=
      log (EvGet url answer)
        {| w_clock := w_clock w; w_ttl := w_ttl w; w_cache := w_cache w;
           w_net := w_net w; w_calls := S (w_calls w); w_app := w_app w;
           w_trace := w_trace w |} in
    match answer with
    | NetFail cls msg => (Raised (RequestException cls msg), w')
    | Response code hdr body => (Returned (code, hdr, body), w')
    end.

(** [r.json()] *)
Definition r_json (body : Body) : Outcome json :=
  match body with
  | BadJson msg => Raised (RequestException "JSONDecodeError" msg)
  | Json v => Returned v
  end.

Definition with_app (app : App) (w : World) : World :=
  {| w_clock := w_clock w; w_ttl := w_ttl w; w_cache := w_cache w;
     w_net := w_net w; w_calls := w_calls w; w_app := app;
     w_trace := w_trace w |}.

(** Run a callback on the application state. *)
Definition on_app {A} (f : App -> A * App) : M A :=
  fun w =>
    let '(a, app') := f (w_app w) in
    (Returned a, with_app app' w).

(** ** app/services/consulta_site.py *)

Definition OPEN_CNPJA_BASE : string := "https://open.cnpja.com/office".

(** The [SELECT] and the upsert on [cnpja_cache]; the store itself is
    taken to work (no [sqlite3] error). *)
Definition read_cache (key : string) : M (option CacheRow) :=
  fun w => (Returned (w_cache w !! key), w).

Definition upsert_cache (key : string) (row : CacheRow) : M unit :=
  fun w =>
    (Returned tt,
     log (EvCacheSet key)
       {| w_clock := w_clock w; w_ttl := w_ttl w;
          w_cache := <[key := row]> (w_cache w);
          w_net := w_net w; w_calls := w_calls w; w_app := w_app w;
          w_trace := w_trace w |}).

(** [re.fullmatch(r"\d{14}", s)] *)
Definition fullmatch_d14 (s : string) : bool :=
  (String.length s =? 14)%nat && Py.all Py.is_digit s.

Definition text_or_empty (o : option string) : string :=
  match o with Some s => s | None => "" end.

(** The dict that [_cache_get] builds from a row ([row[i] or ""]). *)
Definition cached_result (key : string) (row : CacheRow) : Resultado :=
  {| cnpj := key;
     razao_social := text_or_empty (c_razao_social row);
     simples_nacional := text_or_empty (c_simples_nacional row);
     simei := text_or_empty (c_simei row);
     data_consulta := text_or_empty (c_data_consulta row);
     erro := "";
     _cached := true |}.

Definition _cache_get (key : string) (ttl_seconds : Z) : M (option Resultado) :=
  let* now_ts := time_time in
  let* row := read_cache key in
  match row with
  | None => ret None
  | Some row =>
      let fetched_at := match c_fetched_at row with Some t => t | None => 0 end in
      if (0 <? ttl_seconds) && (0 <? fetched_at) && (ttl_seconds <? now_ts - fetched_at)
      then ret None
      else ret (Some (cached_result key row))
  end.

Definition _cache_set (payload : Resultado) : M unit :=
  let key := cnpj payload in
  if negb (fullmatch_d14 key) then ret tt
  else
    let* now_ts := time_time in
    upsert_cache key
      {| c_razao_social := Some (razao_social payload);
         c_simples_nacional := Some (simples_nacional payload);
         c_simei := Some (simei payload);
         c_data_consulta := Some (data_consulta payload);
         c_fetched_at := Some now_ts |}.

(** [re.sub(r"\D+", "", str(cnpj or ""))] *)
Definition _clean_cnpj (text : string) : string := Py.filter Py.is_digit text.

(** *** Reading the API's answer *)

(** Python truth value *)
Definition truthy (v : json) : bool :=
  match v with
  | JNull => false
  | JBool b => b
  | JInt n => negb (n =? 0)
  | JFloat x => negb (Qeq_bool x 0)
  | JStr s => negb (String.eqb s "")
  | JList items => match items with [] => false | _ => true end
  | JDict members => match members with [] => false | _ => true end
  end.

Definition type_name (v : json) : string :=
  match v with
  | JNull => "NoneType"
  | JBool _ => "bool"
  | JInt _ => "int"
  | JFloat _ => "float"
  | JStr _ => "str"
  | JList _ => "list"
  | JDict _ => "dict"
  end.

Fixpoint lookup_member (members : list (string * json)) (k : string) : option json :=
  match members with
  | [] => None
  | (k', v) :: rest => if String.eqb k' k then Some v else lookup_member rest k
  end.

(** [obj.get(k)]: only a dict has the method. *)
Definition dict_get (obj : json) (k : string) : Outcome json :=
  match obj with
  | JDict members =>
      Returned (match lookup_member members k with Some v => v | None => JNull end)
  | _ => Raised (AttributeError ("'" ++ type_name obj ++ "' object has no attribute 'get'"))
  end.

(** [a or <c>], where [c] is evaluated only when [a] is false *)
Definition or_else (a : json) (c : Outcome json) : Outcome json :=
  if truthy a then Returned a else c.

Definition SIM : list string := ["sim"; "s"; "yes"; "true"; "1"; "optante"].
Definition NAO : list string :=
  ["nao"; "não"; "n"; "no"; "false"; "0"; "nao optante"; "não optante"].

Definition _as_sim_nao (value : json) : string :=
  match value with
  | JNull => ""
  | JBool b => if b then "Sim" else "Não"
  | JInt n =>
      if (n =? 0) || (n =? 1) then (if n =? 1 then "Sim" else "Não") else ""
  | JFloat x =>
      if Qeq_bool x 0 || Qeq_bool x 1
      then (if int_of_float x =? 1 then "Sim" else "Não") else ""
  | JStr text =>
      let s := Py.lower (Py.strip text) in
      if Py.mem s SIM then "Sim"
      else if Py.mem s NAO then "Não"
      else if Py.contains "optante" s && negb (Py.contains "nao" s)
              && negb (Py.contains "não" s) then "Sim"
      else if Py.contains "não" s || Py.contains "nao" s then "Não"
      else ""
  | JList _ | JDict _ => ""
  end.

Definition FLAG_KEYS : list string :=
  ["optant"; "opted"; "is_optant"; "isOptant"; "is_opted"; "option";
   "enabled"; "mei"; "active"; "status"].

(** The special reading of a textual ["status"] member. *)
Definition status_text (k : string) (v : json) : option string :=
  match v with
  | JStr text =>
      if String.eqb k "status" then
        let sv := Py.lower (Py.strip text) in
        if Py.contains "opt" sv && negb (Py.contains "non" sv)
           && negb (Py.contains "nao" sv) && negb (Py.contains "não" sv)
        then Some "Sim"
        else if Py.contains "non" sv || Py.contains "nao" sv || Py.contains "não" sv
        then Some "Não"
        else None
      else None
  | _ => None
  end.

Fixpoint flag_by_keys (keys : list string) (members : list (string * json)) : option string :=
  match keys with
  | [] => None
  | k :: ks =>
      match lookup_member members k with
      | None => flag_by_keys ks members
      | Some v =>
          match status_text k v with
          | Some out => Some out
          | None =>
              let out := _as_sim_nao v in
              if String.eqb out "" then flag_by_keys ks members else Some out
          end
      end
  end.

Fixpoint flag_by_values (values : list json) : string :=
  match values with
  | [] => ""
  | v :: vs =>
      let out := _as_sim_nao v in
      if String.eqb out "" then flag_by_values vs else out
  end.

Definition _extract_optant_flag (obj : json) : string :=
  match obj with
  | JNull => ""
  | JBool _ | JInt _ | JFloat _ | JStr _ => _as_sim_nao obj
  | JDict members =>
      match flag_by_keys FLAG_KEYS members with
      | Some out => out
      | None => flag_by_values (map snd members)
      end
  | JList _ => ""
  end.

Definition NAME_KEYS : list string :=
  ["name"; "legal_name"; "corporate_name"; "razao_social"; "company_name";
   "social_reason"].
Definition ALIAS_KEYS : list string :=
  ["alias"; "trade_name"; "fantasy_name"; "nome_fantasia"].

(** [for k in keys: v = company.get(k); if isinstance(v, str) and
    v.strip(): return v.strip()] *)
Fixpoint first_name (keys : list string) (company : json) : Outcome (option string) :=
  match keys with
  | [] => Returned None
  | k :: ks =>
      let+ v := dict_get company k in
      match v with
      | JStr text =>
          if String.eqb (Py.strip text) "" then first_name ks company
          else Returned (Some (Py.strip text))
      | _ => first_name ks company
      end
  end.

Definition _pick_razao_social (data : json) : Outcome string :=
  let+ c := dict_get (if truthy data then data else JDict []) "company" in
  let company := if truthy c then c else JDict [] in
  let+ found := first_name NAME_KEYS company in
  match found with
  | Some name => Returned name
  | None =>
      let+ found := first_name ALIAS_KEYS company in
      Returned (match found with Some name => name | None => "" end)
  end.

(** *** The lookup *)

Definition RATE_LIMIT : string :=
  "Rate limit excedido (API pública: 5 consultas/min). Vou aguardar e tentar novamente.".

Definition CNPJ_INVALIDO : string := "CNPJ inválido (precisa ter 14 dígitos)".

(** The dict returned on every path but success and cache hit. *)
Definition falha (cnpj_clean now err : string) : Resultado :=
  {| cnpj := cnpj_clean; razao_social := ""; simples_nacional := "";
     simei := ""; data_consulta := now; erro := err; _cached := false |}.

(** [wait_s]: 60 unless the header is present, non-empty and
    [int(float(...))] accepts it. *)
Definition retry_wait (retry_after : option string) : Z :=
  match retry_after with
  | Some text =>
      if String.eqb text "" then 60
      else match Py.int_float text with Some n => n | None => 60 end
  | None => 60
  end.

(** How one iteration of the retry loop ends: [continue] (with the value
    of [last_err]) or [return]. *)
Inductive Step :=
| Continue (last_err : string)
| Return (r : Resultado).

(** From [data = r.json() or {}] to the dict [payload]. *)
Definition montar_payload (cnpj_clean now : string) (parsed : json) : Outcome Resultado :=
  let data := if truthy parsed then parsed else JDict [] in
  let+ c := dict_get data "company" in
  let company := if truthy c then c else JDict [] in
  let+ s1 := dict_get company "simples" in
  let+ simples_obj :=
    or_else s1 (let+ s2 := dict_get company "simples_nacional" in
                or_else s2 (dict_get data "simples")) in
  let+ m1 := dict_get company "simei" in
  let+ simei_obj :=
    or_else m1 (let+ m2 := dict_get company "mei" in
                or_else m2 (let+ m3 := dict_get data "simei" in
                            or_else m3 (dict_get data "mei"))) in
  let+ name := _pick_razao_social data in
  Returned {| cnpj := cnpj_clean; razao_social := name;
              simples_nacional := _extract_optant_flag simples_obj;
              simei := _extract_optant_flag simei_obj;
              data_consulta := now; erro := ""; _cached := false |}.

Definition tentativa (cnpj_clean now url : string) (use_cache : bool)
    (attempt attempts : Z) : M Step :=
  except_RequestException
    (let* (code, retry_after, body) := requests_get url in
     if code =? 429 then
       let wait_s := retry_wait retry_after in
       if attempt <? attempts
       then time_sleep (inject_Z (Py.maxZ 1 (Py.minZ 90 wait_s))) ;;
            ret (Continue RATE_LIMIT)
       else ret (Return (falha cnpj_clean now RATE_LIMIT))
     else if 500 <=? code then
       let last_err := "Erro HTTP " ++ pretty code ++ " (servidor) ao consultar CNPJá" in
       if attempt <? attempts
       then time_sleep (inject_Z (Py.minZ 20 (2 ^ attempt))) ;;
            ret (Continue last_err)
       else ret (Return (falha cnpj_clean now last_err))
     else if 400 <=? code then
       ret (Return (falha cnpj_clean now
                      ("Erro HTTP " ++ pretty code ++ " ao consultar CNPJá")))
     else
       let* parsed := lift (r_json body) in
       let* payload := lift (montar_payload cnpj_clean now parsed) in
       (if use_cache then _cache_set payload else ret tt) ;;
       ret (Return payload))
    (fun cls msg =>
       let last_err := "Erro de rede: " ++ cls ++ ": " ++ msg in
       if attempt <? attempts
       then time_sleep (inject_Z (Py.minZ 15 (2 ^ attempt))) ;;
            ret (Continue last_err)
       else ret (Return (falha cnpj_clean now last_err))).

(** [for attempt in range(...)], with the fallback after the loop. *)
Fixpoint tentativas (cnpj_clean now url : string) (use_cache : bool)
    (attempts : Z) (range : list Z) (last_err : string) : M Resultado :=
  match range with
  | [] => ret (falha cnpj_clean now (Py.str_or last_err "Falha desconhecida"))
  | attempt :: rest =>
      let* step := tentativa cnpj_clean now url use_cache attempt attempts in
      match step with
      | Return r => ret r
      | Continue err => tentativas cnpj_clean now url use_cache attempts rest err
      end
  end.

(** [range(a, b)] *)
Definition py_range (a b : Z) : list Z :=
  map (fun i => a + Z.of_nat i) (seq 0 (Z.to_nat (b - a))).

(** [consultar_optante(cnpj, use_cache=..., cache_ttl_seconds=...,
    max_retries=...)].  The arguments [timeout] and [cache_path] have no
    counterpart: a timeout is one of the ways [requests.get] fails, and
    there is one cache table. *)
Definition consultar_optante (cnpj_in : string) (use_cache : bool)
    (cache_ttl_seconds max_retries : Z) : M Resultado :=
  let cnpj_clean := _clean_cnpj cnpj_in in
  let* now := datetime_now in
  if negb (fullmatch_d14 cnpj_clean)
  then ret (falha cnpj_clean now CNPJ_INVALIDO)
  else
    let* cached :=
      if use_cache then _cache_get cnpj_clean cache_ttl_seconds else ret None in
    match cached with
    | Some hit => ret hit
    | None =>
        let url := OPEN_CNPJA_BASE ++ "/" ++ cnpj_clean in
        let attempts := Py.maxZ 1 max_retries in
        tentativas cnpj_clean now url use_cache attempts
          (py_range 1 (attempts + 1)) ""
    end.

(** ** app/services/consulta_optantes.py *)

Definition PUBLIC_API_MIN_DELAY : Q := 25 # 2.

(** A row of [df.attrs["invalidos"]], by the two cells that are read:
    [str(row.get("cnpj", ""))] and [str(row.get("cnpj_input", ""))]. *)
Record Invalido := {
  i_cnpj : string;
  i_cnpj_input : string
}.

(** The data frame handed to the runner: its column ["cnpj"], if it has
    one, with [None] for a missing cell, and [attrs.get("invalidos")]. *)
Record DataFrame := {
  col_cnpj : option (list (option string));
  attrs_invalidos : option (list Invalido)
}.

(** [progress_cb(done, total)] and [should_cancel()] act on the
    application state; the first may raise an [Exception]. *)
Definition ProgressCb : Type := Z -> Z -> App -> option Exn * App.
Definition CancelCb : Type := App -> bool * App.

(** [df["cnpj"].dropna().astype(str).tolist()] *)
Definition cnpjs_of (df_validos : option DataFrame) : list string :=
  match df_validos with
  | Some df =>
      match col_cnpj df with
      | Some cells => omap id cells
      | None => []
      end
  | None => []
  end.

Definition invalidos_of (df_validos : option DataFrame) : option (list Invalido) :=
  match df_validos with
  | Some df => attrs_invalidos df
  | None => None
  end.

Definition total_of (df_validos : option DataFrame) : Z :=
  Z.of_nat (length (cnpjs_of df_validos)) +
  match invalidos_of df_validos with
  | Some rows => Z.of_nat (length rows)
  | None => 0
  end.

(** [_tick()]: whatever the callback raises is dropped. *)
Definition _tick (progress_cb : option ProgressCb) (done total : Z) : M unit :=
  match progress_cb with
  | Some cb =>
      emit (EvProgress done total) ;;
      let* _ := on_app (cb done total) in
      ret tt
  | None => ret tt
  end.

(** [should_cancel and should_cancel()] *)
Definition cancel_requested (should_cancel : option CancelCb) : M bool :=
  match should_cancel with
  | Some sc =>
      let* b := on_app sc in
      emit (EvPoll b) ;;
      ret b
  | None => ret false
  end.

(** [r.pop("_cached", False)] leaves the row. *)
Definition pop_cached (r : Resultado) : bool * Linha :=
  (_cached r,
   {| l_cnpj := cnpj r; l_razao_social := razao_social r;
      l_simples_nacional := simples_nacional r; l_simei := simei r;
      l_data_consulta := data_consulta r; l_erro := erro r |}).

(** The loop over the valid identifiers; [consultar_optante(cnpj)] runs
    with its defaults.  [sleep_seconds] is a float here, so the guarded
    conversion [float(sleep_seconds)] is the identity. *)
Fixpoint lote_validos (progress_cb : option ProgressCb)
    (should_cancel : option CancelCb) (sleep_seconds : Q) (total : Z)
    (cnpjs : list string) (resultados : list Linha) (done : Z)
    : M (list Linha * Z) :=
  match cnpjs with
  | [] => ret (resultados, done)
  | c :: rest =>
      let* stop := cancel_requested should_cancel in
      if stop then ret (resultados, done)
      else
        let* ttl := default_cache_ttl in
        let* r := consultar_optante c true ttl 3 in
        emit (EvResult r) ;;
        let '(cached, row) := pop_cached r in
        let resultados := (resultados ++ [row])%list in
        let done := done + 1 in
        _tick progress_cb done total ;;
        (if negb cached then time_sleep (Py.maxQ 0 sleep_seconds) else ret tt) ;;
        lote_validos progress_cb should_cancel sleep_seconds total rest
          resultados done
  end.

(** The loop over the invalid rows. *)
Fixpoint lote_invalidos (progress_cb : option ProgressCb) (total : Z)
    (rows : list Invalido) (resultados : list Linha) (done : Z)
    : M (list Linha) :=
  match rows with
  | [] => ret resultados
  | row :: rest =>
      let* now := datetime_now in
      let resultados :=
        (resultados ++
         [{| l_cnpj := Py.str_or (i_cnpj row) (i_cnpj_input row);
             l_razao_social := ""; l_simples_nacional := ""; l_simei := "";
             l_data_consulta := now; l_erro := CNPJ_INVALIDO |}])%list in
      let done := done + 1 in
      _tick progress_cb done total ;;
      lote_invalidos progress_cb total rest resultados done
  end.

(** [selenium_close()] *)
Definition selenium_close : M unit := ret tt.

(** [try: c  finally: f] *)
Definition try_finally {A} (c : M A) (f : M unit) : M A :=
  fun w =>
    let '(o, w1) := c w in
    match f w1 with
    | (Returned _, w2) => (o, w2)
    | (Raised e, w2) => (Raised e, w2)
    end.

(** The result is the table of the rows, in order ([pd.DataFrame] with the
    six columns in both branches of the final test). *)
Definition consultar_optante_lote (df_validos : option DataFrame)
    (sleep_seconds : Q) (progress_cb : option ProgressCb)
    (should_cancel : option CancelCb) : M (list Linha) :=
  let cnpjs := cnpjs_of df_validos in
  let invalidos := invalidos_of df_validos in
  let total := total_of df_validos in
  let sleep_seconds := Py.maxQ PUBLIC_API_MIN_DELAY sleep_seconds in
  _tick progress_cb 0 total ;;
  try_finally
    (let* (resultados, done) :=
       lote_validos progress_cb should_cancel sleep_seconds total cnpjs [] 0 in
     let* stop := cancel_requested should_cancel in
     if stop then ret resultados
     else
       match invalidos with
       | Some rows => lote_invalidos progress_cb total rows resultados done
       | None => ret resultados
       end)
    selenium_close.

(** ** app/services/io_files.py: the output file *)

(** [str.replace(r"\\D+", "", regex=True)]: the pattern is a backslash
    followed by one or more capital D.  [in_match] tells that the scan is
    inside such a match. *)
Fixpoint sub_backslash_D (in_match : bool) (s : string) : string :=
  match s with
  | EmptyString => EmptyString
  | String c r =>
      if in_match && Ascii.eqb c "D" then sub_backslash_D true r
      else if Ascii.eqb c "\" && String.prefix "D" r then sub_backslash_D true r
      else String c (sub_backslash_D false r)
  end.

Definition cnpj_as_text (row : Linha) : Linha :=
  {| l_cnpj := Py.zfill 14 (sub_backslash_D false (l_cnpj row));
     l_razao_social := l_razao_social row;
     l_simples_nacional := l_simples_nacional row;
     l_simei := l_simei row;
     l_data_consulta := l_data_consulta row;
     l_erro := l_erro row |}.

Definition build_output_bytes (df_out : list Linha) (output : string) : Outcome FileBytes :=
  let output := Py.strip (Py.lower output) in
  let df_out := map cnpj_as_text df_out in
  if String.eqb output "csv" then Returned (CsvFile df_out)
  else if String.eqb output "xlsx" then Returned (XlsxFile df_out)
  else Raised (HTTPException 400 "output deve ser csv ou xlsx").

(** ** app/main.py *)

Definition exn_name (e : Exn) : string :=
  match e with
  | RequestException cls _ => cls
  | AttributeError _ => "AttributeError"
  | HTTPException _ _ => "HTTPException"
  | KeyError _ => "KeyError"
  | CallbackError cls _ => cls
  end.

Definition exn_str (e : Exn) : string :=
  match e with
  | RequestException _ msg => msg
  | AttributeError msg => msg
  | HTTPException code detail => pretty code ++ ": " ++ detail
  | KeyError key => "'" ++ key ++ "'"
  | CallbackError _ msg => msg
  end.

Definition set_status (s : Status) (j : Job) : Job :=
  {| j_status := s; j_progress := j_progress j; j_total := j_total j;
     j_done := j_done j; j_file_bytes := j_file_bytes j;
     j_file_name := j_file_name j; j_error := j_error j;
     j_cancel_event := j_cancel_event j |}.

Definition set_progress (p : Z) (j : Job) : Job :=
  {| j_status := j_status j; j_progress := p; j_total := j_total j;
     j_done := j_done j; j_file_bytes := j_file_bytes j;
     j_file_name := j_file_name j; j_error := j_error j;
     j_cancel_event := j_cancel_event j |}.

Definition set_total (t : Z) (j : Job) : Job :=
  {| j_status := j_status j; j_progress := j_progress j; j_total := t;
     j_done := j_done j; j_file_bytes := j_file_bytes j;
     j_file_name := j_file_name j; j_error := j_error j;
     j_cancel_event := j_cancel_event j |}.

Definition set_done (j : Job) : Job :=
  {| j_status := j_status j; j_progress := j_progress j; j_total := j_total j;
     j_done := true; j_file_bytes := j_file_bytes j;
     j_file_name := j_file_name j; j_error := j_error j;
     j_cancel_event := j_cancel_event j |}.

Definition set_file_bytes (b : FileBytes) (j : Job) : Job :=
  {| j_status := j_status j; j_progress := j_progress j; j_total := j_total j;
     j_done := j_done j; j_file_bytes := Some b;
     j_file_name := j_file_name j; j_error := j_error j;
     j_cancel_event := j_cancel_event j |}.

Definition set_error (msg : string) (j : Job) : Job :=
  {| j_status := j_status j; j_progress := j_progress j; j_total := j_total j;
     j_done := j_done j; j_file_bytes := j_file_bytes j;
     j_file_name := j_file_name j; j_error := Some msg;
     j_cancel_event := j_cancel_event j |}.

Definition set_cancel_event (j : Job) : Job :=
  {| j_status := j_status j; j_progress := j_progress j; j_total := j_total j;
     j_done := j_done j; j_file_bytes := j_file_bytes j;
     j_file_name := j_file_name j; j_error := j_error j;
     j_cancel_event := true |}.

Definition with_jobs (js : gmap string Job) (app : App) : App :=
  {| jobs := js; incoming := incoming app; observations := observations app |}.

(** [JOBS[job_id][...] = ...]: a [KeyError] when the job is not there. *)
Definition update_job (job_id : string) (f : Job -> Job) (app : App) : option Exn * App :=
  match jobs app !! job_id with
  | Some j => (None, with_jobs (<[job_id := f j]> (jobs app)) app)
  | None => (Some (KeyError job_id), app)
  end.

Definition job_update (job_id : string) (f : Job -> Job) : M unit :=
  let* failed := on_app (update_job job_id f) in
  match failed with
  | Some e => raise e
  | None => ret tt
  end.

(** [JOBS[job_id]] *)
Definition get_job (job_id : string) : M Job :=
  fun w =>
    match jobs (w_app w) !! job_id with
    | Some j => (Returned j, w)
    | None => (Raised (KeyError job_id), w)
    end.

(** [POST /cancel/{job_id}]; the value is the ["status"] of the reply. *)
Definition cancelar (job_id : string) (app : App) : Outcome Status * App :=
  match jobs app !! job_id with
  | None => (Raised (HTTPException 404 "job não encontrado"), app)
  | Some job =>
      if j_done job then (Returned (j_status job), app)
      else
        let job := set_cancel_event job in
        let job :=
          match j_status job with
          | Queued | Running => set_status Canceling job
          | _ => job
          end in
        (Returned Canceling, with_jobs (<[job_id := job]> (jobs app)) app)
  end.

(** The event loop serves the cancel request, if any, that came in since
    the worker's previous observation. *)
Definition serve_incoming (app : App) : App :=
  let app' :=
    match incoming app (observations app) with
    | Some id => snd (cancelar id app)
    | None => app
    end in
  {| jobs := jobs app'; incoming := incoming app';
     observations := S (observations app') |}.

(** [bool(JOBS.get(job_id, {}).get("cancel_event") and
    JOBS[job_id]["cancel_event"].is_set())] *)
Definition cancel_event_is_set (job_id : string) (app : App) : bool :=
  match jobs app !! job_id with
  | Some job => j_cancel_event job
  | None => false
  end.

(** The [should_cancel] that [processar_job] passes. *)
Definition job_should_cancel (job_id : string) : CancelCb :=
  fun app =>
    let app := serve_incoming app in
    (cancel_event_is_set job_id app, app).

(** The [progress_cb] that [processar_job] passes. *)
Definition job_progress_cb (job_id : string) : ProgressCb :=
  fun done total app =>
    update_job job_id (fun j => set_progress done (set_total total j)) app.

Definition novo_job (output : string) (total : Z) : Job :=
  {| j_status := Queued; j_progress := 0; j_total := total; j_done := false;
     j_file_bytes := None; j_file_name := "resultado." ++ output;
     j_error := None; j_cancel_event := false |}.

(** [POST /lotes], from the parsed upload on; [job_id] is the fresh uuid.
    The value is the job id and the clamped delay with which
    [processar_job] is scheduled. *)
Definition criar_lote (df : DataFrame) (output : string) (sleep_seconds : Q)
    (job_id : string) : M (string * Q) :=
  let output := Py.strip (Py.lower output) in
  if negb (Py.mem output ["csv"; "xlsx"])
  then raise (HTTPException 400 "output deve ser csv ou xlsx")
  else
    let sleep_seconds := Py.maxQ (25 # 2) sleep_seconds in
    match col_cnpj df with
    | None => raise (HTTPException 500 "DataFrame sem coluna 'cnpj'.")
        (* the detail goes on with the list of the columns *)
    | Some cells =>
        let cnpjs : list string := omap id cells in
        let total_invalidos :=
          match attrs_invalidos df with
          | Some rows => Z.of_nat (length rows)
          | None => 0
          end in
        if (match cnpjs with [] => true | _ => false end) && (total_invalidos =? 0)
        then raise (HTTPException 400
                      "Nenhum CNPJ encontrado no arquivo (válido ou inválido).")
        else
          on_app (fun app =>
                    (tt, with_jobs
                           (<[job_id := novo_job output
                                          (Z.of_nat (length cnpjs) + total_invalidos)]>
                              (jobs app)) app)) ;;
          ret (job_id, sleep_seconds)
    end.

(** [except Exception as e: ...] *)
Definition except_Exception {A} (c : M A) (h : Exn -> M A) : M A :=
  fun w =>
    match c w with
    | (Raised e, w') => h e w'
    | other => other
    end.

(** The completion of the job, from [build_output_bytes] on.  The cancel
    request that may have come in while the file was built is served
    before the job table is locked. *)
Definition finalizar (job_id output : string) (df_out : list Linha) : M unit :=
  let* file_bytes := lift (build_output_bytes df_out output) in
  on_app (fun app => (tt, serve_incoming app)) ;;
  job_update job_id (set_file_bytes file_bytes) ;;
  job_update job_id set_done ;;
  let* job := get_job job_id in
  if j_cancel_event job
  then job_update job_id (set_status Canceled)
  else
    job_update job_id (set_status Done) ;;
    job_update job_id (fun j => set_progress (j_total j) j).

(** The handler of [except Exception as e]. *)
Definition falhar (job_id : string) (e : Exn) : M unit :=
  job_update job_id (set_status Error) ;;
  job_update job_id (set_error (exn_name e ++ ": " ++ exn_str e)) ;;
  job_update job_id set_done.

Definition processar_job (job_id : string) (df_validos : DataFrame)
    (output : string) (sleep_seconds : Q) : M unit :=
  except_Exception
    (job_update job_id (set_status Running) ;;
     let* df_out :=
       consultar_optante_lote (Some df_validos) sleep_seconds
         (Some (job_progress_cb job_id)) (Some (job_should_cancel job_id)) in
     finalizar job_id output df_out)
    (falhar job_id).

(** [GET /download/{job_id}]: the bytes that are streamed. *)
Definition download (job_id : string) (app : App) : Outcome FileBytes :=
  match jobs app !! job_id with
  | None => Raised (HTTPException 404 "job não encontrado")
  | Some job =>
      match j_done job, j_file_bytes job with
      | true, Some bytes => Returned bytes
      | _, _ => Raised (HTTPException 409 "Arquivo ainda não está pronto")
      end
  end.


(** ** Reading the event log *)

Definition is_get (e : Event) : bool :=
  match e with EvGet _ _ => true | _ => false end.

(** The number of requests in a stretch of the log. *)
Definition gets (tr : list Event) : Z := Z.of_nat (length (List.filter is_get tr)).

Definition polls (tr : list Event) : list bool :=
  omap (fun e => match e with EvPoll b => Some b | _ => None end) tr.

Definition progress_reports (tr : list Event) : list (Z * Z) :=
  omap (fun e => match e with EvProgress d t => Some (d, t) | _ => None end) tr.

Definition results (tr : list Event) : list Resultado :=
  omap (fun e => match e with EvResult r => Some r | _ => None end) tr.

(** The events that one lookup can produce. *)
Definition lookup_event (e : Event) : bool :=
  match e with
  | EvGet _ _ | EvSleep _ | EvCacheSet _ => true
  | _ => false
  end.

(** The log after an item's result, past the progress report if there is
    one. *)
Definition after_tick (post : list Event) : list Event :=
  match post with
  | EvProgress _ _ :: rest => rest
  | _ => post
  end.

(** ** The retry loop, as a relation on the log

    [retryable attempt answer] is the pause and the value of [last_err]
    for an answer that the loop retries: a 429, a 5xx, a network failure
    or a body that is not JSON. *)
Definition retryable (attempt : Z) (answer : HttpOutcome) : option (Q * string) :=
  match answer with
  | NetFail cls msg =>
      Some (inject_Z (Py.minZ 15 (2 ^ attempt)), "Erro de rede: " ++ cls ++ ": " ++ msg)
  | Response code hdr body =>
      if code =? 429
      then Some (inject_Z (Py.maxZ 1 (Py.minZ 90 (retry_wait hdr))), RATE_LIMIT)
      else if 500 <=? code
      then Some (inject_Z (Py.minZ 20 (2 ^ attempt)),
                 "Erro HTTP " ++ pretty code ++ " (servidor) ao consultar CNPJá")
      else if 400 <=? code then None
      else match body with
           | BadJson msg =>
               Some (inject_Z (Py.minZ 15 (2 ^ attempt)),
                     "Erro de rede: JSONDecodeError: " ++ msg)
           | Json _ => None
           end
  end.

(** [retry_run net c now url use_cache attempts a i tr res]: from attempt
    [a], when the next request is the [i]-th, the loop logs [tr] and ends
    with [res]. *)
Inductive retry_run (net : nat -> HttpOutcome) (c now url : string)
    (use_cache : bool) (attempts : Z)
    : Z -> nat -> list Event -> Outcome Resultado -> Prop :=
| run_retry a i pause err tr res :
    retryable a (net i) = Some (pause, err) ->
    a < attempts ->
    retry_run net c now url use_cache attempts (a + 1) (S i) tr res ->
    retry_run net c now url use_cache attempts a i
      (EvGet url (net i) :: EvSleep pause :: tr) res
| run_exhausted a i pause err :
    retryable a (net i) = Some (pause, err) ->
    attempts <= a ->
    retry_run net c now url use_cache attempts a i
      [EvGet url (net i)] (Returned (falha c now err))
| run_client_error a i code hdr body :
    net i = Response code hdr body ->
    400 <= code < 500 -> code <> 429 ->
    retry_run net c now url use_cache attempts a i
      [EvGet url (net i)]
      (Returned (falha c now ("Erro HTTP " ++ pretty code ++ " ao consultar CNPJá")))
| run_payload a i code hdr v p :
    net i = Response code hdr (Json v) ->
    code < 400 ->
    montar_payload c now v = Returned p ->
    retry_run net c now url use_cache attempts a i
      (EvGet url (net i) ::
       (if use_cache && fullmatch_d14 c then [EvCacheSet c] else []))
      (Returned p)
| run_raise a i code hdr v msg :
    net i = Response code hdr (Json v) ->
    code < 400 ->
    montar_payload c now v = Raised (AttributeError msg) ->
    retry_run net c now url use_cache attempts a i
      [EvGet url (net i)] (Raised (AttributeError msg)).

(** Reading the answer raises nothing but [AttributeError]. *)
Definition attr_only {A} (o : Outcome A) : Prop :=
  match o with
  | Returned _ | Raised (AttributeError _) => True
  | Raised _ => False
  end.

(** What a lookup leaves alone: the API's answers, the application state
    and the configured ttl. *)
Definition same_env (w w' : World) : Prop :=
  w_net w' = w_net w /\ w_app w' = w_app w /\ w_ttl w' = w_ttl w.

(** ** Answers that the lookup can read

    A value is read with [.get] only when it is a dict; [x or {}] makes a
    dict of every false value.  A body is well formed when the document,
    and its member ["company"], are each a dict or false. *)
Definition dict_or_false (v : json) : bool :=
  match v with
  | JDict _ => true
  | _ => negb (truthy v)
  end.

Definition company_of (v : json) : json :=
  match v with
  | JDict members => default JNull (lookup_member members "company")
  | _ => JNull
  end.

Definition body_well_formed (b : Body) : bool :=
  match b with
  | BadJson _ => true
  | Json v => dict_or_false v && dict_or_false (company_of v)
  end.

(** Only the body of an answer below 400 is read. *)
Definition answer_well_formed (o : HttpOutcome) : bool :=
  match o with
  | NetFail _ _ => true
  | Response code _ body => (400 <=? code) || body_well_formed body
  end.

Definition returns {A} (o : Outcome A) : Prop := exists a, o = Returned a.

(** ** The batch loop, as a relation on the log *)

Definition given {A} (o : option A) : bool :=
  match o with Some _ => true | None => false end.

Definition poll_events (has_sc : bool) (b : bool) : list Event :=
  if has_sc then [EvPoll b] else [].

Definition tick_events (has_cb : bool) (done total : Z) : list Event :=
  if has_cb then [EvProgress done total] else [].

Definition delay_events (delay : Q) (r : Resultado) : list Event :=
  if _cached r then [] else [EvSleep delay].

(** The log of one lookup: requests, retry pauses and cache writes, and it
    does not begin with a pause. *)
Definition lookup_log (tr : list Event) : Prop :=
  Forall (fun e => lookup_event e = true) tr /\
  match tr with
  | EvSleep _ :: _ => False
  | _ => True
  end.

(** How the loop over the valid identifiers ends: the list is exhausted,
    [should_cancel()] answered true, or a lookup raised. *)
Inductive LoopEnd :=
| Exhausted
| Broken
| Crashed (e : Exn).

(** [loop_run has_cb has_sc delay total cnpjs done tr rs ending]: the loop
    over [cnpjs], entered with [done] items behind it, logs [tr], gets the
    results [rs] and ends in [ending]. *)
Inductive loop_run (has_cb has_sc : bool) (delay : Q) (total : Z)
    : list string -> Z -> list Event -> list Resultado -> LoopEnd -> Prop :=
| loop_exhausted done :
    loop_run has_cb has_sc delay total [] done [] [] Exhausted
| loop_broken c rest done :
    has_sc = true ->
    loop_run has_cb has_sc delay total (c :: rest) done [EvPoll true] [] Broken
| loop_crashed c rest done log e :
    lookup_log log ->
    loop_run has_cb has_sc delay total (c :: rest) done
      (poll_events has_sc false ++ log) [] (Crashed e)
| loop_item c rest done log r tr rs ending :
    lookup_log log ->
    cnpj r = _clean_cnpj c ->
    loop_run has_cb has_sc delay total rest (done + 1) tr rs ending ->
    loop_run has_cb has_sc delay total (c :: rest) done
      (poll_events has_sc false ++ log ++
       EvResult r :: tick_events has_cb (done + 1) total ++
       delay_events delay r ++ tr)
      (r :: rs) ending.

(** The application state after [_tick()] and after
    [should_cancel and should_cancel()]. *)
Definition tick_app (cb : option ProgressCb) (done total : Z) (app : App) : App :=
  match cb with
  | Some f => snd (f done total app)
  | None => app
  end.

Definition poll_app (sc : option CancelCb) (app : App) : App :=
  match sc with
  | Some f => snd (f app)
  | None => app
  end.

Definition poll_answer (sc : option CancelCb) (app : App) : bool :=
  match sc with
  | Some f => fst (f app)
  | None => false
  end.

(** The progress reports of the loop over [n] invalid rows. *)
Fixpoint invalid_ticks (has_cb : bool) (total done : Z) (n : nat) : list Event :=
  match n with
  | O => []
  | S n' =>
      (tick_events has_cb (done + 1) total ++
       invalid_ticks has_cb total (done + 1) n')%list
  end.

Definition invalid_count (df_validos : option DataFrame) : nat :=
  match invalidos_of df_validos with
  | Some rows => length rows
  | None => O
  end.

(** The delay between requests that the runner uses. *)
Definition clamped_delay (sleep_seconds : Q) : Q :=
  Py.maxQ 0 (Py.maxQ PUBLIC_API_MIN_DELAY sleep_seconds).

(** A property of the application state that no callback breaks. *)
Definition kept_by (cb : option ProgressCb) (sc : option CancelCb)
    (I : App -> Prop) : Prop :=
  (forall d t a, I a -> I (tick_app cb d t a)) /\
  (forall a, I a -> I (poll_app sc a)).

(** The reports [(0, total), (1, total), ..., (k - 1, total)]. *)
Definition count_up (total : Z) (k : nat) : list (Z * Z) :=
  map (fun i => (Z.of_nat i, total)) (seq 0 k).

Definition is_result (e : Event) : bool :=
  match e with EvResult _ => true | _ => false end.

Definition is_sleep (e : Event) : bool :=
  match e with EvSleep _ => true | _ => false end.

Definition is_progress (e : Event) : bool :=
  match e with EvProgress _ _ => true | _ => false end.

Definition starts_with_sleep (tr : list Event) : Prop :=
  match tr with
  | EvSleep _ :: _ => True
  | _ => False
  end.

(** A loop log does not begin with a pause or a report. *)
Definition calm_head (tr : list Event) : Prop :=
  match tr with
  | [] => True
  | e :: _ => is_sleep e = false /\ is_progress e = false
  end.

(** The reading of the delay rule under which the runner would pause
    after a fresh lookup only when another item is left to process. *)
Definition sleeps_only_between_items (df_validos : option DataFrame)
    (sleep_seconds : Q) (cb : option ProgressCb) (sc : option CancelCb)
    (w : World) : Prop :=
  forall pre r post,
    w_trace (snd (consultar_optante_lote df_validos sleep_seconds cb sc w)) =
      (w_trace w ++ pre ++ EvResult r :: post)%list ->
    _cached r = false ->
    starts_with_sleep (after_tick post) ->
    (length (results pre) + 1 <
     length (cnpjs_of df_validos) + invalid_count df_validos)%nat.

(** ** The job, as the worker leaves it *)

(** The job is in the table and its cancel event is set. *)
Definition flagged (job_id : string) (app : App) : Prop :=
  exists job, jobs app !! job_id = Some job /\ j_cancel_event job = true.

(** A computation that logs nothing. *)
Definition silent {A} (c : M A) : Prop :=
  forall w, w_trace (snd (c w)) = w_trace w.

(** The rows of the lookups' results, as the runner keeps them. *)
Definition rows_of (rs : list Resultado) : list Linha :=
  map (fun r => snd (pop_cached r)) rs.

(** The callback that does to the application state what [cb] does, and
    raises nothing. *)
Definition muted (cb : ProgressCb) : ProgressCb :=
  fun done total app => (None, snd (cb done total app)).

(** ** Sample inputs *)

Module Sample.

Definition app : App :=
  {| jobs := ∅; incoming := fun _ => None; observations := 0 |}.

(** 2026-11-03 14:01:00 UTC *)
Definition clock : Q := 1793714460 # 1.

Definition world (net : nat -> HttpOutcome) (cache : gmap string CacheRow) : World :=
  {| w_clock := clock; w_ttl := 86400; w_cache := cache; w_net := net;
     w_calls := 0; w_app := app; w_trace := [] |}.

Definition acme : json :=
  JDict [("company",
          JDict [("name", JStr " ACME LTDA ");
                 ("simples", JDict [("optant", JBool true)]);
                 ("simei", JDict [("optant", JBool false)])])].

Definition always_ok : nat -> HttpOutcome :=
  fun _ => Response 200 None (Json acme).

(** An answer 200 whose body is a JSON array. *)
Definition array_body : nat -> HttpOutcome :=
  fun _ => Response 200 None (Json (JList [JInt 1])).

(** One 429 asking for 2.5 seconds, then success. *)
Definition limited_once : nat -> HttpOutcome :=
  fun i => match i with
           | O => Response 429 (Some "2.5") (BadJson "")
           | _ => Response 200 None (Json acme)
           end.

(** Every answer is a 429 without a [Retry-After] header. *)
Definition always_limited : nat -> HttpOutcome :=
  fun _ => Response 429 None (BadJson "").

(** An entry written five hours earlier, at 2026-11-03 09:00:00. *)
Definition old_row : CacheRow :=
  {| c_razao_social := Some "X SA"; c_simples_nacional := Some "Sim";
     c_simei := None; c_data_consulta := Some "2026-11-03 09:00:00";
     c_fetched_at := Some 1793696400 |}.

Definition payload : Resultado :=
  {| cnpj := "22222222000122"; razao_social := "ACME LTDA";
     simples_nacional := "Sim"; simei := "Não";
     data_consulta := "2026-11-03 14:01:00"; erro := ""; _cached := false |}.

End Sample.

Module SampleJobs.

(** One valid identifier, no invalid row. *)
Definition one_item : DataFrame :=
  {| col_cnpj := Some [Some "22222222000122"]; attrs_invalidos := Some [] |}.

Definition queued : Job := novo_job "csv" 4.

Definition app : App :=
  {| jobs := {[ "job-1" := queued ]}; incoming := fun _ => None;
     observations := 0 |}.

Definition finished : Job :=
  {| j_status := Done; j_progress := 4; j_total := 4; j_done := true;
     j_file_bytes := Some (CsvFile []); j_file_name := "resultado.csv";
     j_error := None; j_cancel_event := false |}.

Definition app_finished : App :=
  {| jobs := {[ "job-1" := finished ]}; incoming := fun _ => None;
     observations := 0 |}.

Definition url : string := "https://open.cnpja.com/office/22222222000122".

(** Three valid identifiers and one invalid row. *)
Definition three_items : DataFrame :=
  {| col_cnpj := Some [Some "11111111000111"; Some "22222222000122";
                       Some "33333333000133"];
     attrs_invalidos := Some [{| i_cnpj := ""; i_cnpj_input := "abc" |}] |}.

(** The job is queued; a cancel request for it is served between the
    worker's first and second look at the cancel signal. *)
Definition cancel_after_first : App :=
  {| jobs := {[ "job-1" := queued ]};
     incoming := fun n => match n with 1%nat => Some "job-1" | _ => None end;
     observations := 0 |}.

(** The first identifier is in the cache. *)
Definition world : World :=
  {| w_clock := Sample.clock; w_ttl := 86400;
     w_cache := {[ "11111111000111" := Sample.old_row ]};
     w_net := Sample.always_ok; w_calls := 0; w_app := cancel_after_first;
     w_trace := [] |}.

(** A callback that raises at every call, and one that does nothing. *)
Definition raising_cb : ProgressCb :=
  fun _ _ app => (Some (CallbackError "ZeroDivisionError" "division by zero"), app).

Definition idle_cb : ProgressCb := fun _ _ app => (None, app).

Definition first_hit : Resultado :=
  cached_result "11111111000111" Sample.old_row.

Definition canceled_log : list Event :=
  [EvProgress 0 4; EvPoll false; EvResult first_hit; EvProgress 1 4;
   EvPoll true; EvPoll true].

End SampleJobs.

(** ** Further notions for the properties below *)

(** The three values of a flag. *)
Definition tri_state (flag : string) : Prop :=
  flag = "Sim" \/ flag = "Não" \/ flag = "".

(** The row that [_cache_set] writes for a payload at epoch second [t]. *)
Definition stored_row (payload : Resultado) (t : Z) : CacheRow :=
  {| c_razao_social := Some (razao_social payload);
     c_simples_nacional := Some (simples_nacional payload);
     c_simei := Some (simei payload);
     c_data_consulta := Some (data_consulta payload);
     c_fetched_at := Some t |}.

(** A member that the reading of a flag passes over: it is missing, or
    neither the reading of ["status"] nor [_as_sim_nao] makes anything
    of it. *)
Definition passed_over (members : list (string * json)) (k : string) : Prop :=
  match lookup_member members k with
  | None => True
  | Some v => status_text k v = None /\ _as_sim_nao v = ""
  end.

(** A record as a cache hit hands it back: the same, marked as cached. *)
Definition as_hit (r : Resultado) : Resultado :=
  {| cnpj := cnpj r; razao_social := razao_social r;
     simples_nacional := simples_nacional r; simei := simei r;
     data_consulta := data_consulta r; erro := erro r; _cached := true |}.

(** The cache after a lookup that ended in [res]: a success that was not
    a hit, with the cache in use, wrote its row at second [t]. *)
Definition cache_after (key : string) (use_cache : bool) (t : Z)
    (res : Outcome Resultado) (cache : gmap string CacheRow)
    : gmap string CacheRow :=
  match res with
  | Returned r =>
      if String.eqb (erro r) "" && use_cache && negb (_cached r)
      then <[key := stored_row r t]> cache
      else cache
  | Raised _ => cache
  end.

(** The number of pauses in a stretch of the log. *)
Definition sleeps (tr : list Event) : Z :=
  Z.of_nat (length (List.filter is_sleep tr)).

(** A pause of the retry loop lasts between one and ninety seconds. *)
Definition pause_in_bounds (e : Event) : Prop :=
  match e with
  | EvSleep secs => (1 <= secs)%Q /\ (secs <= 90)%Q
  | _ => True
  end.

(** After a request that ends the lookup, the log holds at most the cache
    write. *)
Definition ends_lookup (post : list Event) : Prop :=
  Forall (fun e => is_get e = false /\ is_sleep e = false) post.

Module SampleRetry.

(** A 503, then the answer. *)
Definition unavailable_once : nat -> HttpOutcome :=
  fun i =>
    match i with
    | O => Response 503 None (BadJson "")
    | _ => Response 200 None (Json Sample.acme)
    end.

(** A timeout, then the answer. *)
Definition timeout_once : nat -> HttpOutcome :=
  fun i =>
    match i with
    | O => NetFail "ReadTimeout" "timed out"
    | _ => Response 200 None (Json Sample.acme)
    end.

(** The identifier is not known to the API. *)
Definition not_found : nat -> HttpOutcome :=
  fun _ => Response 404 None (BadJson "").

End SampleRetry.

(** ** The batch, by its rows *)

(** The record that the runner makes of an invalid row. *)
Definition linha_invalida (now : string) (row : Invalido) : Linha :=
  {| l_cnpj := Py.str_or (i_cnpj row) (i_cnpj_input row);
     l_razao_social := ""; l_simples_nacional := ""; l_simei := "";
     l_data_consulta := now; l_erro := CNPJ_INVALIDO |}.

(** The rows of [attrs.get("invalidos")], none when it is missing. *)
Definition invalid_rows (df_validos : option DataFrame) : list Invalido :=
  match invalidos_of df_validos with
  | Some rows => rows
  | None => []
  end.

(** What only a lookup touches: the clock, the request counter and the
    cache. *)
Definition same_store (w w' : World) : Prop :=
  w_clock w' = w_clock w /\ w_calls w' = w_calls w /\ w_cache w' = w_cache w.

(** ** The job, as requests and callbacks leave it *)

(** The job is in the table with the fields that only the end of the run
    writes as they are in [job0]. *)
Definition job_kept (job_id : string) (job0 : Job) (app : App) : Prop :=
  exists job,
    jobs app !! job_id = Some job /\
    j_done job = j_done job0 /\ j_file_bytes job = j_file_bytes job0 /\
    j_file_name job = j_file_name job0 /\ j_error job = j_error job0.

(** The status that a cancel request leaves. *)
Definition canceling_status (s : Status) : Status :=
  match s with
  | Queued | Running => Canceling
  | _ => s
  end.

(** ** app/services/io_files.py: finding the identifiers

    A cell is [None] or a value known by its [str(...)]; with
    [dtype=str] a missing cell is the float NaN, whose text is "nan". *)

Module io_files.

Definition CNPJ_COL_CANDIDATES : list string :=
  ["cnpj"; "cnpj_matriz"; "documento"; "doc"; "cpf_cnpj"; "cnpj/cpf"; "inscricao"].

Definition _clean_cnpj (value : option string) : string :=
  match value with
  | None => ""
  | Some text => Py.filter Py.is_digit text
  end.

Definition _is_valid_14 (cnpj : string) : bool := fullmatch_d14 cnpj.

(** The labels are the normalized ones, all of them [str]. *)
Definition _find_cnpj_column (columns : list string) : Outcome string :=
  match List.find (fun c => Py.mem c CNPJ_COL_CANDIDATES) columns with
  | Some c => Returned c
  | None =>
      match List.find (fun c => Py.contains "cnpj" c) columns with
      | Some c => Returned c
      | None =>
          match columns with
          | [c] => Returned c
          | _ => Raised (HTTPException 400 "Não achei coluna de CNPJ.")
              (* the detail goes on with the list of the columns *)
          end
      end
  end.

(** [int(s.apply(_is_valid_14).sum())] for [s = df[c].apply(_clean_cnpj)] *)
Definition score (cells : list (option string)) : Z :=
  Z.of_nat (length (List.filter (fun v => _is_valid_14 (_clean_cnpj v)) cells)).

(** The loop of [_guess_cnpj_column_by_content] over the columns, each
    with its cells (the labels are taken to be distinct, so that [df[c]]
    is the column itself). *)
Fixpoint guess_loop (columns : list (string * list (option string)))
    (best_col : option string) (best_score : Z) : option string * Z :=
  match columns with
  | [] => (best_col, best_score)
  | (c, cells) :: rest =>
      if best_score <? score cells
      then guess_loop rest (Some c) (score cells)
      else guess_loop rest best_col best_score
  end.

Definition _guess_cnpj_column_by_content
    (df : list (string * list (option string))) : option string :=
  let '(best_col, best_score) := guess_loop df None 0 in
  if 0 <? best_score then best_col else None.

(** [" ".join(["" if v is None else str(v) for v in row.values])] *)
Fixpoint join_cells (cells : list (option string)) : string :=
  match cells with
  | [] => ""
  | [v] => text_or_empty v
  | v :: rest => text_or_empty v ++ " " ++ join_cells rest
  end.

(** [re.sub(r"\D+", " ", text)]; [in_run] tells that the scan is inside a
    run of non-digits. *)
Fixpoint sub_D_space (in_run : bool) (text : string) : string :=
  match text with
  | EmptyString => EmptyString
  | String c r =>
      if Py.is_digit c then String c (sub_D_space false r)
      else if in_run then sub_D_space true r
      else String " " (sub_D_space true r)
  end.

(** [s.split()]; [token] is the token being read. *)
Fixpoint split (token : string) (s : string) : list string :=
  match s with
  | EmptyString => if String.eqb token "" then [] else [token]
  | String c r =>
      if Py.is_space c
      then (if String.eqb token "" then split "" r else token :: split "" r)
      else split (token ++ String c EmptyString) r
  end.

(** [\d{n}] at the head of [s]: the digits and what follows them. *)
Fixpoint digits_n (n : nat) (s : string) : option (string * string) :=
  match n with
  | O => Some (EmptyString, s)
  | S n' =>
      match s with
      | String c r =>
          if Py.is_digit c
          then match digits_n n' r with
               | Some (ds, rest) => Some (String c ds, rest)
               | None => None
               end
          else None
      | EmptyString => None
      end
  end.

(** An optional character, as in [\.?]: it is taken when it is there (the
    digit that the pattern wants next could not match it). *)
Definition optional (ch : ascii) (s : string) : string * string :=
  match s with
  | String c r => if Ascii.eqb c ch then (String c EmptyString, r) else (EmptyString, s)
  | EmptyString => (EmptyString, s)
  end.

Section Search.

(** Whether a text that is not empty begins with a word character
    ([\w]); it is asked of what follows a match, and of the reversed text
    before it.  Which characters beyond ASCII are word characters is
    Unicode's matter. *)
Variable starts_with_word : string -> bool.

(** There is no word boundary between two word characters; the digit on
    the pattern's side is one. *)
Definition no_boundary (next : string) : bool :=
  match next with
  | EmptyString => false
  | _ => starts_with_word next
  end.

(** [\d{2}\.?\d{3}\.?\d{3}/?\d{4}-?\d{2}\b] at the head of [s]: the text
    matched. *)
Definition match_here (s : string) : option string :=
  match digits_n 2 s with
  | None => None
  | Some (d1, s1) =>
      let '(p1, s2) := optional "." s1 in
      match digits_n 3 s2 with
      | None => None
      | Some (d2, s3) =>
          let '(p2, s4) := optional "." s3 in
          match digits_n 3 s4 with
          | None => None
          | Some (d3, s5) =>
              let '(p3, s6) := optional "/" s5 in
              match digits_n 4 s6 with
              | None => None
              | Some (d4, s7) =>
                  let '(p4, s8) := optional "-" s7 in
                  match digits_n 2 s8 with
                  | None => None
                  | Some (d5, s9) =>
                      if no_boundary s9 then None
                      else Some (d1 ++ p1 ++ d2 ++ p2 ++ d3 ++ p3 ++ d4 ++ p4 ++ d5)
                  end
              end
          end
      end
  end.

(** [re.search] of the pattern with its leading [\b]: the leftmost match;
    [before] is the text already passed, last character first. *)
Fixpoint search (before : string) (s : string) : option string :=
  match s with
  | EmptyString => None
  | String c r =>
      match (if no_boundary before then None else match_here s) with
      | Some m => Some m
      | None => search (String c before) r
      end
  end.

Definition _extract_first_cnpj_from_row (row : list (option string)) : string :=
  let text := join_cells row in
  let digits := sub_D_space false text in
  match List.find _is_valid_14 (split "" digits) with
  | Some token => token
  | None =>
      match search "" text with
      | Some m => _clean_cnpj (Some m)
      | None => ""
      end
  end.

(** *** [read_input_file_to_df], from the parsed frame on

    The reading of the CSV or Excel bytes is pandas' work; what follows it
    is modelled on the frame it yields: the labels as read, and the rows,
    each with one cell per label.  The labels are taken to be distinct
    once normalized, so that [df[col]] is a column, and the frame to have
    at least one row. *)

(** [str(v)] *)
Definition py_str (v : option string) : string :=
  match v with
  | None => "None"
  | Some text => text
  end.

(** [[str(c).strip().lower() for c in df.columns]] *)
Definition _normalize_columns (labels : list string) : list string :=
  map (fun c => Py.lower (Py.strip c)) labels.

Fixpoint column_index (col : string) (labels : list string) : option nat :=
  match labels with
  | [] => None
  | c :: rest =>
      if String.eqb c col then Some O
      else match column_index col rest with
           | Some i => Some (S i)
           | None => None
           end
  end.

(** [df[col]] *)
Definition column (labels : list string) (rows : list (list (option string)))
    (col : string) : list (option string) :=
  match column_index col labels with
  | Some i => map (fun row => nth i row None) rows
  | None => []
  end.

Definition columns_of (labels : list string) (rows : list (list (option string)))
    : list (string * list (option string)) :=
  map (fun c => (c, column labels rows c)) labels.

(** The column by its name and, when the name does not tell, by its
    content; [None] when neither does. *)
Definition choose_column (labels : list string) (rows : list (list (option string)))
    : Outcome (option string) :=
  match _find_cnpj_column labels with
  | Returned c => Returned (Some c)
  | Raised (HTTPException _ _) =>
      Returned (_guess_cnpj_column_by_content (columns_of labels rows))
  | Raised e => Raised e
  end.

(** [df.drop_duplicates(subset=["cnpj"])] on the identifiers: the first
    occurrence stays. *)
Fixpoint drop_duplicates (seen : list string) (cnpjs : list string) : list string :=
  match cnpjs with
  | [] => []
  | c :: rest =>
      if Py.mem c seen then drop_duplicates seen rest
      else c :: drop_duplicates (c :: seen) rest
  end.

(** The columns ["cnpj_input"], ["cnpj"] and ["cnpj_valido"] of a row. *)
Definition classify (input : option string) : option string * string * bool :=
  let cnpj := _clean_cnpj input in
  (input, cnpj, _is_valid_14 cnpj).

(** The frame that is returned, as the runner reads it: the column
    ["cnpj"] of the valid rows without duplicates, and the invalid rows in
    [attrs["invalidos"]]. *)
Definition split_rows (inputs : list (option string)) : DataFrame :=
  let rows := map classify inputs in
  let validos :=
    drop_duplicates []
      (map (fun r => snd (fst r)) (List.filter (fun r => snd r) rows)) in
  let invalidos :=
    map (fun r => {| i_cnpj := snd (fst r); i_cnpj_input := py_str (fst (fst r)) |})
      (List.filter (fun r => negb (snd r)) rows) in
  {| col_cnpj := Some (map Some validos); attrs_invalidos := Some invalidos |}.

Definition read_input_file_to_df (labels : list string)
    (rows : list (list (option string))) : Outcome DataFrame :=
  let labels := _normalize_columns labels in
  match labels with
  | [] => Raised (HTTPException 400 "Arquivo sem colunas reconhecíveis.")
  | _ =>
      let+ col := choose_column labels rows in
      let inputs :=
        match col with
        | None => map (fun row => Some (_extract_first_cnpj_from_row row)) rows
        | Some col => column labels rows col
        end in
      Returned (split_rows inputs)
  end.

End Search.

(** The word characters of ASCII. *)
Definition ascii_word (s : string) : bool :=
  match s with
  | String c _ =>
      let n := nat_of_ascii c in
      ((48 <=? n) && (n <=? 57) || (65 <=? n) && (n <=? 90) ||
       (97 <=? n) && (n <=? 122) || (n =? 95))%nat
  | EmptyString => false
  end.

End io_files.

Module SampleUpload.

Definition labels : list string := [" Empresa"; "CNPJ "].

(** A valid identifier, an invalid one, and the first one again. *)
Definition rows : list (list (option string)) :=
  [[Some "ACME"; Some "22.222.222/0001-22"];
   [Some "Outra"; Some "123"];
   [Some "ACME filial"; Some "22222222000122"]].

Definition frame : DataFrame :=
  {| col_cnpj := Some [Some "22222222000122"];
     attrs_invalidos := Some [{| i_cnpj := "123"; i_cnpj_input := "123" |}] |}.

(** Columns of which none is named after the identifier. *)
Definition columns : list (string * list (option string)) :=
  [("empresa", [Some "ACME"; Some "Outra"]);
   ("matriz", [Some "22.222.222/0001-22"; Some "nan"]);
   ("filial", [Some "11111111000111"; Some "33.333.333/0001-33"])].

End SampleUpload.
(** * Properties *)

(** ** Identifiers *)

Lemma clean_cnpj_digits (text : string) :
  Py.all Py.is_digit (_clean_cnpj text) = true.
Proof.
  induction text as [|c r IH]; [reflexivity|].
  unfold _clean_cnpj in *. simpl.
  destruct (Py.is_digit c) eqn:Hc; [|exact IH].
  simpl. rewrite Hc. exact IH.
Qed.

Lemma fullmatch_clean_cnpj (text : string) :
  fullmatch_d14 (_clean_cnpj text) = (String.length (_clean_cnpj text) =? 14)%nat.
Proof.
  unfold fullmatch_d14. rewrite clean_cnpj_digits. apply andb_true_r.
Qed.


(** ** The cache *)

(** C5. What [_cache_set] stores for a payload with a 14-digit key is what
    [_cache_get] gives back, flagged as a cache hit, as long as the entry is
    not older than the ttl, and whatever its age when the ttl is zero or
    negative; once the age exceeds a positive ttl the entry is reported
    absent.  [w2] is any later world in which the entry is still the one
    written; the clock is taken to be past the epoch when the entry is
    written. *)
Theorem cache_round_trip (payload : Resultado) (ttl : Z) (w1 w2 : World) :
  fullmatch_d14 (cnpj payload) = true ->
  w_cache w2 !! cnpj payload = w_cache (snd (_cache_set payload w1)) !! cnpj payload ->
  let written := int_of_float (w_clock w1) in
  let age := int_of_float (w_clock w2) - written in
  (ttl <= 0 \/ age <= ttl ->
   exists hit,
     _cache_get (cnpj payload) ttl w2 = (Returned (Some hit), w2) /\
     razao_social hit = razao_social payload /\
     simples_nacional hit = simples_nacional payload /\
     simei hit = simei payload /\
     data_consulta hit = data_consulta payload /\
     _cached hit = true) /\
  (0 < ttl -> 0 < written -> ttl < age ->
   _cache_get (cnpj payload) ttl w2 = (Returned None, w2)).
Proof.
  intros Hkey Hsame written age.
  unfold _cache_set in Hsame. rewrite Hkey in Hsame. simpl in Hsame.
  rewrite lookup_insert_eq in Hsame.
  unfold _cache_get, bind, time_time, read_cache. rewrite Hsame. simpl.
  fold written. split.
  - intros Hfresh.
    exists {| cnpj := cnpj payload; razao_social := razao_social payload;
              simples_nacional := simples_nacional payload;
              simei := simei payload; data_consulta := data_consulta payload;
              erro := ""; _cached := true |}.
    split; [|repeat split].
    destruct (0 <? ttl) eqn:Httl; simpl; [|reflexivity].
    destruct (0 <? written) eqn:Hw; simpl; [|reflexivity].
    destruct (ttl <? int_of_float (w_clock w2) - written) eqn:Hage; [|reflexivity].
    apply Z.ltb_lt in Httl, Hage. subst age. lia.
  - intros Httl Hw Hage.
    apply Z.ltb_lt in Httl, Hw. rewrite Httl, Hw. simpl.
    subst age. apply Z.ltb_lt in Hage. rewrite Hage. reflexivity.
Qed.

(** ** Cancelling a job *)

(** C8. [cancelar] on a job that is done changes nothing and replies with
    the job's status; on a job that is not done it sets the cancel event,
    moves the status to [Canceling] when it was [Queued] or [Running] and
    leaves it otherwise, touches no other field, and replies [Canceling]. *)
Theorem cancel_of_done_job_is_noop (job_id : string) (app : App) (job : Job) :
  jobs app !! job_id = Some job ->
  (j_done job = true ->
   cancelar job_id app = (Returned (j_status job), app)) /\
  (j_done job = false ->
   exists job',
     cancelar job_id app =
       (Returned Canceling, with_jobs (<[job_id := job']> (jobs app)) app) /\
     j_cancel_event job' = true /\
     j_status job' =
       match j_status job with
       | Queued | Running => Canceling
       | other => other
       end /\
     j_done job' = false /\
     j_progress job' = j_progress job /\ j_total job' = j_total job /\
     j_file_bytes job' = j_file_bytes job /\ j_file_name job' = j_file_name job /\
     j_error job' = j_error job).
Proof.
  intros Hjob. unfold cancelar. rewrite Hjob. split; intros Hdone; rewrite Hdone.
  - reflexivity.
  - eexists. split; [reflexivity|].
    destruct job as [st pr tot dn fb fn er ev]. simpl in *.
    destruct st; simpl; repeat split; assumption.
Qed.

(** ** The retry loop *)

Lemma range_cons (a : Z) (n : nat) :
  map (fun i => a + Z.of_nat i) (seq 0 (S n)) =
  a :: map (fun i => (a + 1) + Z.of_nat i) (seq 0 n).
Proof.
  simpl. f_equal; [lia|].
  rewrite <- seq_shift, map_map. apply map_ext. intros i. lia.
Qed.

Lemma attr_only_bind {A B} (o : Outcome A) (k : A -> Outcome B) :
  attr_only o -> (forall a, attr_only (k a)) -> attr_only (obind o k).
Proof. destruct o as [a|e]; simpl; auto. Qed.

Lemma attr_only_dict_get obj k : attr_only (dict_get obj k).
Proof. destruct obj; exact I. Qed.

Lemma attr_only_or_else a c : attr_only c -> attr_only (or_else a c).
Proof. unfold or_else. destruct (truthy a); [intros _; exact I|auto]. Qed.

Lemma attr_only_first_name keys company : attr_only (first_name keys company).
Proof.
  induction keys as [|k ks IH]; [exact I|]. simpl.
  apply attr_only_bind; [apply attr_only_dict_get|].
  intros v. destruct v; try exact IH.
  destruct (String.eqb _ _); [exact IH|exact I].
Qed.

Lemma attr_only_pick data : attr_only (_pick_razao_social data).
Proof.
  unfold _pick_razao_social.
  apply attr_only_bind; [apply attr_only_dict_get|]. intros c.
  apply attr_only_bind; [apply attr_only_first_name|]. intros [name|]; [exact I|].
  apply attr_only_bind; [apply attr_only_first_name|]. intros found. exact I.
Qed.

Lemma attr_only_montar c now v : attr_only (montar_payload c now v).
Proof.
  unfold montar_payload.
  repeat first
    [ apply attr_only_dict_get
    | apply attr_only_pick
    | apply attr_only_or_else
    | apply attr_only_bind; [|intros ?]
    | exact I ].
Qed.

Lemma montar_payload_fields c now v p :
  montar_payload c now v = Returned p ->
  cnpj p = c /\ data_consulta p = now /\ erro p = "" /\ _cached p = false.
Proof.
  unfold montar_payload, obind. intros H.
  repeat match type of H with
         | match ?o with Returned _ => _ | Raised _ => _ end = _ =>
             destruct o; [|discriminate H]
         end.
  injection H as <-. repeat split.
Qed.

Lemma same_env_refl w : same_env w w.
Proof. repeat split. Qed.

Lemma same_env_trans w1 w2 w3 : same_env w1 w2 -> same_env w2 w3 -> same_env w1 w3.
Proof. unfold same_env. intros (?&?&?) (?&?&?). repeat split; congruence. Qed.

(** One iteration of the loop is one step of [retry_run]. *)
Lemma tentativa_cases c now url uc a attempts w :
  let o := w_net w (w_calls w) in
  match tentativa c now url uc a attempts w with
  | (Returned (Continue err), w') =>
      exists pause,
        retryable a o = Some (pause, err) /\ a < attempts /\
        w_trace w' = (w_trace w ++ [EvGet url o; EvSleep pause])%list /\
        w_calls w' = S (w_calls w) /\ same_env w w'
  | (res, w') =>
      exists tr,
        w_trace w' = (w_trace w ++ tr)%list /\ same_env w w' /\
        retry_run (w_net w) c now url uc attempts a (w_calls w) tr
          (match res with
           | Returned (Return r) => Returned r
           | Returned (Continue _) => Raised (KeyError "")
           | Raised e => Raised e
           end)
  end.
Proof.
  intros o. subst o.
  unfold tentativa, except_RequestException, bind, requests_get.
  destruct (w_net w (w_calls w)) as [cls msg|code hdr body] eqn:Ho.
  - (* the request failed *)
    destruct (a <? attempts) eqn:Ha; simpl.
    + eexists. rewrite <- app_assoc. repeat split. lia.
    + eexists. split; [reflexivity|]. split; [repeat split|].
      rewrite <- Ho. eapply run_exhausted; [rewrite Ho; reflexivity|lia].
  - simpl. destruct (code =? 429) eqn:H429.
    { destruct (a <? attempts) eqn:Ha; simpl.
      - eexists. rewrite <- app_assoc. repeat split. lia.
      - eexists. split; [reflexivity|]. split; [repeat split|].
        rewrite <- Ho. eapply run_exhausted; [|lia].
        rewrite Ho. unfold retryable. rewrite H429. reflexivity. }
    destruct (500 <=? code) eqn:H500.
    { destruct (a <? attempts) eqn:Ha; simpl.
      - eexists. rewrite <- app_assoc. repeat split. lia.
      - eexists. split; [reflexivity|]. split; [repeat split|].
        rewrite <- Ho. eapply run_exhausted; [|lia].
        rewrite Ho. unfold retryable. rewrite H429, H500. reflexivity. }
    destruct (400 <=? code) eqn:H400.
    { simpl. eexists. split; [reflexivity|]. split; [repeat split|].
      rewrite <- Ho. eapply run_client_error; [exact Ho|lia|lia]. }
    destruct body as [msg|v]; simpl.
    { (* the body is not JSON *)
      destruct (a <? attempts) eqn:Ha; simpl.
      - eexists. rewrite <- app_assoc. repeat split. lia.
      - eexists. split; [reflexivity|]. split; [repeat split|].
        rewrite <- Ho. eapply run_exhausted; [|lia].
        rewrite Ho. unfold retryable. rewrite H429, H500, H400. reflexivity. }
    unfold lift. destruct (montar_payload c now v) as [p|e] eqn:Hp.
    + destruct (montar_payload_fields _ _ _ _ Hp) as (Hc & _).
      unfold _cache_set, bind. rewrite Hc.
      destruct uc; simpl; [destruct (fullmatch_d14 c) eqn:Hfm; simpl|].
      * eexists. split; [rewrite <- app_assoc; reflexivity|].
        split; [repeat split|]. rewrite <- Ho.
        pose proof (run_payload (w_net w) c now url true attempts a (w_calls w)
                      code hdr v p Ho ltac:(lia) Hp) as R.
        rewrite Hfm in R. exact R.
      * eexists. split; [reflexivity|]. split; [repeat split|]. rewrite <- Ho.
        pose proof (run_payload (w_net w) c now url true attempts a (w_calls w)
                      code hdr v p Ho ltac:(lia) Hp) as R.
        rewrite Hfm in R. exact R.
      * eexists. split; [reflexivity|]. split; [repeat split|]. rewrite <- Ho.
        exact (run_payload (w_net w) c now url false attempts a (w_calls w)
                 code hdr v p Ho ltac:(lia) Hp).
    + pose proof (attr_only_montar c now v) as Hattr. rewrite Hp in Hattr.
      destruct e; try contradiction.
      eexists. split; [reflexivity|]. split; [repeat split|]. rewrite <- Ho.
      eapply run_raise; [exact Ho|lia|exact Hp].
Qed.

(** The loop, started at attempt [a] with [n] more attempts after it, is a
    [retry_run]; the fallback after the loop is not reached. *)
Lemma tentativas_sound c now url uc attempts (n : nat) : forall a last_err w res w',
  a + Z.of_nat n = attempts ->
  tentativas c now url uc attempts
    (map (fun i => a + Z.of_nat i) (seq 0 (S n))) last_err w = (res, w') ->
  exists tr,
    w_trace w' = (w_trace w ++ tr)%list /\ same_env w w' /\
    retry_run (w_net w) c now url uc attempts a (w_calls w) tr res.
Proof.
  induction n as [|n IH]; intros a last_err w res w' Ha Hrun;
    rewrite range_cons in Hrun; cbn [tentativas] in Hrun;
    unfold bind in Hrun; fold tentativas in Hrun;
    pose proof (tentativa_cases c now url uc a attempts w) as Hstep;
    cbv zeta in Hstep;
    destruct (tentativa c now url uc a attempts w) as [[[err|r]|e] w1].
  - destruct Hstep as (pause & _ & Hlt & _). lia.
  - injection Hrun as <- <-. exact Hstep.
  - injection Hrun as <- <-. exact Hstep.
  - destruct Hstep as (pause & Hretry & Hlt & Htr & Hcalls & Henv).
    destruct (IH (a + 1) err w1 res w' ltac:(lia) Hrun) as (tr & Htr' & Henv' & Hrun').
    exists (EvGet url (w_net w (w_calls w)) :: EvSleep pause :: tr).
    split; [|split].
    + rewrite Htr', Htr, <- app_assoc. reflexivity.
    + eapply same_env_trans; eassumption.
    + destruct Henv as (Hnet & _). rewrite Hnet, Hcalls in Hrun'.
      eapply run_retry; eassumption.
  - injection Hrun as <- <-. exact Hstep.
  - injection Hrun as <- <-. exact Hstep.
Qed.

Lemma maxZ_1_pos (m : Z) : 1 <= Py.maxZ 1 m.
Proof. unfold Py.maxZ. destruct (1 <? m) eqn:H; lia. Qed.

(** ** The lookup *)

(** The three ways a lookup goes: the identifier is rejected, the cache
    answers, or the retry loop runs from attempt 1. *)
Lemma consultar_optante_sound cnpj_in uc ttl max_retries w res w' :
  consultar_optante cnpj_in uc ttl max_retries w = (res, w') ->
  let c := _clean_cnpj cnpj_in in
  let now := Py.strftime (Qfloor (w_clock w)) in
  exists tr,
    w_trace w' = (w_trace w ++ tr)%list /\ same_env w w' /\
    ((fullmatch_d14 c = false /\ tr = [] /\
      res = Returned (falha c now CNPJ_INVALIDO)) \/
     (fullmatch_d14 c = true /\ uc = true /\ tr = [] /\
      exists row, w_cache w !! c = Some row /\
                  res = Returned (cached_result c row)) \/
     (fullmatch_d14 c = true /\
      retry_run (w_net w) c now (OPEN_CNPJA_BASE ++ "/" ++ c) uc
        (Py.maxZ 1 max_retries) 1 (w_calls w) tr res)).
Proof.
  intros Hrun c now. unfold consultar_optante, bind, datetime_now in Hrun.
  fold c now in Hrun.
  destruct (fullmatch_d14 c) eqn:Hfm; simpl in Hrun.
  2:{ injection Hrun as <- <-. exists []. rewrite app_nil_r.
      split; [reflexivity|]. split; [apply same_env_refl|]. left. auto. }
  assert (Hloop : forall w0,
            w0 = w ->
            tentativas c now (OPEN_CNPJA_BASE ++ "/" ++ c) uc (Py.maxZ 1 max_retries)
              (py_range 1 (Py.maxZ 1 max_retries + 1)) "" w0 = (res, w') ->
            exists tr,
              w_trace w' = (w_trace w ++ tr)%list /\ same_env w w' /\
              retry_run (w_net w) c now (OPEN_CNPJA_BASE ++ "/" ++ c) uc
                (Py.maxZ 1 max_retries) 1 (w_calls w) tr res).
  { intros w0 -> Hl. pose proof (maxZ_1_pos max_retries) as Hpos.
    unfold py_range in Hl.
    replace (Z.to_nat (Py.maxZ 1 max_retries + 1 - 1))
      with (S (Z.to_nat (Py.maxZ 1 max_retries - 1))) in Hl by lia.
    eapply tentativas_sound; [|exact Hl]. lia. }
  destruct uc.
  - unfold _cache_get, bind, time_time, read_cache in Hrun.
    destruct (w_cache w !! c) as [row|] eqn:Hrow; simpl in Hrun.
    + destruct ((0 <? ttl) && (0 <? match c_fetched_at row with Some t => t | None => 0 end)
                && (ttl <? int_of_float (w_clock w) -
                           match c_fetched_at row with Some t => t | None => 0 end));
        simpl in Hrun.
      * destruct (Hloop w eq_refl Hrun) as (tr & ? & ? & ?).
        exists tr. split; [assumption|]. split; [assumption|].
        right. right. split; [reflexivity|assumption].
      * injection Hrun as <- <-. exists []. rewrite app_nil_r.
        split; [reflexivity|]. split; [apply same_env_refl|].
        right. left. repeat split. exists row. auto.
    + destruct (Hloop w eq_refl Hrun) as (tr & ? & ? & ?).
      exists tr. split; [assumption|]. split; [assumption|].
        right. right. split; [reflexivity|assumption].
  - simpl in Hrun. destruct (Hloop w eq_refl Hrun) as (tr & ? & ? & ?).
    exists tr. split; [assumption|]. split; [assumption|].
        right. right. split; [reflexivity|assumption].
Qed.

Lemma retry_run_head net c now url uc attempts a i tr res :
  retry_run net c now url uc attempts a i tr res ->
  exists tr', tr = EvGet url (net i) :: tr'.
Proof. intros H. destruct H; eexists; reflexivity. Qed.

Lemma gets_cons_get url o tr : gets (EvGet url o :: tr) = 1 + gets tr.
Proof. unfold gets. simpl. lia. Qed.

Lemma gets_cons_sleep s tr : gets (EvSleep s :: tr) = gets tr.
Proof. reflexivity. Qed.

Lemma retryable_429 a hdr body :
  retryable a (Response 429 hdr body) =
  Some (inject_Z (Py.maxZ 1 (Py.minZ 90 (retry_wait hdr))), RATE_LIMIT).
Proof. reflexivity. Qed.

(** Where a 429 stands in the log of the loop. *)
Lemma retry_run_429 net c now url uc attempts a i tr res :
  retry_run net c now url uc attempts a i tr res ->
  a <= attempts ->
  forall pre url' hdr body post,
    tr = (pre ++ EvGet url' (Response 429 hdr body) :: post)%list ->
    (a + gets pre < attempts /\
     exists o post',
       post = EvSleep (inject_Z (Py.maxZ 1 (Py.minZ 90 (retry_wait hdr))))
              :: EvGet url' o :: post') \/
    (a + gets pre = attempts /\ post = [] /\
     res = Returned (falha c now RATE_LIMIT)).
Proof.
  induction 1 as [a i pause err tr res Hretry Hlt Hrun IH
                 |a i pause err Hretry Hge
                 |a i code hdr0 body0 Hnet Hcode Hne
                 |a i code hdr0 v p Hnet Hcode Hp
                 |a i code hdr0 v msg Hnet Hcode Hp];
    intros Hle pre url' hdr body post Hsplit.
  - destruct pre as [|e1 [|e2 pre]]; simpl in Hsplit.
    + injection Hsplit as Hu Ho Hpost. subst url'.
      rewrite Ho, retryable_429 in Hretry. injection Hretry as <- <-.
      left. split; [unfold gets; simpl; lia|].
      destruct (retry_run_head _ _ _ _ _ _ _ _ _ _ Hrun) as (tr' & ->).
      subst post. eauto.
    + injection Hsplit as _ Habs _. discriminate Habs.
    + injection Hsplit as <- <- Htr.
      rewrite gets_cons_get, gets_cons_sleep.
      destruct (IH ltac:(lia) pre url' hdr body post Htr) as [(Hn & Hpost)|(Hn & Hpost)].
      * left. split; [lia|exact Hpost].
      * right. split; [lia|exact Hpost].
  - destruct pre as [|e1 pre]; simpl in Hsplit.
    + injection Hsplit as _ Ho Hpost.
      rewrite Ho, retryable_429 in Hretry. injection Hretry as _ <-.
      right. unfold gets. simpl. repeat split; [lia|auto].
    + injection Hsplit as _ Habs. destruct pre; discriminate Habs.
  - destruct pre as [|e1 pre]; simpl in Hsplit.
    + injection Hsplit as _ Ho _. rewrite Hnet in Ho. injection Ho as -> _ _.
      contradiction.
    + injection Hsplit as _ Habs. destruct pre; discriminate Habs.
  - destruct pre as [|e1 pre]; simpl in Hsplit.
    + injection Hsplit as _ Ho _. rewrite Hnet in Ho. injection Ho as -> _ _. lia.
    + injection Hsplit as _ Habs.
      destruct (uc && fullmatch_d14 c); destruct pre as [|? [|]]; discriminate Habs.
  - destruct pre as [|e1 pre]; simpl in Hsplit.
    + injection Hsplit as _ Ho _. rewrite Hnet in Ho. injection Ho as -> _ _. lia.
    + injection Hsplit as _ Habs. destruct pre; discriminate Habs.
Qed.

Lemma retry_wait_default (hdr : option string) :
  retry_wait hdr =
  match hdr with
  | Some text => default 60 (Py.int_float text)
  | None => 60
  end.
Proof.
  destruct hdr as [text|]; [|reflexivity]. unfold retry_wait.
  destruct (String.eqb_spec text "") as [->|_]; reflexivity.
Qed.

Lemma clamp_1_90 (x : Z) : Py.maxZ 1 (Py.minZ 90 x) = Z.max 1 (Z.min 90 x).
Proof.
  unfold Py.maxZ, Py.minZ.
  destruct (x <? 90) eqn:H1; [destruct (1 <? x) eqn:H2|]; simpl; lia.
Qed.


(** *** Records and exceptions *)

Lemma retryable_error_text a o pause err :
  retryable a o = Some (pause, err) -> err <> "".
Proof.
  unfold retryable. destruct o as [cls msg|code hdr body].
  - intros [= _ <-]. discriminate.
  - destruct (code =? 429); [intros [= _ <-]; discriminate|].
    destruct (500 <=? code); [intros [= _ <-]; discriminate|].
    destruct (400 <=? code); [discriminate|].
    destruct body; [intros [= _ <-]; discriminate|discriminate].
Qed.

(** What the loop returns is a failure record with a message, or the
    payload read from an answer; either way a record of this lookup. *)
Lemma retry_run_result net c now url uc attempts a i tr r :
  retry_run net c now url uc attempts a i tr (Returned r) ->
  cnpj r = c /\ data_consulta r = now /\ _cached r = false /\
  ((erro r <> "" /\ r = falha c now (erro r)) \/
   (erro r = "" /\ exists v, montar_payload c now v = Returned r)).
Proof.
  intros H. remember (Returned r) as res eqn:Hres.
  induction H as [a i pause err tr res Hretry Hlt Hrun IH
                 |a i pause err Hretry Hge
                 |a i code hdr0 body0 Hnet Hcode Hne
                 |a i code hdr0 v p Hnet Hcode Hp
                 |a i code hdr0 v msg Hnet Hcode Hp].
  - auto.
  - injection Hres as <-. repeat split. left.
    split; [exact (retryable_error_text _ _ _ _ Hretry)|reflexivity].
  - injection Hres as <-. repeat split. left. split; [discriminate|reflexivity].
  - injection Hres as <-.
    destruct (montar_payload_fields _ _ _ _ Hp) as (? & ? & ? & ?).
    repeat split; try assumption. right. eauto.
  - discriminate Hres.
Qed.

Lemma returns_bind {A B} (o : Outcome A) (k : A -> Outcome B) :
  returns o -> (forall a, returns (k a)) -> returns (obind o k).
Proof. intros (a & ->) Hk. exact (Hk a). Qed.

Lemma returns_dict_get members k : returns (dict_get (JDict members) k).
Proof. eexists. reflexivity. Qed.

Lemma returns_or_else a c : returns c -> returns (or_else a c).
Proof. unfold or_else. destruct (truthy a); [eexists; reflexivity|auto]. Qed.

Lemma returns_first_name keys members : returns (first_name keys (JDict members)).
Proof.
  induction keys as [|k ks IH]; [eexists; reflexivity|].
  cbn [first_name]. apply returns_bind; [apply returns_dict_get|].
  intros v. destruct v; try exact IH.
  destruct (String.eqb _ _); [exact IH|eexists; reflexivity].
Qed.

(** [x or {}] of a value that is a dict or false is a dict. *)
Lemma or_empty_dict v :
  dict_or_false v = true ->
  exists members, (if truthy v then v else JDict []) = JDict members.
Proof.
  intros H. destruct (truthy v) eqn:Ht.
  - destruct v; unfold dict_or_false in H;
      try (rewrite Ht in H; discriminate H). eauto.
  - eauto.
Qed.

Lemma company_of_or_empty v members :
  (if truthy v then v else JDict []) = JDict members ->
  dict_get (JDict members) "company" = Returned (company_of v) \/
  dict_get (JDict members) "company" = Returned JNull /\ truthy v = false.
Proof.
  destruct (truthy v) eqn:Ht.
  - intros ->. left. reflexivity.
  - intros [= <-]. right. auto.
Qed.

Lemma montar_payload_returns c now v :
  body_well_formed (Json v) = true -> returns (montar_payload c now v).
Proof.
  simpl. intros Hwf. apply andb_true_iff in Hwf as (Hv & Hc).
  destruct (or_empty_dict v Hv) as (md & Hmd).
  assert (Hcompany : exists x,
             dict_get (JDict md) "company" = Returned x /\
             exists mc, (if truthy x then x else JDict []) = JDict mc).
  { destruct (company_of_or_empty v md Hmd) as [E|(E & _)].
    - eexists. split; [exact E|]. apply or_empty_dict. exact Hc.
    - eexists. split; [exact E|]. exists []. reflexivity. }
  destruct Hcompany as (x & Hx & mc & Hmc).
  assert (Hpick : returns (_pick_razao_social (JDict md))).
  { unfold _pick_razao_social.
    assert (E : (if truthy (JDict md) then JDict md else JDict []) = JDict md)
      by (destruct md; reflexivity).
    rewrite E, Hx. cbn [obind]. rewrite Hmc.
    apply returns_bind; [apply returns_first_name|]. intros [name|].
    - eexists. reflexivity.
    - apply returns_bind; [apply returns_first_name|]. intros found.
      eexists. reflexivity. }
  unfold montar_payload. rewrite Hmd, Hx. cbn [obind]. rewrite Hmc.
  repeat first
    [ apply returns_dict_get
    | exact Hpick
    | apply returns_or_else
    | apply returns_bind; [|intros ?]
    | eexists; reflexivity ].
Qed.

Lemma retry_run_returns net c now url uc attempts a i tr res :
  retry_run net c now url uc attempts a i tr res ->
  (forall j, answer_well_formed (net j) = true) ->
  returns res.
Proof.
  intros H Hwf.
  induction H as [a i pause err tr res Hretry Hlt Hrun IH
                 |a i pause err Hretry Hge
                 |a i code hdr0 body0 Hnet Hcode Hne
                 |a i code hdr0 v p Hnet Hcode Hp
                 |a i code hdr0 v msg Hnet Hcode Hp];
    try (eexists; reflexivity).
  - exact IH.
  - specialize (Hwf i). rewrite Hnet in Hwf. simpl in Hwf.
    destruct (400 <=? code) eqn:E; [lia|]. simpl in Hwf.
    destruct (montar_payload_returns c now v Hwf) as (p & Hp').
    rewrite Hp' in Hp. discriminate Hp.
Qed.




(** C9, as stated, fails: a record served from the cache carries the
    [data_consulta] that was stored with it, here five hours before the
    lookup. *)
Lemma cache_hit_keeps_stored_timestamp :
  exists r,
    fst (consultar_optante "11.111.111/0001-11" true 86400 3
           (Sample.world Sample.always_ok {[ "11111111000111" := Sample.old_row ]}))
    = Returned r /\
    data_consulta r = "2026-11-03 09:00:00" /\
    Py.strftime (Qfloor (w_clock (Sample.world Sample.always_ok
                                    {[ "11111111000111" := Sample.old_row ]})))
    = "2026-11-03 14:01:00" /\
    data_consulta r <>
    Py.strftime (Qfloor (w_clock (Sample.world Sample.always_ok
                                    {[ "11111111000111" := Sample.old_row ]}))).
Proof.
  eexists. split; [vm_compute; reflexivity|].
  split; [reflexivity|]. split; [vm_compute; reflexivity|].
  vm_compute. discriminate.
Qed.

(** C9, amended. A record that the lookup makes itself (the identifier is
    rejected, the request fails, or the answer is read) carries the
    timestamp taken when the lookup starts; a record served from the cache
    carries the timestamp stored in its cache row. *)
Theorem lookup_timestamp
    (cnpj_in : string) (use_cache : bool) (ttl max_retries : Z) (w : World)
    (r : Resultado) :
  fst (consultar_optante cnpj_in use_cache ttl max_retries w) = Returned r ->
  (_cached r = false ->
   data_consulta r = Py.strftime (Qfloor (w_clock w))) /\
  (_cached r = true ->
   exists row,
     w_cache w !! _clean_cnpj cnpj_in = Some row /\
     data_consulta r = text_or_empty (c_data_consulta row)).
Proof.
  destruct (consultar_optante cnpj_in use_cache ttl max_retries w)
    as [res w'] eqn:Hrun. simpl. intros ->.
  destruct (consultar_optante_sound _ _ _ _ _ _ _ Hrun)
    as (tr & _ & _ & [(_ & _ & E)|[(_ & _ & _ & row & Hrow & E)|(_ & Hloop)]]).
  - injection E as ->. split; [reflexivity|discriminate].
  - injection E as ->. split; [discriminate|]. intros _. exists row. auto.
  - destruct (retry_run_result _ _ _ _ _ _ _ _ _ _ Hloop) as (_ & Hd & Hc & _).
    split; [intros _; exact Hd|]. rewrite Hc. discriminate.
Qed.

(** An instance: a fresh lookup carries the time of the call. *)
Lemma lookup_timestamp_witness :
  fst (consultar_optante "22.222.222/0001-22" true 86400 3
         (Sample.world Sample.limited_once ∅)) = Returned Sample.payload /\
  ((_cached Sample.payload = false ->
    data_consulta Sample.payload =
    Py.strftime (Qfloor (w_clock (Sample.world Sample.limited_once ∅)))) /\
   (_cached Sample.payload = true ->
    exists row,
      w_cache (Sample.world Sample.limited_once ∅) !! _clean_cnpj "22.222.222/0001-22"
      = Some row /\
      data_consulta Sample.payload = text_or_empty (c_data_consulta row))).
Proof.
  assert (H : fst (consultar_optante "22.222.222/0001-22" true 86400 3
                     (Sample.world Sample.limited_once ∅)) = Returned Sample.payload)
    by (vm_compute; reflexivity).
  split; [exact H|].
  exact (lookup_timestamp "22.222.222/0001-22" true 86400 3
           (Sample.world Sample.limited_once ∅) Sample.payload H).
Defined.

(** ** Instances *)


(** When every answer is a 429 without the header, three attempts make
    two pauses of 60 seconds and end with the rate-limit record. *)
Example rate_limit_exhausted :
  consultar_optante "22.222.222/0001-22" true 86400 3
    (Sample.world Sample.always_limited ∅) =
  (Returned (falha "22222222000122" "2026-11-03 14:01:00" RATE_LIMIT),
   {| w_clock := Sample.clock + 60 + 60; w_ttl := 86400; w_cache := ∅;
      w_net := Sample.always_limited; w_calls := 3; w_app := Sample.app;
      w_trace :=
        [EvGet SampleJobs.url (Response 429 None (BadJson ""));
         EvSleep (60 # 1);
         EvGet SampleJobs.url (Response 429 None (BadJson ""));
         EvSleep (60 # 1);
         EvGet SampleJobs.url (Response 429 None (BadJson ""))] |}).
Proof. reflexivity. Qed.


(** An instance: the entry is read back in the second it was written. *)
Lemma cache_round_trip_witness :
  fullmatch_d14 (cnpj Sample.payload) = true /\
  w_cache (snd (_cache_set Sample.payload (Sample.world Sample.always_ok ∅)))
    !! cnpj Sample.payload =
  w_cache (snd (_cache_set Sample.payload (Sample.world Sample.always_ok ∅)))
    !! cnpj Sample.payload /\
  (86400 <= 0 \/
   int_of_float (w_clock (snd (_cache_set Sample.payload
                                 (Sample.world Sample.always_ok ∅)))) -
   int_of_float (w_clock (Sample.world Sample.always_ok ∅)) <= 86400) /\
  exists hit,
    _cache_get (cnpj Sample.payload) 86400
      (snd (_cache_set Sample.payload (Sample.world Sample.always_ok ∅))) =
    (Returned (Some hit),
     snd (_cache_set Sample.payload (Sample.world Sample.always_ok ∅))) /\
    razao_social hit = razao_social Sample.payload /\
    simples_nacional hit = simples_nacional Sample.payload /\
    simei hit = simei Sample.payload /\
    data_consulta hit = data_consulta Sample.payload /\
    _cached hit = true.
Proof.
  assert (H1 : fullmatch_d14 (cnpj Sample.payload) = true) by reflexivity.
  assert (H2 : w_cache (snd (_cache_set Sample.payload
                               (Sample.world Sample.always_ok ∅)))
                 !! cnpj Sample.payload =
               w_cache (snd (_cache_set Sample.payload
                               (Sample.world Sample.always_ok ∅)))
                 !! cnpj Sample.payload) by reflexivity.
  assert (H3 : 86400 <= 0 \/
               int_of_float (w_clock (snd (_cache_set Sample.payload
                                             (Sample.world Sample.always_ok ∅)))) -
               int_of_float (w_clock (Sample.world Sample.always_ok ∅)) <= 86400)
    by (right; vm_compute; discriminate).
  split; [exact H1|]. split; [exact H2|]. split; [exact H3|].
  exact (proj1 (cache_round_trip Sample.payload 86400
                  (Sample.world Sample.always_ok ∅)
                  (snd (_cache_set Sample.payload (Sample.world Sample.always_ok ∅)))
                  H1 H2) H3).
Defined.

(** An instance: a job that finished with status [Done]. *)
Lemma cancel_of_done_job_is_noop_witness :
  jobs SampleJobs.app_finished !! "job-1" = Some SampleJobs.finished /\
  j_done SampleJobs.finished = true /\
  cancelar "job-1" SampleJobs.app_finished =
    (Returned (j_status SampleJobs.finished), SampleJobs.app_finished).
Proof.
  assert (H1 : jobs SampleJobs.app_finished !! "job-1" = Some SampleJobs.finished)
    by (vm_compute; reflexivity).
  assert (H2 : j_done SampleJobs.finished = true) by reflexivity.
  split; [exact H1|]. split; [exact H2|].
  exact (proj1 (cancel_of_done_job_is_noop "job-1" SampleJobs.app_finished
                  SampleJobs.finished H1) H2).
Defined.

(** ** The batch runner *)

Lemma retry_run_log net c now url uc attempts a i tr res :
  retry_run net c now url uc attempts a i tr res -> lookup_log tr.
Proof.
  intros H. split; [|destruct H; exact I].
  induction H; repeat constructor; try assumption.
  destruct (uc && fullmatch_d14 c); repeat constructor.
Qed.

Lemma lookup_log_nil : lookup_log [].
Proof. split; [constructor|exact I]. Qed.

(** A lookup adds a lookup log, leaves the application state alone, and
    the record it returns is for the cleaned identifier. *)
Lemma consultar_optante_log cnpj_in uc ttl max_retries w res w' :
  consultar_optante cnpj_in uc ttl max_retries w = (res, w') ->
  exists log,
    w_trace w' = (w_trace w ++ log)%list /\ lookup_log log /\
    same_env w w' /\
    forall r, res = Returned r -> cnpj r = _clean_cnpj cnpj_in.
Proof.
  intros Hrun.
  destruct (consultar_optante_sound _ _ _ _ _ _ _ Hrun)
    as (tr & Htr & Henv & [(_ & -> & ->)|[(_ & _ & -> & row & _ & ->)|(_ & Hloop)]]).
  - exists []. repeat split; try apply Henv; try assumption; try constructor.
    intros r [= <-]. reflexivity.
  - exists []. repeat split; try apply Henv; try assumption; try constructor.
    intros r [= <-]. reflexivity.
  - exists tr. split; [exact Htr|]. split; [exact (retry_run_log _ _ _ _ _ _ _ _ _ _ Hloop)|].
    split; [exact Henv|]. intros r ->.
    exact (proj1 (retry_run_result _ _ _ _ _ _ _ _ _ _ Hloop)).
Qed.

Lemma tick_run cb done total w :
  exists w',
    _tick cb done total w = (Returned tt, w') /\
    w_trace w' = (w_trace w ++ tick_events (given cb) done total)%list /\
    w_app w' = tick_app cb done total (w_app w).
Proof.
  destruct cb as [f|]; unfold _tick, bind, emit, on_app; simpl.
  - destruct (f done total (w_app w)) as [o app'] eqn:Hf. simpl.
    eexists. repeat split.
  - eexists. split; [reflexivity|]. rewrite app_nil_r. auto.
Qed.

Lemma poll_run sc w :
  exists w',
    cancel_requested sc w = (Returned (poll_answer sc (w_app w)), w') /\
    w_trace w' =
      (w_trace w ++ poll_events (given sc) (poll_answer sc (w_app w)))%list /\
    w_app w' = poll_app sc (w_app w).
Proof.
  destruct sc as [f|]; unfold cancel_requested, bind, emit, on_app; simpl.
  - destruct (f (w_app w)) as [b app'] eqn:Hf. simpl.
    eexists. repeat split.
  - eexists. split; [reflexivity|]. rewrite app_nil_r. auto.
Qed.

Lemma sleep_run secs w :
  exists w',
    time_sleep secs w = (Returned tt, w') /\
    w_trace w' = (w_trace w ++ [EvSleep secs])%list /\
    w_app w' = w_app w.
Proof. eexists. repeat split. Qed.

(** The loop over the valid identifiers is a [loop_run]. *)
Lemma lote_validos_sound cb sc secs total cnpjs : forall acc done w res w',
  lote_validos cb sc secs total cnpjs acc done w = (res, w') ->
  exists tr rs ending,
    w_trace w' = (w_trace w ++ tr)%list /\
    loop_run (given cb) (given sc) (Py.maxQ 0 secs) total cnpjs done tr rs ending /\
    match ending with
    | Crashed e => res = Raised e
    | _ => res = Returned ((acc ++ map (fun r => snd (pop_cached r)) rs)%list,
                           done + Z.of_nat (length rs))
    end /\
    (ending = Broken ->
     exists app0, poll_answer sc app0 = true /\ w_app w' = poll_app sc app0) /\
    (forall I : App -> Prop,
       (forall d t a, I a -> I (tick_app cb d t a)) ->
       (forall a, I a -> I (poll_app sc a)) ->
       I (w_app w) -> I (w_app w')).
Proof.
  induction cnpjs as [|c rest IH]; intros acc done w res w' Hrun.
  - injection Hrun as <- <-. exists [], [], Exhausted.
    rewrite !app_nil_r, Z.add_0_r. repeat split; try constructor; try discriminate.
    auto.
  - cbn [lote_validos] in Hrun. unfold bind at 1 in Hrun.
    destruct (poll_run sc w) as (w1 & Hpoll & Htr1 & Happ1). rewrite Hpoll in Hrun.
    destruct (poll_answer sc (w_app w)) eqn:Hanswer.
    + (* break *)
      injection Hrun as <- <-.
      assert (Hsc : given sc = true) by (destruct sc; [reflexivity|discriminate Hanswer]).
      exists [EvPoll true], [], Broken. rewrite Hsc in Htr1.
      split; [exact Htr1|]. split; [constructor; exact Hsc|].
      rewrite app_nil_r, Z.add_0_r. split; [reflexivity|]. split.
      * intros _. exists (w_app w). auto.
      * intros I _ Hsc' HI. rewrite Happ1. auto.
    + unfold bind at 1 in Hrun. unfold default_cache_ttl at 1 in Hrun.
      unfold bind at 1 in Hrun.
      destruct (consultar_optante c true (w_ttl w1) 3 w1) as [[r|e] w2] eqn:Hlook;
        destruct (consultar_optante_log _ _ _ _ _ _ _ Hlook)
          as (lg & Htr2 & Hlog & (_ & Happ2 & _) & Hcnpj).
      2:{ injection Hrun as <- <-.
          exists (poll_events (given sc) false ++ lg)%list, [], (Crashed e).
          split; [rewrite Htr2, Htr1, <- app_assoc; reflexivity|].
          split; [constructor; exact Hlog|]. split; [reflexivity|].
          split; [discriminate|].
          intros I _ Hsc' HI. rewrite Happ2, Happ1. auto. }
      specialize (Hcnpj r eq_refl).
      unfold bind at 1 in Hrun. unfold emit at 1 in Hrun.
      unfold pop_cached in Hrun. unfold bind at 1 in Hrun.
      destruct (tick_run cb (done + 1) total (log (EvResult r) w2))
        as (w4 & Htick & Htr4 & Happ4).
      rewrite Htick in Hrun. unfold bind at 1 in Hrun.
      assert (Hsleep : exists w5,
                 (if negb (_cached r) then time_sleep (Py.maxQ 0 secs) else ret tt) w4
                 = (Returned tt, w5) /\
                 w_trace w5 = (w_trace w4 ++ delay_events (Py.maxQ 0 secs) r)%list /\
                 w_app w5 = w_app w4).
      { unfold delay_events. destruct (_cached r); simpl.
        - exists w4. rewrite app_nil_r. auto.
        - eexists. repeat split. }
      destruct Hsleep as (w5 & Hsl & Htr5 & Happ5). rewrite Hsl in Hrun.
      destruct (IH _ _ _ _ _ Hrun) as (tr & rs & ending & Htr & Hloop & Hres & Hbrk & Hinv).
      exists (poll_events (given sc) false ++ lg ++
              EvResult r :: tick_events (given cb) (done + 1) total ++
              delay_events (Py.maxQ 0 secs) r ++ tr)%list, (r :: rs), ending.
      split; [|split; [|split; [|split]]].
      * rewrite Htr, Htr5, Htr4. simpl. rewrite Htr2, Htr1.
        rewrite <- !app_assoc. reflexivity.
      * constructor; assumption.
      * destruct ending; rewrite Hres; try reflexivity;
          simpl; rewrite <- app_assoc; simpl; f_equal; f_equal; lia.
      * exact Hbrk.
      * intros I Hcb Hsc' HI. apply (Hinv I Hcb Hsc').
        rewrite Happ5, Happ4. apply Hcb. simpl. rewrite Happ2, Happ1. auto.
Qed.

Lemma lote_invalidos_sound cb total rows : forall acc done w,
  exists extra w',
    lote_invalidos cb total rows acc done w = (Returned (acc ++ extra)%list, w') /\
    w_trace w' = (w_trace w ++ invalid_ticks (given cb) total done (length rows))%list /\
    length extra = length rows /\
    Forall (fun row => l_erro row = CNPJ_INVALIDO) extra /\
    (forall I : App -> Prop,
       (forall d t a, I a -> I (tick_app cb d t a)) -> I (w_app w) -> I (w_app w')).
Proof.
  induction rows as [|row rest IH]; intros acc done w.
  - exists [], w. rewrite !app_nil_r. repeat split; auto.
  - cbn [lote_invalidos]. unfold bind at 1. unfold datetime_now at 1.
    unfold bind at 1.
    destruct (tick_run cb (done + 1) total w) as (w1 & Htick & Htr1 & Happ1).
    rewrite Htick.
    match goal with
    | |- context [lote_invalidos cb total rest ?acc' (done + 1) w1] =>
        destruct (IH acc' (done + 1) w1) as (extra & w' & Hrun & Htr & Hlen & Hall & Hinv)
    end.
    eexists (_ :: extra), w'. split; [|split; [|split; [|split]]].
    + rewrite Hrun, <- app_assoc. reflexivity.
    + rewrite Htr, Htr1, <- app_assoc. reflexivity.
    + simpl. rewrite Hlen. reflexivity.
    + constructor; [reflexivity|exact Hall].
    + intros I Hcb HI. apply (Hinv I Hcb). rewrite Happ1. auto.
Qed.

Lemma try_finally_close {A} (c : M A) w : try_finally c selenium_close w = c w.
Proof. unfold try_finally. destruct (c w). reflexivity. Qed.

(** The whole run: the first report, the loop, the second look at the
    cancel signal and, unless it is set, the invalid rows. *)
Lemma consultar_optante_lote_sound df secs cb sc w res w' :
  consultar_optante_lote df secs cb sc w = (res, w') ->
  let total := total_of df in
  exists tr rs ending,
    loop_run (given cb) (given sc) (clamped_delay secs) total (cnpjs_of df) 0
      tr rs ending /\
    (forall I, kept_by cb sc I -> I (w_app w) -> I (w_app w')) /\
    match ending with
    | Crashed e =>
        res = Raised e /\
        w_trace w' = (w_trace w ++ tick_events (given cb) 0 total ++ tr)%list
    | _ =>
        exists app1 extra,
          let b := poll_answer sc app1 in
          (forall I, kept_by cb sc I -> I (w_app w) -> I app1) /\
          (ending = Broken ->
           exists app0, poll_answer sc app0 = true /\ app1 = poll_app sc app0) /\
          (b = true -> w_app w' = poll_app sc app1 /\ extra = []) /\
          (b = false ->
           length extra = invalid_count df /\
           Forall (fun row => l_erro row = CNPJ_INVALIDO) extra) /\
          res = Returned (map (fun r => snd (pop_cached r)) rs ++ extra)%list /\
          w_trace w' =
            (w_trace w ++ tick_events (given cb) 0 total ++ tr ++
             poll_events (given sc) b ++
             (if b then []
              else invalid_ticks (given cb) total (Z.of_nat (length rs))
                     (invalid_count df)))%list
    end.
Proof.
  intros Hrun total. unfold consultar_optante_lote in Hrun. fold total in Hrun.
  unfold bind at 1 in Hrun.
  destruct (tick_run cb 0 total w) as (w0 & Htick & Htr0 & Happ0).
  rewrite Htick, try_finally_close in Hrun. unfold bind at 1 in Hrun.
  destruct (lote_validos cb sc (Py.maxQ PUBLIC_API_MIN_DELAY secs) total
              (cnpjs_of df) [] 0 w0) as [res1 w1] eqn:Hloop.
  destruct (lote_validos_sound _ _ _ _ _ _ _ _ _ _ Hloop)
    as (tr & rs & ending & Htr1 & Hrel & Hres1 & Hbrk & Hinv1).
  exists tr, rs, ending. split; [exact Hrel|].
  assert (Hkeep1 : forall I, kept_by cb sc I -> I (w_app w) -> I (w_app w1)).
  { intros I (Hcb & Hsc) HI. apply (Hinv1 I Hcb Hsc). rewrite Happ0. auto. }
  destruct ending as [| |e].
  3:{ subst res1. injection Hrun as <- <-. split; [exact Hkeep1|].
      split; [reflexivity|]. rewrite Htr1, Htr0, <- app_assoc. reflexivity. }
  all: subst res1; cbv beta iota in Hrun; unfold bind at 1 in Hrun;
    destruct (poll_run sc w1) as (w2 & Hpoll & Htr2 & Happ2); rewrite Hpoll in Hrun;
    rewrite app_nil_l, Z.add_0_l in Hrun;
    assert (Hkeep2 : forall I, kept_by cb sc I -> I (w_app w) -> I (w_app w2))
      by (intros I HK HI; rewrite Happ2; apply (proj2 HK); apply (Hkeep1 I HK HI));
    destruct (poll_answer sc (w_app w1)) eqn:Hb.
  all: try (unfold ret in Hrun; injection Hrun as <- <-; split; [exact Hkeep2|];
            exists (w_app w1), []; cbv zeta; rewrite Hb;
            split; [exact Hkeep1|]; split; [exact Hbrk|];
            split; [intros _; split; [exact Happ2|reflexivity]|];
            split; [discriminate|];
            split; [rewrite app_nil_r; reflexivity|];
            rewrite Htr2, Htr1, Htr0, <- !app_assoc, app_nil_r; reflexivity).
  all: unfold invalid_count; destruct (invalidos_of df) as [rows|].
  all: try (unfold ret in Hrun; injection Hrun as <- <-; split; [exact Hkeep2|];
            exists (w_app w1), []; cbv zeta; rewrite Hb;
            split; [exact Hkeep1|]; split; [exact Hbrk|];
            split; [discriminate|];
            split; [intros _; split; [reflexivity|constructor]|];
            split; [rewrite app_nil_r; reflexivity|];
            rewrite Htr2, Htr1, Htr0, <- !app_assoc, app_nil_r; reflexivity).
  all: destruct (lote_invalidos_sound cb total rows
                   (map (fun r => snd (pop_cached r)) rs) (Z.of_nat (length rs)) w2)
         as (extra & w3 & Hinv & Htr3 & Hlen & Hall & Hkeep3);
    rewrite Hinv in Hrun; injection Hrun as <- <-;
    (split; [intros I HK HI; apply (Hkeep3 I (proj1 HK)); apply (Hkeep2 I HK HI)|]);
    exists (w_app w1), extra; cbv zeta; rewrite Hb;
    (split; [exact Hkeep1|]); (split; [exact Hbrk|]);
    (split; [discriminate|]);
    (split; [intros _; split; [exact Hlen|exact Hall]|]);
    (split; [reflexivity|]);
    rewrite Htr3, Htr2, Htr1, Htr0, <- !app_assoc; reflexivity.
Qed.

(** *** Progress reports *)

Lemma progress_reports_app l1 l2 :
  progress_reports (l1 ++ l2) = (progress_reports l1 ++ progress_reports l2)%list.
Proof. apply omap_app. Qed.

Lemma progress_reports_lookup_log lg : lookup_log lg -> progress_reports lg = [].
Proof.
  intros (Hall & _). induction Hall as [|e l He _ IH]; [reflexivity|].
  destruct e; try discriminate He; exact IH.
Qed.

Lemma progress_reports_poll hs b : progress_reports (poll_events hs b) = [].
Proof. destruct hs; reflexivity. Qed.

Lemma progress_reports_delay delay r : progress_reports (delay_events delay r) = [].
Proof. unfold delay_events. destruct (_cached r); reflexivity. Qed.

Lemma progress_reports_tick hc d t :
  progress_reports (tick_events hc d t) = if hc then [(d, t)] else [].
Proof. destruct hc; reflexivity. Qed.

Lemma loop_run_length hc hs delay total cnpjs done tr rs ending :
  loop_run hc hs delay total cnpjs done tr rs ending ->
  (length rs <= length cnpjs)%nat.
Proof. induction 1; simpl; lia. Qed.

Lemma loop_run_reports hc hs delay total cnpjs done tr rs ending :
  loop_run hc hs delay total cnpjs done tr rs ending ->
  progress_reports tr =
  if hc then map (fun i => (done + 1 + Z.of_nat i, total)) (seq 0 (length rs))
  else [].
Proof.
  induction 1 as [done|c rest done Hsc|c rest done lg e Hlog
                 |c rest done lg r tr rs ending Hlog Hc Hrun IH].
  - destruct hc; reflexivity.
  - destruct hc; reflexivity.
  - rewrite progress_reports_app, progress_reports_poll,
      (progress_reports_lookup_log _ Hlog). destruct hc; reflexivity.
  - rewrite progress_reports_app, progress_reports_poll.
    rewrite progress_reports_app, (progress_reports_lookup_log _ Hlog).
    cbn [app progress_reports omap list_omap].
    change (omap _ ?l) with (progress_reports l).
    rewrite !progress_reports_app, progress_reports_tick, progress_reports_delay, IH.
    destruct hc; [|reflexivity]. cbn [app length seq map]. f_equal; [f_equal; lia|].
    rewrite <- seq_shift, map_map. apply map_ext. intros i. f_equal. lia.
Qed.

Lemma invalid_ticks_reports hc total n : forall done,
  progress_reports (invalid_ticks hc total done n) =
  if hc then map (fun i => (done + 1 + Z.of_nat i, total)) (seq 0 n) else [].
Proof.
  induction n as [|n IH]; intros done; [destruct hc; reflexivity|].
  cbn [invalid_ticks]. rewrite progress_reports_app, progress_reports_tick, IH.
  destruct hc; [|reflexivity]. cbn [app seq map]. f_equal; [f_equal; lia|].
  rewrite <- seq_shift, map_map. apply map_ext. intros i. f_equal. lia.
Qed.

Lemma count_up_from total (k n : nat) :
  (count_up total k ++
   map (fun i => (Z.of_nat k + Z.of_nat i, total)) (seq 0 n))%list
  = count_up total (k + n).
Proof.
  unfold count_up. rewrite seq_app, map_app. f_equal. simpl.
  replace (seq k n) with (seq (k + 0) n) by (f_equal; lia).
  rewrite <- (fmap_add_seq k 0 n).
  change (Nat.add k <$> seq 0 n) with (map (Nat.add k) (seq 0 n)).
  rewrite map_map. apply map_ext. intros i. f_equal. lia.
Qed.

Lemma count_up_sorted total k : StronglySorted Z.le (map fst (count_up total k)).
Proof.
  unfold count_up. rewrite map_map. simpl.
  generalize 0%nat. induction k as [|k IH]; intros s; [constructor|].
  simpl. constructor; [apply IH|].
  apply List.Forall_forall. intros x Hx. apply in_map_iff in Hx as (i & <- & Hi).
  apply in_seq in Hi. lia.
Qed.

Lemma count_up_bounded total k :
  Forall (fun p => 0 <= fst p < Z.of_nat k /\ snd p = total) (count_up total k).
Proof.
  unfold count_up. apply List.Forall_forall. intros p Hp.
  apply in_map_iff in Hp as (i & <- & Hi). apply in_seq in Hi. simpl. lia.
Qed.

Lemma total_of_count df :
  total_of df = Z.of_nat (length (cnpjs_of df)) + Z.of_nat (invalid_count df).
Proof.
  unfold total_of, invalid_count. destruct (invalidos_of df); reflexivity.
Qed.

Lemma count_up_first total n :
  ((0, total) :: map (fun i => (0 + 1 + Z.of_nat i, total)) (seq 0 n)) =
  count_up total (S n).
Proof.
  unfold count_up. cbn [seq map]. f_equal.
  rewrite <- seq_shift, map_map. apply map_ext. intros i. f_equal. lia.
Qed.

(** The reports of a run are [(0, total), (1, total), ...], as far as the
    run gets. *)
Lemma consultar_optante_lote_reports df secs cb sc w res w' :
  consultar_optante_lote df secs cb sc w = (res, w') ->
  exists tr k,
    w_trace w' = (w_trace w ++ tr)%list /\
    (k <= S (length (cnpjs_of df) + invalid_count df))%nat /\
    progress_reports tr = if given cb then count_up (total_of df) k else [].
Proof.
  intros Hrun.
  destruct (consultar_optante_lote_sound _ _ _ _ _ _ _ Hrun)
    as (tr & rs & ending & Hloop & _ & Hend).
  pose proof (loop_run_length _ _ _ _ _ _ _ _ _ Hloop) as Hlen.
  pose proof (loop_run_reports _ _ _ _ _ _ _ _ _ Hloop) as Hrep.
  assert (Hcase :
            (w_trace w' = (w_trace w ++ tick_events (given cb) 0 (total_of df) ++ tr)%list) \/
            exists b,
              w_trace w' =
                (w_trace w ++ tick_events (given cb) 0 (total_of df) ++ tr ++
                 poll_events (given sc) b ++
                 (if b then []
                  else invalid_ticks (given cb) (total_of df) (Z.of_nat (length rs))
                         (invalid_count df)))%list).
  { destruct ending as [| |e].
    - destruct Hend as (app1 & extra & _ & _ & _ & _ & _ & Htr). right. eauto.
    - destruct Hend as (app1 & extra & _ & _ & _ & _ & _ & Htr). right. eauto.
    - left. apply Hend. }
  destruct Hcase as [Htr|(b & Htr)]; eexists; [exists (S (length rs))|
    exists (S (length rs) + (if b then 0 else invalid_count df))%nat].
  - split; [exact Htr|]. split; [lia|].
    rewrite progress_reports_app, progress_reports_tick, Hrep.
    destruct (given cb); [|reflexivity]. cbn [app]. apply count_up_first.
  - split; [exact Htr|]. split; [destruct b; lia|].
    rewrite !progress_reports_app, progress_reports_tick, Hrep, progress_reports_poll.
    destruct b.
    + rewrite app_nil_r, Nat.add_0_r.
      destruct (given cb); [|reflexivity]. cbn [app]. apply count_up_first.
    + rewrite invalid_ticks_reports.
      destruct (given cb); [|reflexivity]. cbn [app].
      rewrite app_comm_cons, count_up_first, <- count_up_from. f_equal.
      apply map_ext. intros i. f_equal. lia.
Qed.

(** C7. The progress values that a run reports through its callback never
    decrease and never exceed the total reported with them, which is the
    number of valid identifiers plus the number of invalid rows; it is
    also the total that [criar_lote] stores in the job it creates, and the
    job's callback copies each report into the job. *)
Theorem progress_never_decreases_nor_exceeds_total
    (df : DataFrame) (sleep_seconds : Q) (cb : option ProgressCb)
    (sc : option CancelCb) (output job_id : string) (w : World) :
  let total :=
    Z.of_nat (length (cnpjs_of (Some df))) + Z.of_nat (invalid_count (Some df)) in
  (exists tr,
     w_trace (snd (consultar_optante_lote (Some df) sleep_seconds cb sc w)) =
       (w_trace w ++ tr)%list /\
     StronglySorted Z.le (map fst (progress_reports tr)) /\
     Forall (fun report => 0 <= fst report <= snd report /\ snd report = total)
       (progress_reports tr)) /\
  match criar_lote df output sleep_seconds job_id w with
  | (Returned _, w1) =>
      exists job,
        jobs (w_app w1) !! job_id = Some job /\
        j_total job = total /\ j_progress job = 0
  | (Raised _, w1) => w1 = w
  end /\
  (forall done t app,
     is_Some (jobs app !! job_id) ->
     exists job,
       jobs (snd (job_progress_cb job_id done t app)) !! job_id = Some job /\
       j_progress job = done /\ j_total job = t).
Proof.
  intros total. split; [|split].
  - destruct (consultar_optante_lote (Some df) sleep_seconds cb sc w)
      as [res w'] eqn:Hrun.
    destruct (consultar_optante_lote_reports _ _ _ _ _ _ _ Hrun)
      as (tr & k & Htr & Hk & Hrep).
    exists tr. split; [exact Htr|]. rewrite Hrep.
    destruct (given cb); [|split; constructor].
    split; [apply count_up_sorted|].
    rewrite total_of_count. fold total.
    eapply Forall_impl; [apply count_up_bounded|].
    intros p (Hp & Ht). simpl in Hp, Ht. subst total. lia.
  - unfold criar_lote.
    destruct (negb (Py.mem (Py.strip (Py.lower output)) ["csv"; "xlsx"]));
      [reflexivity|].
    subst total. unfold cnpjs_of, invalid_count, invalidos_of. simpl.
    destruct (col_cnpj df) as [cells|]; [|reflexivity].
    destruct (attrs_invalidos df) as [rows|];
      (destruct ((match omap id cells with [] => true | _ :: _ => false end) && _);
       [reflexivity|]);
      unfold bind, on_app, ret; simpl; rewrite lookup_insert_eq;
      eexists; repeat split.
  - intros done t app (j & Hj). unfold job_progress_cb, update_job. rewrite Hj.
    simpl. rewrite lookup_insert_eq. eexists. repeat split.
Qed.

(** *** The delay between requests *)

Lemma split_at_result l1 : forall l2 pre r post,
  Forall (fun e => is_result e = false) l1 ->
  (l1 ++ l2 = pre ++ EvResult r :: post)%list ->
  exists pre', pre = (l1 ++ pre')%list /\ l2 = (pre' ++ EvResult r :: post)%list.
Proof.
  induction l1 as [|e l1 IH]; intros l2 pre r post Hno Hsplit.
  - exists pre. auto.
  - inversion Hno as [|? ? He Hno']; subst.
    destruct pre as [|e' pre]; simpl in Hsplit.
    + injection Hsplit as -> _. discriminate He.
    + injection Hsplit as <- Hsplit.
      destruct (IH _ _ _ _ Hno' Hsplit) as (pre' & -> & ->). exists pre'. auto.
Qed.

Lemma no_result_lookup_log lg :
  lookup_log lg -> Forall (fun e => is_result e = false) lg.
Proof.
  intros (Hall & _). eapply Forall_impl; [exact Hall|].
  intros e He. destruct e; try discriminate He; reflexivity.
Qed.

Lemma no_result_poll hs b : Forall (fun e => is_result e = false) (poll_events hs b).
Proof. destruct hs; repeat constructor. Qed.

Lemma no_result_tick hc d t : Forall (fun e => is_result e = false) (tick_events hc d t).
Proof. destruct hc; repeat constructor. Qed.

Lemma no_result_delay delay r :
  Forall (fun e => is_result e = false) (delay_events delay r).
Proof. unfold delay_events. destruct (_cached r); repeat constructor. Qed.

Lemma calm_head_lookup_log lg : lookup_log lg -> calm_head lg.
Proof.
  intros (Hall & Hhead). destruct lg as [|e lg]; [exact I|].
  inversion Hall as [|? ? He _]; subst.
  destruct e; try discriminate He; try contradiction; split; reflexivity.
Qed.

Lemma calm_head_app l1 l2 : calm_head l1 -> calm_head l2 -> calm_head (l1 ++ l2).
Proof. destruct l1; simpl; auto. Qed.

Lemma loop_run_calm hc hs delay total cnpjs done tr rs ending :
  loop_run hc hs delay total cnpjs done tr rs ending -> calm_head tr.
Proof.
  intros H. destruct H as [done|c rest done Hsc|c rest done lg e Hlog
                          |c rest done lg r tr rs ending Hlog Hc Hrun].
  - exact I.
  - split; reflexivity.
  - apply calm_head_app; [destruct hs; [split; reflexivity|exact I]|].
    apply calm_head_lookup_log. exact Hlog.
  - apply calm_head_app; [destruct hs; [split; reflexivity|exact I]|].
    apply calm_head_app; [apply calm_head_lookup_log; exact Hlog|].
    split; reflexivity.
Qed.

(** After a stretch with a calm head, followed by a stretch without
    pauses, no pause comes first, with or without a report before it. *)
Lemma no_sleep_after_tick tr suffix :
  calm_head tr -> Forall (fun e => is_sleep e = false) suffix ->
  ~ starts_with_sleep (after_tick (tr ++ suffix)) /\
  ~ starts_with_sleep (tr ++ suffix).
Proof.
  intros Hcalm Hno. destruct tr as [|e tr]; simpl.
  - destruct Hno as [|e suffix He Hno]; [auto|].
    destruct e; try discriminate He; simpl; auto.
    destruct Hno as [|e' suffix He' _]; [auto|].
    destruct e'; try discriminate He'; simpl; auto.
  - destruct Hcalm as (Hs & Hp).
    destruct e; try discriminate Hs; try discriminate Hp; simpl; auto.
Qed.

Lemma no_result_no_split l pre r post :
  Forall (fun e => is_result e = false) l ->
  l <> (pre ++ EvResult r :: post)%list.
Proof.
  intros Hno Hsplit. rewrite <- (app_nil_r l) in Hsplit.
  destruct (split_at_result _ _ _ _ _ Hno Hsplit) as (pre' & _ & Habs).
  destruct pre'; discriminate Habs.
Qed.

Lemma loop_run_delay hc hs delay total cnpjs done tr rs ending :
  loop_run hc hs delay total cnpjs done tr rs ending ->
  forall suffix pre r post,
    Forall (fun e => is_sleep e = false) suffix ->
    Forall (fun e => is_result e = false) suffix ->
    (tr ++ suffix = pre ++ EvResult r :: post)%list ->
    if _cached r then ~ starts_with_sleep (after_tick post)
    else exists rest, after_tick post = EvSleep delay :: rest.
Proof.
  induction 1 as [done|c rest done Hsc|c rest done lg e Hlog
                 |c rest done lg r0 tr rs ending Hlog Hc Hrun IH];
    intros suffix pre r post Hno Hnr Hsplit.
  - exfalso. exact (no_result_no_split _ _ _ _ Hnr Hsplit).
  - exfalso. refine (no_result_no_split _ _ _ _ _ Hsplit).
    constructor; [reflexivity|exact Hnr].
  - exfalso. refine (no_result_no_split _ _ _ _ _ Hsplit).
    apply Forall_app. split; [|exact Hnr].
    apply Forall_app. split; [apply no_result_poll|apply no_result_lookup_log; exact Hlog].
  - repeat (rewrite <- app_assoc in Hsplit || rewrite <- app_comm_cons in Hsplit).
    destruct (split_at_result _ _ _ _ _ (no_result_poll hs false) Hsplit)
      as (pre1 & -> & Hsplit1).
    destruct (split_at_result _ _ _ _ _ (no_result_lookup_log _ Hlog) Hsplit1)
      as (pre2 & -> & Hsplit2).
    destruct pre2 as [|e2 pre2]; simpl in Hsplit2.
    + injection Hsplit2 as <- <-.
      pose proof (loop_run_calm _ _ _ _ _ _ _ _ _ Hrun) as Hcalm.
      destruct (no_sleep_after_tick tr suffix Hcalm Hno) as (H1 & H2).
      unfold tick_events, delay_events.
      destruct hc, (_cached r0); simpl; eauto.
    + injection Hsplit2 as <- Hsplit3.
      destruct (split_at_result _ _ _ _ _ (no_result_tick hc (done + 1) total) Hsplit3)
        as (pre3 & -> & Hsplit4).
      destruct (split_at_result _ _ _ _ _ (no_result_delay delay r0) Hsplit4)
        as (pre4 & -> & Hsplit5).
      exact (IH _ _ _ _ Hno Hnr Hsplit5).
Qed.

Lemma run_suffix_quiet hc hs b total done n :
  Forall (fun e => is_sleep e = false)
    (poll_events hs b ++ (if b then [] else invalid_ticks hc total done n)) /\
  Forall (fun e => is_result e = false)
    (poll_events hs b ++ (if b then [] else invalid_ticks hc total done n)).
Proof.
  assert (Hticks : forall d,
             Forall (fun e => is_sleep e = false) (invalid_ticks hc total d n) /\
             Forall (fun e => is_result e = false) (invalid_ticks hc total d n)).
  { induction n as [|n IH]; intros d; [split; constructor|].
    destruct (IH (d + 1)) as (H1 & H2). cbn [invalid_ticks].
    split; apply Forall_app; (split; [destruct hc; repeat constructor|assumption]). }
  destruct (Hticks done) as (H1 & H2).
  split; apply Forall_app;
    (split; [destruct hs; repeat constructor|destruct b; [constructor|assumption]]).
Qed.

(** C6, amended. In the log of a run, the result of a lookup served from
    the cache is never followed by a pause, and the result of any other
    lookup is always followed by a pause of the clamped delay (after the
    progress report, when there is a callback), whether or not another
    item is left. *)
Theorem delay_follows_every_fresh_lookup
    (df_validos : option DataFrame) (sleep_seconds : Q)
    (cb : option ProgressCb) (sc : option CancelCb) (w : World)
    (pre post : list Event) (r : Resultado) :
  w_trace (snd (consultar_optante_lote df_validos sleep_seconds cb sc w)) =
    (w_trace w ++ pre ++ EvResult r :: post)%list ->
  if _cached r then ~ starts_with_sleep (after_tick post)
  else exists rest,
         after_tick post = EvSleep (clamped_delay sleep_seconds) :: rest.
Proof.
  destruct (consultar_optante_lote df_validos sleep_seconds cb sc w)
    as [res w'] eqn:Hrun. simpl. intros Htrace.
  destruct (consultar_optante_lote_sound _ _ _ _ _ _ _ Hrun)
    as (tr & rs & ending & Hloop & _ & Hend).
  assert (Hcase :
            exists suffix,
              Forall (fun e => is_sleep e = false) suffix /\
              Forall (fun e => is_result e = false) suffix /\
              w_trace w' =
                (w_trace w ++ tick_events (given cb) 0 (total_of df_validos) ++
                 tr ++ suffix)%list).
  { destruct ending as [| |e].
    - destruct Hend as (app1 & extra & _ & _ & _ & _ & _ & Htr).
      eexists. split; [|split; [|exact Htr]]; apply run_suffix_quiet.
    - destruct Hend as (app1 & extra & _ & _ & _ & _ & _ & Htr).
      eexists. split; [|split; [|exact Htr]]; apply run_suffix_quiet.
    - exists []. rewrite app_nil_r. repeat split; try constructor. apply Hend. }
  destruct Hcase as (suffix & Hno & Hnr & Htr).
  rewrite Htr in Htrace. apply app_inv_head in Htrace.
  destruct (split_at_result _ _ _ _ _ (no_result_tick _ _ _) Htrace)
    as (pre' & _ & Hsplit).
  exact (loop_run_delay _ _ _ _ _ _ _ _ _ Hloop _ _ _ _ Hno Hnr Hsplit).
Qed.

(** C6, as stated, fails: after the only item of a batch, a fresh lookup,
    the runner still pauses for the full delay. *)
Lemma delay_after_the_last_item :
  w_trace (snd (consultar_optante_lote (Some SampleJobs.one_item) (25 # 2) None None
                  (Sample.world Sample.always_ok ∅))) =
    [EvGet SampleJobs.url (Response 200 None (Json Sample.acme));
     EvCacheSet "22222222000122";
     EvResult Sample.payload;
     EvSleep (25 # 2)] /\
  ~ sleeps_only_between_items (Some SampleJobs.one_item) (25 # 2) None None
      (Sample.world Sample.always_ok ∅).
Proof.
  assert (E : w_trace (snd (consultar_optante_lote (Some SampleJobs.one_item)
                              (25 # 2) None None
                              (Sample.world Sample.always_ok ∅))) =
              [EvGet SampleJobs.url (Response 200 None (Json Sample.acme));
               EvCacheSet "22222222000122";
               EvResult Sample.payload;
               EvSleep (25 # 2)]) by (vm_compute; reflexivity).
  split; [exact E|]. intros Hclaim.
  specialize (Hclaim [EvGet SampleJobs.url (Response 200 None (Json Sample.acme));
                      EvCacheSet "22222222000122"]
                     Sample.payload [EvSleep (25 # 2)]).
  rewrite E in Hclaim. specialize (Hclaim eq_refl eq_refl I).
  vm_compute in Hclaim. lia.
Qed.

(** An instance: the only item of a batch, looked up afresh. *)
Lemma delay_follows_every_fresh_lookup_witness :
  w_trace (snd (consultar_optante_lote (Some SampleJobs.one_item) (25 # 2) None None
                  (Sample.world Sample.always_ok ∅))) =
    (w_trace (Sample.world Sample.always_ok ∅) ++
     [EvGet SampleJobs.url (Response 200 None (Json Sample.acme));
      EvCacheSet "22222222000122"] ++
     EvResult Sample.payload :: [EvSleep (25 # 2)])%list /\
  (if _cached Sample.payload then ~ starts_with_sleep (after_tick [EvSleep (25 # 2)])
   else exists rest,
          after_tick [EvSleep (25 # 2)] = EvSleep (clamped_delay (25 # 2)) :: rest).
Proof.
  assert (H : w_trace (snd (consultar_optante_lote (Some SampleJobs.one_item)
                              (25 # 2) None None
                              (Sample.world Sample.always_ok ∅))) =
              (w_trace (Sample.world Sample.always_ok ∅) ++
               [EvGet SampleJobs.url (Response 200 None (Json Sample.acme));
                EvCacheSet "22222222000122"] ++
               EvResult Sample.payload :: [EvSleep (25 # 2)])%list)
    by (vm_compute; reflexivity).
  split; [exact H|].
  exact (delay_follows_every_fresh_lookup (Some SampleJobs.one_item) (25 # 2)
           None None (Sample.world Sample.always_ok ∅) _ _ _ H).
Defined.

(** ** The job *)

Lemma silent_ret {A} (a : A) : silent (ret a).
Proof. intros w. reflexivity. Qed.

Lemma silent_raise {A} (e : Exn) : silent (@raise A e).
Proof. intros w. reflexivity. Qed.

Lemma silent_lift {A} (o : Outcome A) : silent (lift o).
Proof. intros w. reflexivity. Qed.

Lemma silent_on_app {A} (f : App -> A * App) : silent (on_app f).
Proof. intros w. unfold on_app. destruct (f (w_app w)). reflexivity. Qed.

Lemma silent_get_job job_id : silent (get_job job_id).
Proof. intros w. unfold get_job. destruct (jobs (w_app w) !! job_id); reflexivity. Qed.

Lemma silent_bind {A B} (c : M A) (k : A -> M B) :
  silent c -> (forall a, silent (k a)) -> silent (bind c k).
Proof.
  intros Hc Hk w. unfold bind. specialize (Hc w).
  destruct (c w) as [[a|e] w1]; simpl in Hc |- *; [|exact Hc].
  rewrite Hk. exact Hc.
Qed.

Lemma silent_job_update job_id f : silent (job_update job_id f).
Proof.
  unfold job_update. apply silent_bind; [apply silent_on_app|].
  intros [e|]; [apply silent_raise|apply silent_ret].
Qed.

Lemma silent_except {A} (c : M A) (h : Exn -> M A) :
  silent c -> (forall e, silent (h e)) -> silent (except_Exception c h).
Proof.
  intros Hc Hh w. unfold except_Exception. specialize (Hc w).
  destruct (c w) as [[a|e] w1]; simpl in Hc |- *; [exact Hc|].
  rewrite Hh. exact Hc.
Qed.

Lemma job_update_run job_id f w job :
  jobs (w_app w) !! job_id = Some job ->
  job_update job_id f w =
  (Returned tt, with_app (with_jobs (<[job_id := f job]> (jobs (w_app w))) (w_app w)) w).
Proof.
  intros Hjob. unfold job_update, bind, on_app, update_job. rewrite Hjob. reflexivity.
Qed.

Lemma job_update_absent job_id f w :
  jobs (w_app w) !! job_id = None ->
  job_update job_id f w = (Raised (KeyError job_id), w).
Proof.
  intros Hjob. unfold job_update, bind, on_app, update_job. rewrite Hjob.
  destruct w; reflexivity.
Qed.

Lemma flagged_cancelar job_id id' app :
  flagged job_id app -> flagged job_id (snd (cancelar id' app)).
Proof.
  intros (job & Hjob & Hev). unfold cancelar.
  destruct (jobs app !! id') as [job'|] eqn:Hjob'; [|exists job; auto].
  destruct (j_done job'); [exists job; auto|]. unfold flagged. simpl.
  destruct (decide (id' = job_id)) as [->|Hne].
  - rewrite lookup_insert_eq. eexists. split; [reflexivity|].
    destruct (j_status job'); reflexivity.
  - rewrite lookup_insert_ne by exact Hne. exists job. auto.
Qed.

Lemma flagged_serve_incoming job_id app :
  flagged job_id app -> flagged job_id (serve_incoming app).
Proof.
  intros Hf. unfold serve_incoming.
  destruct (incoming app (observations app)) as [id'|]; [|exact Hf].
  exact (flagged_cancelar job_id id' app Hf).
Qed.

Lemma flagged_progress_cb job_id done total app :
  flagged job_id app -> flagged job_id (snd (job_progress_cb job_id done total app)).
Proof.
  intros (job & Hjob & Hev). unfold job_progress_cb, update_job. rewrite Hjob.
  unfold flagged. simpl. rewrite lookup_insert_eq.
  eexists. split; [reflexivity|exact Hev].
Qed.

(** The cancel event is never cleared: what the runner's callbacks do to
    the application state keeps a set event set. *)
Lemma flagged_kept job_id :
  kept_by (Some (job_progress_cb job_id)) (Some (job_should_cancel job_id))
    (flagged job_id).
Proof.
  split.
  - intros d t a. apply flagged_progress_cb.
  - intros a. apply flagged_serve_incoming.
Qed.

Lemma poll_true_flagged job_id app :
  poll_answer (Some (job_should_cancel job_id)) app = true ->
  flagged job_id (poll_app (Some (job_should_cancel job_id)) app).
Proof.
  simpl. unfold cancel_event_is_set.
  destruct (jobs (serve_incoming app) !! job_id) as [job|] eqn:Hjob; [|discriminate].
  intros Hev. exists job. auto.
Qed.

Lemma flagged_poll_true job_id app :
  flagged job_id app ->
  poll_answer (Some (job_should_cancel job_id)) app = true.
Proof.
  intros Hf. destruct (flagged_serve_incoming job_id app Hf) as (job & Hjob & Hev).
  simpl. unfold cancel_event_is_set. rewrite Hjob. exact Hev.
Qed.

(** *** Polls and results in the log of the loop *)

Lemma polls_app l1 l2 : polls (l1 ++ l2) = (polls l1 ++ polls l2)%list.
Proof. apply omap_app. Qed.

Lemma results_app l1 l2 : results (l1 ++ l2) = (results l1 ++ results l2)%list.
Proof. apply omap_app. Qed.

Lemma polls_lookup_log lg : lookup_log lg -> polls lg = [].
Proof.
  intros (Hall & _). induction Hall as [|e l He _ IH]; [reflexivity|].
  destruct e; try discriminate He; exact IH.
Qed.

Lemma results_lookup_log lg : lookup_log lg -> results lg = [].
Proof.
  intros (Hall & _). induction Hall as [|e l He _ IH]; [reflexivity|].
  destruct e; try discriminate He; exact IH.
Qed.

Lemma polls_tick hc d t : polls (tick_events hc d t) = [].
Proof. destruct hc; reflexivity. Qed.

Lemma results_tick hc d t : results (tick_events hc d t) = [].
Proof. destruct hc; reflexivity. Qed.

Lemma polls_delay delay r : polls (delay_events delay r) = [].
Proof. unfold delay_events. destruct (_cached r); reflexivity. Qed.

Lemma results_delay delay r : results (delay_events delay r) = [].
Proof. unfold delay_events. destruct (_cached r); reflexivity. Qed.

Lemma polls_invalid_ticks hc total n : forall done,
  polls (invalid_ticks hc total done n) = [].
Proof.
  induction n as [|n IH]; intros done; [reflexivity|].
  cbn [invalid_ticks]. rewrite polls_app, polls_tick, IH. reflexivity.
Qed.

Lemma results_invalid_ticks hc total n : forall done,
  results (invalid_ticks hc total done n) = [].
Proof.
  induction n as [|n IH]; intros done; [reflexivity|].
  cbn [invalid_ticks]. rewrite results_app, results_tick, IH. reflexivity.
Qed.

Lemma polls_result r l : polls (EvResult r :: l) = polls l.
Proof. reflexivity. Qed.

Lemma results_result r l : results (EvResult r :: l) = r :: results l.
Proof. reflexivity. Qed.

Lemma polls_poll b : polls (poll_events true b) = [b].
Proof. reflexivity. Qed.

Lemma results_poll hs b : results (poll_events hs b) = [].
Proof. destruct hs; reflexivity. Qed.

(** With a [should_cancel], the loop's polls are one [false] per result,
    then [true] if it broke and [false] if the next lookup raised; its
    results are the records of the first identifiers. *)
Lemma loop_run_polled hc delay total cnpjs done tr rs ending :
  loop_run hc true delay total cnpjs done tr rs ending ->
  polls tr =
    (repeat false (length rs) ++
     match ending with
     | Exhausted => []
     | Broken => [true]
     | Crashed _ => [false]
     end)%list /\
  results tr = rs /\
  Forall2 (fun c r => cnpj r = _clean_cnpj c) (take (length rs) cnpjs) rs.
Proof.
  induction 1 as [done|c rest done Hsc|c rest done lg e Hlog
                 |c rest done lg r tr rs ending Hlog Hc Hrun IH].
  - repeat split. constructor.
  - repeat split. constructor.
  - rewrite polls_app, results_app, (polls_lookup_log _ Hlog),
      (results_lookup_log _ Hlog), polls_poll, results_poll.
    repeat split. constructor.
  - destruct IH as (Hp & Hr & Hitems).
    rewrite !polls_app, !results_app, (polls_lookup_log _ Hlog),
      (results_lookup_log _ Hlog), polls_poll, results_poll,
      polls_result, results_result.
    rewrite !polls_app, !results_app, polls_tick, polls_delay, results_tick,
      results_delay, Hp, Hr.
    split; [reflexivity|]. split; [reflexivity|].
    cbn [length take]. constructor; assumption.
Qed.

Lemma repeat_false_true (a : nat) : forall n x y,
  (repeat false a ++ true :: x = repeat false n ++ true :: y)%list -> a = n.
Proof.
  induction a as [|a IH]; intros [|n] x y H; simpl in H;
    try reflexivity; try discriminate H.
  injection H as H. f_equal. exact (IH _ _ _ H).
Qed.

Lemma all_false_no_true (l : list bool) : forall n y,
  Forall (fun b => b = false) l -> l <> (repeat false n ++ true :: y)%list.
Proof.
  induction l as [|b l IH]; intros [|n] y Hall H; simpl in H; try discriminate H.
  - injection H as -> _. inversion Hall as [|? ? Hb _]. discriminate Hb.
  - injection H as _ H. apply Forall_cons in Hall as (_ & Hall').
    exact (IH _ _ Hall' H).
Qed.

Lemma repeat_false_all n : Forall (fun b => b = false) (repeat false n).
Proof. induction n; constructor; auto. Qed.

Lemma silent_finalizar job_id output rows : silent (finalizar job_id output rows).
Proof.
  unfold finalizar.
  repeat first
    [ apply silent_job_update
    | apply silent_on_app
    | apply silent_lift
    | apply silent_get_job
    | apply silent_bind; [|intros ?]
    | match goal with |- silent (if ?b then _ else _) => destruct b end ].
Qed.

Lemma silent_falhar job_id e : silent (falhar job_id e).
Proof.
  unfold falhar.
  repeat first [ apply silent_job_update | apply silent_bind; [|intros ?] ].
Qed.

Lemma except_bind {A B} (c : M A) (k : A -> M B) (h : Exn -> M B) w :
  except_Exception (bind c k) h w =
  match c w with
  | (Returned a, w1) => except_Exception (k a) h w1
  | (Raised e, w1) => h e w1
  end.
Proof.
  unfold except_Exception, bind. destruct (c w) as [[a|e] w1]; reflexivity.
Qed.

(** A set cancel event at the end of the run makes the job [Canceled],
    done, with the file built from the rows. *)
Lemma finalizar_flagged job_id output rows w :
  output = "csv" \/ output = "xlsx" ->
  flagged job_id (w_app w) ->
  exists file job w',
    finalizar job_id output rows w = (Returned tt, w') /\
    build_output_bytes rows output = Returned file /\
    jobs (w_app w') !! job_id = Some job /\
    j_status job = Canceled /\ j_done job = true /\
    j_file_bytes job = Some file.
Proof.
  intros Hout Hf.
  assert (Hfile : exists file, build_output_bytes rows output = Returned file).
  { destruct Hout as [-> | ->]; eexists; reflexivity. }
  destruct Hfile as (file & Hfile).
  destruct (flagged_serve_incoming _ _ Hf) as (j1 & Hj1 & Hev1).
  exists file. unfold finalizar. rewrite Hfile.
  unfold bind at 1. unfold lift at 1. unfold bind at 1. unfold on_app at 1.
  cbv beta iota. unfold bind at 1.
  erewrite (job_update_run _ _ _ j1) by exact Hj1.
  unfold bind at 1.
  erewrite job_update_run by (simpl; apply lookup_insert_eq).
  unfold bind at 1. unfold get_job at 1. simpl.
  rewrite lookup_insert_eq. simpl. rewrite Hev1.
  erewrite job_update_run by (simpl; apply lookup_insert_eq).
  eexists _, _. split; [reflexivity|]. split; [reflexivity|].
  simpl. rewrite lookup_insert_eq. repeat split.
Qed.



(** An instance: the sample job, canceled after its first item. *)
Lemma progress_never_decreases_nor_exceeds_total_witness :
  exists tr,
    w_trace (snd (consultar_optante_lote (Some SampleJobs.three_items) (25 # 2)
                    (Some (job_progress_cb "job-1"))
                    (Some (job_should_cancel "job-1")) SampleJobs.world)) =
      (w_trace SampleJobs.world ++ tr)%list /\
    StronglySorted Z.le (map fst (progress_reports tr)) /\
    Forall (fun report => 0 <= fst report <= snd report /\ snd report = 4)
      (progress_reports tr).
Proof.
  exact (proj1 (progress_never_decreases_nor_exceeds_total
                  SampleJobs.three_items (25 # 2)
                  (Some (job_progress_cb "job-1"))
                  (Some (job_should_cancel "job-1")) "csv" "job-1"
                  SampleJobs.world)).
Defined.

(** ** Callbacks that raise *)

Lemma bind_cong {A B} (c1 c2 : M A) (k1 k2 : A -> M B) w :
  c1 w = c2 w -> (forall a w', k1 a w' = k2 a w') ->
  bind c1 k1 w = bind c2 k2 w.
Proof.
  intros Hc Hk. unfold bind. rewrite Hc.
  destruct (c2 w) as [[a|e] w1]; [apply Hk|reflexivity].
Qed.

Section SameEffect.

Variables cb1 cb2 : ProgressCb.
Hypothesis same_effect : forall d t a, snd (cb1 d t a) = snd (cb2 d t a).

Lemma tick_same done total w :
  _tick (Some cb1) done total w = _tick (Some cb2) done total w.
Proof using same_effect.
  unfold _tick, bind, emit, on_app. cbn [w_app log].
  specialize (same_effect done total (w_app w)).
  destruct (cb1 done total (w_app w)) as [o1 a1], (cb2 done total (w_app w)) as [o2 a2].
  simpl in same_effect. subst a2. reflexivity.
Qed.

Lemma lote_validos_same sc secs total cnpjs : forall acc done w,
  lote_validos (Some cb1) sc secs total cnpjs acc done w =
  lote_validos (Some cb2) sc secs total cnpjs acc done w.
Proof using same_effect.
  induction cnpjs as [|c rest IH]; intros acc done w; [reflexivity|].
  cbn [lote_validos].
  apply bind_cong; [reflexivity|]. intros stop w1.
  destruct stop; [reflexivity|].
  apply bind_cong; [reflexivity|]. intros ttl w2.
  apply bind_cong; [reflexivity|]. intros r w3.
  apply bind_cong; [reflexivity|]. intros [] w4.
  unfold pop_cached.
  apply bind_cong; [apply tick_same|]. intros [] w5.
  apply bind_cong; [reflexivity|]. intros [] w6.
  apply IH.
Qed.

Lemma lote_invalidos_same total rows : forall acc done w,
  lote_invalidos (Some cb1) total rows acc done w =
  lote_invalidos (Some cb2) total rows acc done w.
Proof using same_effect.
  induction rows as [|row rest IH]; intros acc done w; [reflexivity|].
  cbn [lote_invalidos].
  apply bind_cong; [reflexivity|]. intros now w1.
  apply bind_cong; [apply tick_same|]. intros [] w2.
  apply IH.
Qed.

Lemma consultar_optante_lote_same df secs sc w :
  consultar_optante_lote df secs (Some cb1) sc w =
  consultar_optante_lote df secs (Some cb2) sc w.
Proof using same_effect.
  unfold consultar_optante_lote.
  apply bind_cong; [apply tick_same|]. intros [] w1.
  rewrite !try_finally_close.
  apply bind_cong; [apply lote_validos_same|]. intros [resultados done] w2.
  apply bind_cong; [reflexivity|]. intros stop w3.
  destruct stop; [reflexivity|].
  destruct (invalidos_of df); [apply lote_invalidos_same|reflexivity].
Qed.

End SameEffect.



(** With the callback that raises at every call, the sample batch still
    yields its four rows: three lookups and the invalid row. *)
Example raising_callback_run :
  exists rows,
    fst (consultar_optante_lote (Some SampleJobs.three_items) (25 # 2)
           (Some SampleJobs.raising_cb) None SampleJobs.world) = Returned rows /\
    length rows = 4%nat.
Proof. eexists. split; [vm_compute; reflexivity|reflexivity]. Qed.

(** * Further properties *)

(** ** Cleaning an identifier *)

Lemma filter_length (p : ascii -> bool) (s : string) :
  (String.length (Py.filter p s) <= String.length s)%nat.
Proof.
  induction s as [|c r IH]; simpl; [lia|]. destruct (p c); simpl; lia.
Qed.

Lemma filter_all (p : ascii -> bool) (s : string) :
  Py.all p s = true -> Py.filter p s = s.
Proof.
  induction s as [|c r IH]; simpl; [reflexivity|].
  destruct (p c); simpl; [|discriminate]. intros H. f_equal. exact (IH H).
Qed.


(** ** Reading the flags and the name *)

Lemma as_sim_nao_tri_state (v : json) : tri_state (_as_sim_nao v).
Proof.
  unfold tri_state. destruct v; simpl;
    repeat match goal with
           | |- context [if ?b then _ else _] => destruct b
           end; auto.
Qed.

Lemma status_text_tri_state k v out :
  status_text k v = Some out -> out = "Sim" \/ out = "Não".
Proof.
  unfold status_text. destruct v; try discriminate.
  repeat match goal with
         | |- context [if ?b then _ else _] => destruct b
         end; intros H; try discriminate H; injection H as <-; auto.
Qed.

Lemma flag_by_keys_tri_state keys members out :
  flag_by_keys keys members = Some out -> tri_state out /\ out <> "".
Proof.
  induction keys as [|k ks IH]; simpl; [discriminate|].
  destruct (lookup_member members k) as [v|]; [|exact IH].
  destruct (status_text k v) as [o|] eqn:Hs.
  - intros H. injection H as <-.
    destruct (status_text_tri_state _ _ _ Hs) as [-> | ->];
      unfold tri_state; split; auto; discriminate.
  - destruct (String.eqb_spec (_as_sim_nao v) "") as [_|Hne]; [exact IH|].
    intros H. injection H as <-. split; [apply as_sim_nao_tri_state|exact Hne].
Qed.

Lemma flag_by_values_tri_state values : tri_state (flag_by_values values).
Proof.
  induction values as [|v vs IH]; simpl; [unfold tri_state; auto|].
  destruct (String.eqb _ _); [exact IH|apply as_sim_nao_tri_state].
Qed.

(** X2. Whatever JSON value it is given, [_extract_optant_flag] answers
    "Sim", "Não" or the empty text. *)
Theorem extract_optant_flag_is_tri_state (obj : json) :
  tri_state (_extract_optant_flag obj).
Proof.
  destruct obj as [|b|n|x|text|items|members].
  - unfold tri_state. auto.
  - apply (as_sim_nao_tri_state (JBool b)).
  - apply (as_sim_nao_tri_state (JInt n)).
  - apply (as_sim_nao_tri_state (JFloat x)).
  - apply (as_sim_nao_tri_state (JStr text)).
  - unfold tri_state. auto.
  - unfold _extract_optant_flag.
    destruct (flag_by_keys FLAG_KEYS members) as [out|] eqn:H.
    + apply (flag_by_keys_tri_state _ _ _ H).
    + apply flag_by_values_tri_state.
Qed.

Lemma flag_by_keys_priority members k (b : bool) before : forall after,
  Forall (passed_over members) before ->
  lookup_member members k = Some (JBool b) ->
  flag_by_keys (before ++ k :: after) members = Some (if b then "Sim" else "Não").
Proof.
  induction before as [|k0 ks IH]; intros after Hpass Hk; simpl.
  - rewrite Hk. simpl. destruct b; reflexivity.
  - apply Forall_cons in Hpass as (H0 & Hpass). unfold passed_over in H0.
    destruct (lookup_member members k0) as [v|]; [|apply IH; assumption].
    destruct H0 as (-> & ->). simpl. apply IH; assumption.
Qed.



Lemma first_name_found keys : forall members name,
  first_name keys (JDict members) = Returned (Some name) ->
  name <> "" /\
  exists k text, In k keys /\ lookup_member members k = Some (JStr text) /\
                 name = Py.strip text.
Proof.
  induction keys as [|k ks IH]; intros members name; simpl; [discriminate|].
  assert (Hrest : first_name ks (JDict members) = Returned (Some name) ->
                  name <> "" /\
                  exists k0 text, (k = k0 \/ In k0 ks) /\
                    lookup_member members k0 = Some (JStr text) /\
                    name = Py.strip text).
  { intros H. destruct (IH _ _ H) as (Hne & k0 & text & Hin & Hm & Hn).
    split; [exact Hne|]. exists k0, text. auto. }
  destruct (lookup_member members k) as [v|] eqn:Hm; [|exact Hrest].
  destruct v; try exact Hrest.
  destruct (String.eqb_spec (Py.strip s) "") as [_|Hne]; [exact Hrest|].
  intros H. injection H as <-. split; [exact Hne|]. exists k, s. auto.
Qed.

Lemma first_name_first k ks members text :
  lookup_member members k = Some (JStr text) ->
  Py.strip text <> "" ->
  first_name (k :: ks) (JDict members) = Returned (Some (Py.strip text)).
Proof.
  intros Hm Hne. simpl. rewrite Hm.
  destruct (String.eqb_spec (Py.strip text) ""); [contradiction|reflexivity].
Qed.



(** ** The cache *)


(** One iteration of the retry loop makes one request; it writes the
    cache only when it returns a record without an error. *)
Lemma tentativa_store c now url uc a attempts w :
  match tentativa c now url uc a attempts w with
  | (Returned (Return r), w') =>
      w_calls w' = S (w_calls w) /\ _cached r = false /\
      w_cache w' =
        (if String.eqb (erro r) "" && uc && fullmatch_d14 c
         then <[c := stored_row r (int_of_float (w_clock w'))]> (w_cache w)
         else w_cache w)
  | (_, w') => w_calls w' = S (w_calls w) /\ w_cache w' = w_cache w
  end.
Proof.
  unfold tentativa, except_RequestException, bind, requests_get.
  destruct (w_net w (w_calls w)) as [cls msg|code hdr body].
  - destruct (a <? attempts); simpl; auto.
  - simpl. destruct (code =? 429).
    { destruct (a <? attempts); simpl; auto. }
    destruct (500 <=? code).
    { destruct (a <? attempts); simpl; auto. }
    destruct (400 <=? code).
    { simpl; auto. }
    destruct body as [msg|v]; simpl.
    { destruct (a <? attempts); simpl; auto. }
    unfold lift. destruct (montar_payload c now v) as [p|e] eqn:Hp;
      [|destruct e; try destruct (a <? attempts); simpl; auto].
    destruct (montar_payload_fields _ _ _ _ Hp) as (Hc & _ & He & Hca).
    unfold _cache_set, bind. rewrite Hc.
    destruct uc; simpl; [destruct (fullmatch_d14 c) eqn:Hfm; simpl|];
      rewrite He; simpl; auto.
Qed.

Lemma tentativas_store c now url uc attempts range : forall last_err w res w',
  tentativas c now url uc attempts range last_err w = (res, w') ->
  (w_calls w <= w_calls w' <= w_calls w + length range)%nat /\
  match res with
  | Returned r =>
      _cached r = false /\
      w_cache w' =
        (if String.eqb (erro r) "" && uc && fullmatch_d14 c
         then <[c := stored_row r (int_of_float (w_clock w'))]> (w_cache w)
         else w_cache w)
  | Raised _ => w_cache w' = w_cache w
  end.
Proof.
  induction range as [|a rest IH]; intros last_err w res w' Hrun;
    cbn [tentativas] in Hrun.
  - unfold ret in Hrun. injection Hrun as <- <-. simpl. split; [lia|].
    split; [reflexivity|].
    unfold Py.str_or. destruct last_err; reflexivity.
  - unfold bind in Hrun. fold tentativas in Hrun.
    pose proof (tentativa_store c now url uc a attempts w) as Hstep.
    destruct (tentativa c now url uc a attempts w) as [[[err|r]|e] w1].
    + destruct Hstep as (Hcalls & Hcache).
      destruct (IH _ _ _ _ Hrun) as (Hn & Hres). simpl.
      split; [lia|]. rewrite <- Hcache. exact Hres.
    + unfold ret in Hrun. injection Hrun as <- <-.
      destruct Hstep as (Hcalls & Hres). simpl. split; [lia|exact Hres].
    + injection Hrun as <- <-. destruct Hstep as (Hcalls & Hres). simpl.
      split; [lia|exact Hres].
Qed.

Lemma py_range_length (a b : Z) : length (py_range a b) = Z.to_nat (b - a).
Proof. unfold py_range. rewrite length_map, length_seq. reflexivity. Qed.

(** What a lookup does to the request counter and to the cache. *)
Lemma consultar_optante_store cnpj_in uc ttl max_retries w res w' :
  consultar_optante cnpj_in uc ttl max_retries w = (res, w') ->
  (w_calls w <= w_calls w' <= w_calls w + Z.to_nat (Z.max 1 max_retries))%nat /\
  w_cache w' =
    cache_after (_clean_cnpj cnpj_in) uc (int_of_float (w_clock w')) res (w_cache w).
Proof.
  intros Hrun. unfold consultar_optante, bind, datetime_now in Hrun.
  set (c := _clean_cnpj cnpj_in) in *.
  set (now := Py.strftime (Qfloor (w_clock w))) in *.
  destruct (fullmatch_d14 c) eqn:Hfm; simpl in Hrun.
  2:{ injection Hrun as <- <-. split; [lia|reflexivity]. }
  assert (Hloop : tentativas c now (OPEN_CNPJA_BASE ++ "/" ++ c) uc
                    (Py.maxZ 1 max_retries)
                    (py_range 1 (Py.maxZ 1 max_retries + 1)) "" w = (res, w') ->
                  (w_calls w <= w_calls w' <=
                   w_calls w + Z.to_nat (Z.max 1 max_retries))%nat /\
                  w_cache w' =
                    cache_after c uc (int_of_float (w_clock w')) res (w_cache w)).
  { intros Hl. destruct (tentativas_store _ _ _ _ _ _ _ _ _ _ Hl) as (Hn & Hres).
    rewrite py_range_length in Hn.
    assert (Hmax : Py.maxZ 1 max_retries = Z.max 1 max_retries).
    { unfold Py.maxZ. destruct (1 <? max_retries) eqn:E; lia. }
    rewrite Hmax in Hn. split; [lia|].
    unfold cache_after. destruct res as [r|e]; [|exact Hres].
    destruct Hres as (Hca & Hcache). rewrite Hca, Hfm in *.
    rewrite Hcache. rewrite !andb_true_r. reflexivity. }
  destruct uc.
  - unfold _cache_get, bind, time_time, read_cache in Hrun.
    destruct (w_cache w !! c) as [row|] eqn:Hrow; simpl in Hrun;
      [|exact (Hloop Hrun)].
    destruct (_ && _) in Hrun; simpl in Hrun; [exact (Hloop Hrun)|].
    injection Hrun as <- <-. split; [lia|reflexivity].
  - simpl in Hrun. exact (Hloop Hrun).
Qed.

(** X6. A lookup leaves the cache as it was, except that a success which
    was not itself a cache hit, with the cache in use, stores its record
    under the cleaned identifier with the second of the write: a failure,
    a hit, an exception or [use_cache=False] writes nothing. *)
Theorem lookup_writes_cache_only_on_success
    (cnpj_in : string) (use_cache : bool) (ttl max_retries : Z) (w : World) :
  let run := consultar_optante cnpj_in use_cache ttl max_retries w in
  w_cache (snd run) =
    cache_after (_clean_cnpj cnpj_in) use_cache
      (int_of_float (w_clock (snd run))) (fst run) (w_cache w).
Proof.
  cbv zeta.
  destruct (consultar_optante cnpj_in use_cache ttl max_retries w)
    as [res w'] eqn:Hrun.
  exact (proj2 (consultar_optante_store _ _ _ _ _ _ _ Hrun)).
Qed.

(** X7. After a lookup that succeeded over the network with the cache in
    use, a lookup of the same identifier is answered from the cache, as
    long as the row is still there and within the ttl: it returns the same
    record marked as cached, makes no request and logs nothing. *)
Theorem repeated_lookup_is_a_cache_hit
    (cnpj_in : string) (ttl max_retries : Z) (w : World) (r : Resultado)
    (ttl2 max_retries2 : Z) (w2 : World) :
  let w' := snd (consultar_optante cnpj_in true ttl max_retries w) in
  fst (consultar_optante cnpj_in true ttl max_retries w) = Returned r ->
  erro r = "" ->
  _cached r = false ->
  w_cache w2 !! _clean_cnpj cnpj_in = w_cache w' !! _clean_cnpj cnpj_in ->
  int_of_float (w_clock w2) - int_of_float (w_clock w') <= ttl2 ->
  consultar_optante cnpj_in true ttl2 max_retries2 w2 = (Returned (as_hit r), w2).
Proof.
  destruct (consultar_optante cnpj_in true ttl max_retries w)
    as [res w'] eqn:Hrun.
  cbn [fst snd]. intros -> Hok Hfresh Hrow Hage.
  pose proof (proj2 (consultar_optante_store _ _ _ _ _ _ _ Hrun)) as Hcache.
  unfold cache_after in Hcache. rewrite Hok, Hfresh in Hcache. simpl in Hcache.
  destruct (consultar_optante_sound _ _ _ _ _ _ _ Hrun)
    as (tr & _ & _ & [(_ & _ & E)|[(_ & _ & _ & row & _ & E)|(Hfm & Hloop)]]).
  - injection E as ->. discriminate Hok.
  - injection E as ->. discriminate Hfresh.
  - destruct (retry_run_result _ _ _ _ _ _ _ _ _ _ Hloop) as (Hc & _).
    rewrite Hcache, lookup_insert_eq in Hrow.
    unfold consultar_optante, bind, datetime_now. rewrite Hfm. simpl.
    unfold _cache_get, bind, time_time, read_cache. rewrite Hrow. simpl.
    replace (ttl2 <? int_of_float (w_clock w2) - int_of_float (w_clock w'))
      with false by (symmetry; apply Z.ltb_ge; exact Hage).
    rewrite andb_false_r. unfold ret, cached_result, as_hit. simpl.
    rewrite Hc, Hok. reflexivity.
Qed.

Lemma repeated_lookup_is_a_cache_hit_witness :
  fst (consultar_optante "22.222.222/0001-22" true 86400 3
         (Sample.world Sample.always_ok ∅)) = Returned Sample.payload /\
  erro Sample.payload = "" /\
  _cached Sample.payload = false /\
  consultar_optante "22.222.222/0001-22" true 60 1
    (snd (consultar_optante "22.222.222/0001-22" true 86400 3
            (Sample.world Sample.always_ok ∅))) =
  (Returned (as_hit Sample.payload),
   snd (consultar_optante "22.222.222/0001-22" true 86400 3
          (Sample.world Sample.always_ok ∅))).
Proof.
  assert (H1 : fst (consultar_optante "22.222.222/0001-22" true 86400 3
                      (Sample.world Sample.always_ok ∅)) = Returned Sample.payload)
    by (vm_compute; reflexivity).
  split; [exact H1|]. split; [reflexivity|]. split; [reflexivity|].
  exact (repeated_lookup_is_a_cache_hit "22.222.222/0001-22" 86400 3
           (Sample.world Sample.always_ok ∅) Sample.payload 60 1
           (snd (consultar_optante "22.222.222/0001-22" true 86400 3
                   (Sample.world Sample.always_ok ∅)))
           H1 eq_refl eq_refl eq_refl ltac:(vm_compute; discriminate)).
Defined.

(** X8. One lookup makes at most [max(1, max_retries)] requests. *)
Theorem lookup_request_bound
    (cnpj_in : string) (use_cache : bool) (ttl max_retries : Z) (w : World) :
  let w' := snd (consultar_optante cnpj_in use_cache ttl max_retries w) in
  (w_calls w <= w_calls w' <= w_calls w + Z.to_nat (Z.max 1 max_retries))%nat.
Proof.
  cbv zeta.
  destruct (consultar_optante cnpj_in use_cache ttl max_retries w)
    as [res w'] eqn:Hrun.
  exact (proj1 (consultar_optante_store _ _ _ _ _ _ _ Hrun)).
Qed.

(** ** Retries *)

Lemma minZ_min (a b : Z) : Py.minZ a b = Z.min a b.
Proof. unfold Py.minZ. destruct (b <? a) eqn:E; lia. Qed.

Lemma maxZ_max (a b : Z) : Py.maxZ a b = Z.max a b.
Proof. unfold Py.maxZ. destruct (a <? b) eqn:E; lia. Qed.

Lemma inject_Z_bounds (x : Z) :
  1 <= x <= 90 -> (1 <= inject_Z x)%Q /\ (inject_Z x <= 90)%Q.
Proof.
  intros (H1 & H2). split.
  - change 1%Q with (inject_Z 1). rewrite <- Zle_Qle. exact H1.
  - change 90%Q with (inject_Z 90). rewrite <- Zle_Qle. exact H2.
Qed.

Lemma retryable_pause_bounds a o pause err :
  0 <= a -> retryable a o = Some (pause, err) ->
  (1 <= pause)%Q /\ (pause <= 90)%Q.
Proof.
  intros Ha. assert (Hpow : 0 < 2 ^ a) by (apply Z.pow_pos_nonneg; lia).
  unfold retryable. destruct o as [cls msg|code hdr body].
  - intros [= <- _]. apply inject_Z_bounds. rewrite minZ_min. lia.
  - destruct (code =? 429).
    { intros [= <- _]. apply inject_Z_bounds. rewrite clamp_1_90. lia. }
    destruct (500 <=? code).
    { intros [= <- _]. apply inject_Z_bounds. rewrite minZ_min. lia. }
    destruct (400 <=? code); [discriminate|].
    destruct body; [|discriminate].
    intros [= <- _]. apply inject_Z_bounds. rewrite minZ_min. lia.
Qed.

Lemma sleeps_cons_get url o tr : sleeps (EvGet url o :: tr) = sleeps tr.
Proof. reflexivity. Qed.

Lemma sleeps_cons_sleep s tr : sleeps (EvSleep s :: tr) = 1 + sleeps tr.
Proof. unfold sleeps. simpl. lia. Qed.

(** The pauses of the loop are bounded, and one stands between two
    requests. *)
Lemma retry_run_pauses net c now url uc attempts a i tr res :
  retry_run net c now url uc attempts a i tr res ->
  0 <= a ->
  Forall pause_in_bounds tr /\ 1 <= gets tr /\ sleeps tr = gets tr - 1.
Proof.
  induction 1 as [a i pause err tr res Hretry Hlt Hrun IH
                 |a i pause err Hretry Hge
                 |a i code hdr0 body0 Hnet Hcode Hne
                 |a i code hdr0 v p Hnet Hcode Hp
                 |a i code hdr0 v msg Hnet Hcode Hp]; intros Ha.
  - destruct (IH ltac:(lia)) as (Hall & Hg & Hs).
    rewrite gets_cons_get, gets_cons_sleep, sleeps_cons_get, sleeps_cons_sleep.
    split; [|lia].
    constructor; [exact I|]. constructor; [|exact Hall].
    exact (retryable_pause_bounds _ _ _ _ Ha Hretry).
  - split; [repeat constructor|]. split; reflexivity.
  - split; [repeat constructor|]. split; reflexivity.
  - destruct (uc && fullmatch_d14 c); (split; [repeat constructor|]);
      split; reflexivity.
  - split; [repeat constructor|]. split; reflexivity.
Qed.

(** Where an answer that the loop retries stands in its log. *)
Lemma retry_run_retried net c now url uc attempts a i tr res :
  retry_run net c now url uc attempts a i tr res ->
  a <= attempts ->
  forall pre url' o post pause err,
    tr = (pre ++ EvGet url' o :: post)%list ->
    retryable (a + gets pre) o = Some (pause, err) ->
    (a + gets pre < attempts /\
     exists o' post', post = EvSleep pause :: EvGet url' o' :: post') \/
    (a + gets pre = attempts /\ post = [] /\
     res = Returned (falha c now err)).
Proof.
  induction 1 as [a i pause0 err0 tr res Hretry Hlt Hrun IH
                 |a i pause0 err0 Hretry Hge
                 |a i code hdr0 body0 Hnet Hcode Hne
                 |a i code hdr0 v p Hnet Hcode Hp
                 |a i code hdr0 v msg Hnet Hcode Hp];
    intros Hle pre url' o post pause err Hsplit Ho.
  - destruct pre as [|e1 [|e2 pre]]; simpl in Hsplit.
    + injection Hsplit as Hu Hnet Hpost. subst url' o.
      change (gets []) with 0 in Ho. rewrite Z.add_0_r in Ho.
      rewrite Hretry in Ho. injection Ho as <- <-.
      left. split; [unfold gets; simpl; lia|].
      destruct (retry_run_head _ _ _ _ _ _ _ _ _ _ Hrun) as (tr' & ->).
      subst post. eauto.
    + injection Hsplit as _ Habs _. discriminate Habs.
    + injection Hsplit as <- <- Htr.
      rewrite gets_cons_get, gets_cons_sleep in Ho |- *.
      replace (a + (1 + gets pre)) with (a + 1 + gets pre) in Ho |- * by lia.
      exact (IH ltac:(lia) pre url' o post pause err Htr Ho).
  - destruct pre as [|e1 pre]; simpl in Hsplit.
    + injection Hsplit as _ Hnet Hpost. subst o.
      change (gets []) with 0 in Ho |- *. rewrite Z.add_0_r in Ho |- *.
      rewrite Hretry in Ho. injection Ho as <- <-.
      right. repeat split; [lia|auto].
    + injection Hsplit as _ Habs. destruct pre; discriminate Habs.
  - destruct pre as [|e1 pre]; simpl in Hsplit.
    + injection Hsplit as _ Hnet' _. subst o. exfalso.
      rewrite Hnet in Ho. unfold retryable in Ho.
      destruct (code =? 429) eqn:E1; [lia|].
      destruct (500 <=? code) eqn:E2; [lia|].
      destruct (400 <=? code) eqn:E3; [discriminate|lia].
    + injection Hsplit as _ Habs. destruct pre; discriminate Habs.
  - destruct pre as [|e1 pre]; simpl in Hsplit.
    + injection Hsplit as _ Hnet' _. subst o. exfalso.
      rewrite Hnet in Ho. unfold retryable in Ho.
      destruct (code =? 429) eqn:E1; [lia|].
      destruct (500 <=? code) eqn:E2; [lia|].
      destruct (400 <=? code) eqn:E3; discriminate.
    + injection Hsplit as _ Habs.
      destruct (uc && fullmatch_d14 c); destruct pre as [|? [|]]; discriminate Habs.
  - destruct pre as [|e1 pre]; simpl in Hsplit.
    + injection Hsplit as _ Hnet' _. subst o. exfalso.
      rewrite Hnet in Ho. unfold retryable in Ho.
      destruct (code =? 429) eqn:E1; [lia|].
      destruct (500 <=? code) eqn:E2; [lia|].
      destruct (400 <=? code) eqn:E3; discriminate.
    + injection Hsplit as _ Habs. destruct pre; discriminate Habs.
Qed.

(** Where an answer that the loop does not retry stands in its log: at
    the end, before the cache write if there is one. *)
Lemma retry_run_final net c now url uc attempts a i tr res :
  retry_run net c now url uc attempts a i tr res ->
  forall pre url' o post,
    tr = (pre ++ EvGet url' o :: post)%list ->
    retryable (a + gets pre) o = None ->
    ends_lookup post /\
    forall code hdr body,
      o = Response code hdr body -> 400 <= code ->
      post = [] /\
      res = Returned (falha c now ("Erro HTTP " ++ pretty code ++ " ao consultar CNPJá")).
Proof.
  induction 1 as [a i pause0 err0 tr res Hretry Hlt Hrun IH
                 |a i pause0 err0 Hretry Hge
                 |a i code0 hdr0 body0 Hnet Hcode Hne
                 |a i code0 hdr0 v p Hnet Hcode Hp
                 |a i code0 hdr0 v msg Hnet Hcode Hp];
    intros pre url' o post Hsplit Ho.
  - destruct pre as [|e1 [|e2 pre]]; simpl in Hsplit.
    + injection Hsplit as _ Hnet _. subst o.
      change (gets []) with 0 in Ho. rewrite Z.add_0_r in Ho. congruence.
    + injection Hsplit as _ Habs _. discriminate Habs.
    + injection Hsplit as <- <- Htr.
      rewrite gets_cons_get, gets_cons_sleep in Ho.
      replace (a + (1 + gets pre)) with (a + 1 + gets pre) in Ho by lia.
      exact (IH pre url' o post Htr Ho).
  - destruct pre as [|e1 pre]; simpl in Hsplit.
    + injection Hsplit as _ Hnet _. subst o.
      change (gets []) with 0 in Ho. rewrite Z.add_0_r in Ho. congruence.
    + injection Hsplit as _ Habs. destruct pre; discriminate Habs.
  - destruct pre as [|e1 pre]; simpl in Hsplit.
    + injection Hsplit as _ Hnet' <-. subst o. split; [constructor|].
      intros code hdr body E _. rewrite Hnet in E. injection E as -> _ _. auto.
    + injection Hsplit as _ Habs. destruct pre; discriminate Habs.
  - destruct pre as [|e1 pre]; simpl in Hsplit.
    + injection Hsplit as _ Hnet' <-. subst o. split.
      * destruct (uc && fullmatch_d14 c); repeat constructor.
      * intros code hdr body E Hc. rewrite Hnet in E. injection E as -> _ _. lia.
    + injection Hsplit as _ Habs.
      destruct (uc && fullmatch_d14 c); destruct pre as [|? [|]]; discriminate Habs.
  - destruct pre as [|e1 pre]; simpl in Hsplit.
    + injection Hsplit as _ Hnet' <-. subst o. split; [constructor|].
      intros code hdr body E Hc. rewrite Hnet in E. injection E as -> _ _. lia.
    + injection Hsplit as _ Habs. destruct pre; discriminate Habs.
Qed.

(** A lookup whose log holds an event ran the retry loop from attempt 1,
    and the log is the loop's. *)
Lemma lookup_log_is_a_retry_run cnpj_in uc ttl max_retries w tr :
  w_trace (snd (consultar_optante cnpj_in uc ttl max_retries w)) =
    (w_trace w ++ tr)%list ->
  tr = [] \/
  retry_run (w_net w) (_clean_cnpj cnpj_in) (Py.strftime (Qfloor (w_clock w)))
    (OPEN_CNPJA_BASE ++ "/" ++ _clean_cnpj cnpj_in) uc (Z.max 1 max_retries) 1
    (w_calls w) tr (fst (consultar_optante cnpj_in uc ttl max_retries w)).
Proof.
  destruct (consultar_optante cnpj_in uc ttl max_retries w)
    as [res w'] eqn:Hrun.
  cbn [fst snd]. intros Htrace.
  destruct (consultar_optante_sound _ _ _ _ _ _ _ Hrun)
    as (tr0 & Htr & _ & Hcases).
  rewrite Htr in Htrace. apply app_inv_head in Htrace. subst tr0.
  destruct Hcases as [(_ & -> & _)|[(_ & _ & -> & _)|(_ & Hloop)]]; auto.
  right. rewrite <- maxZ_max. exact Hloop.
Qed.



(** X10. In the log of a lookup, a response 5xx to attempt [n] is followed
    by a sleep of [min(20, 2 ** n)] seconds and by the next request to the
    same URL; unless it answers the last allowed attempt, in which case
    nothing follows and the lookup returns the server-error record. *)
Theorem server_error_backs_off
    (cnpj_in : string) (use_cache : bool) (ttl max_retries : Z) (w : World)
    (pre post : list Event) (url : string) (code : Z) (hdr : option string)
    (body : Body) :
  w_trace (snd (consultar_optante cnpj_in use_cache ttl max_retries w)) =
    (w_trace w ++ pre ++ EvGet url (Response code hdr body) :: post)%list ->
  500 <= code ->
  let attempt := 1 + gets pre in
  let attempts := Z.max 1 max_retries in
  (attempt < attempts /\
   exists answer post',
     post = EvSleep (inject_Z (Z.min 20 (2 ^ attempt)))
            :: EvGet url answer :: post') \/
  (attempt = attempts /\ post = [] /\
   fst (consultar_optante cnpj_in use_cache ttl max_retries w) =
     Returned (falha (_clean_cnpj cnpj_in) (Py.strftime (Qfloor (w_clock w)))
                 ("Erro HTTP " ++ pretty code ++ " (servidor) ao consultar CNPJá"))).
Proof.
  intros Htrace Hcode attempt attempts.
  destruct (lookup_log_is_a_retry_run _ _ _ _ _ _ Htrace) as [Hnil|Hloop];
    [destruct pre; discriminate Hnil|].
  assert (Hre : retryable attempt (Response code hdr body) =
                Some (inject_Z (Z.min 20 (2 ^ attempt)),
                      "Erro HTTP " ++ pretty code ++ " (servidor) ao consultar CNPJá")).
  { unfold retryable. destruct (code =? 429) eqn:E1; [lia|].
    destruct (500 <=? code) eqn:E2; [|lia]. rewrite minZ_min. reflexivity. }
  exact (retry_run_retried _ _ _ _ _ _ _ _ _ _ Hloop ltac:(lia)
           pre url _ post _ _ eq_refl Hre).
Qed.

Lemma server_error_backs_off_witness :
  w_trace (snd (consultar_optante "22.222.222/0001-22" true 86400 3
                  (Sample.world SampleRetry.unavailable_once ∅))) =
    (w_trace (Sample.world SampleRetry.unavailable_once ∅) ++ [] ++
     EvGet SampleJobs.url (Response 503 None (BadJson "")) ::
     [EvSleep (2 # 1);
      EvGet SampleJobs.url (Response 200 None (Json Sample.acme));
      EvCacheSet "22222222000122"])%list /\
  500 <= 503 /\
  ((1 + gets [] < Z.max 1 3 /\
    exists answer post',
      [EvSleep (2 # 1);
       EvGet SampleJobs.url (Response 200 None (Json Sample.acme));
       EvCacheSet "22222222000122"] =
      EvSleep (inject_Z (Z.min 20 (2 ^ (1 + gets []))))
      :: EvGet SampleJobs.url answer :: post') \/
   (1 + gets [] = Z.max 1 3 /\
    [EvSleep (2 # 1);
     EvGet SampleJobs.url (Response 200 None (Json Sample.acme));
     EvCacheSet "22222222000122"] = [] /\
    fst (consultar_optante "22.222.222/0001-22" true 86400 3
           (Sample.world SampleRetry.unavailable_once ∅)) =
    Returned (falha (_clean_cnpj "22.222.222/0001-22")
                (Py.strftime
                   (Qfloor (w_clock (Sample.world SampleRetry.unavailable_once ∅))))
                ("Erro HTTP " ++ pretty 503 ++ " (servidor) ao consultar CNPJá")))).
Proof.
  assert (H : w_trace (snd (consultar_optante "22.222.222/0001-22" true 86400 3
                              (Sample.world SampleRetry.unavailable_once ∅))) =
              (w_trace (Sample.world SampleRetry.unavailable_once ∅) ++ [] ++
               EvGet SampleJobs.url (Response 503 None (BadJson "")) ::
               [EvSleep (2 # 1);
                EvGet SampleJobs.url (Response 200 None (Json Sample.acme));
                EvCacheSet "22222222000122"])%list)
    by (vm_compute; reflexivity).
  assert (H5 : 500 <= 503) by lia.
  split; [exact H|]. split; [exact H5|].
  exact (server_error_backs_off "22.222.222/0001-22" true 86400 3
           (Sample.world SampleRetry.unavailable_once ∅) [] _ SampleJobs.url
           503 None (BadJson "") H H5).
Defined.

(** X11. A request that fails in the network (or whose answer below 400
    is not JSON, which [requests] raises as [JSONDecodeError]) at attempt
    [n] is followed by a sleep of [min(15, 2 ** n)] seconds and by the next
    request; unless it was the last allowed attempt, in which case nothing
    follows and the lookup returns the network-error record, made of the
    exception's class and message. *)
Theorem network_failure_backs_off
    (cnpj_in : string) (use_cache : bool) (ttl max_retries : Z) (w : World)
    (pre post : list Event) (url : string) (answer : HttpOutcome)
    (cls msg : string) :
  w_trace (snd (consultar_optante cnpj_in use_cache ttl max_retries w)) =
    (w_trace w ++ pre ++ EvGet url answer :: post)%list ->
  answer = NetFail cls msg \/
  (exists code hdr, answer = Response code hdr (BadJson msg) /\ code < 400 /\
                    cls = "JSONDecodeError") ->
  let attempt := 1 + gets pre in
  let attempts := Z.max 1 max_retries in
  (attempt < attempts /\
   exists next post',
     post = EvSleep (inject_Z (Z.min 15 (2 ^ attempt)))
            :: EvGet url next :: post') \/
  (attempt = attempts /\ post = [] /\
   fst (consultar_optante cnpj_in use_cache ttl max_retries w) =
     Returned (falha (_clean_cnpj cnpj_in) (Py.strftime (Qfloor (w_clock w)))
                 ("Erro de rede: " ++ cls ++ ": " ++ msg))).
Proof.
  intros Htrace Hanswer attempt attempts.
  destruct (lookup_log_is_a_retry_run _ _ _ _ _ _ Htrace) as [Hnil|Hloop];
    [destruct pre; discriminate Hnil|].
  assert (Hre : retryable attempt answer =
                Some (inject_Z (Z.min 15 (2 ^ attempt)),
                      "Erro de rede: " ++ cls ++ ": " ++ msg)).
  { destruct Hanswer as [->|(code & hdr & -> & Hcode & ->)]; unfold retryable.
    - rewrite minZ_min. reflexivity.
    - destruct (code =? 429) eqn:E1; [lia|].
      destruct (500 <=? code) eqn:E2; [lia|].
      destruct (400 <=? code) eqn:E3; [lia|]. rewrite minZ_min. reflexivity. }
  exact (retry_run_retried _ _ _ _ _ _ _ _ _ _ Hloop ltac:(lia)
           pre url _ post _ _ eq_refl Hre).
Qed.

Lemma network_failure_backs_off_witness :
  w_trace (snd (consultar_optante "22.222.222/0001-22" true 86400 1
                  (Sample.world SampleRetry.timeout_once ∅))) =
    (w_trace (Sample.world SampleRetry.timeout_once ∅) ++ [] ++
     EvGet SampleJobs.url (NetFail "ReadTimeout" "timed out") :: [])%list /\
  (NetFail "ReadTimeout" "timed out" = NetFail "ReadTimeout" "timed out" \/
   (exists code hdr,
      NetFail "ReadTimeout" "timed out" = Response code hdr (BadJson "timed out") /\
      code < 400 /\ "ReadTimeout" = "JSONDecodeError")) /\
  ((1 + gets [] < Z.max 1 1 /\
    exists next post',
      [] = EvSleep (inject_Z (Z.min 15 (2 ^ (1 + gets []))))
           :: EvGet SampleJobs.url next :: post') \/
   (1 + gets [] = Z.max 1 1 /\ @nil Event = [] /\
    fst (consultar_optante "22.222.222/0001-22" true 86400 1
           (Sample.world SampleRetry.timeout_once ∅)) =
    Returned (falha (_clean_cnpj "22.222.222/0001-22")
                (Py.strftime
                   (Qfloor (w_clock (Sample.world SampleRetry.timeout_once ∅))))
                ("Erro de rede: " ++ "ReadTimeout" ++ ": " ++ "timed out")))).
Proof.
  assert (H : w_trace (snd (consultar_optante "22.222.222/0001-22" true 86400 1
                              (Sample.world SampleRetry.timeout_once ∅))) =
              (w_trace (Sample.world SampleRetry.timeout_once ∅) ++ [] ++
               EvGet SampleJobs.url (NetFail "ReadTimeout" "timed out") :: [])%list)
    by (vm_compute; reflexivity).
  assert (Ha : NetFail "ReadTimeout" "timed out" = NetFail "ReadTimeout" "timed out" \/
               (exists code hdr,
                  NetFail "ReadTimeout" "timed out" =
                  Response code hdr (BadJson "timed out") /\
                  code < 400 /\ "ReadTimeout" = "JSONDecodeError"))
    by (left; reflexivity).
  split; [exact H|]. split; [exact Ha|].
  exact (network_failure_backs_off "22.222.222/0001-22" true 86400 1
           (Sample.world SampleRetry.timeout_once ∅) [] [] SampleJobs.url
           (NetFail "ReadTimeout" "timed out") "ReadTimeout" "timed out" H Ha).
Defined.

(** X12. A response 4xx other than 429 is never retried: it is the last
    event of the lookup's log, and the lookup returns the HTTP-error
    record. *)
Theorem client_error_is_not_retried
    (cnpj_in : string) (use_cache : bool) (ttl max_retries : Z) (w : World)
    (pre post : list Event) (url : string) (code : Z) (hdr : option string)
    (body : Body) :
  w_trace (snd (consultar_optante cnpj_in use_cache ttl max_retries w)) =
    (w_trace w ++ pre ++ EvGet url (Response code hdr body) :: post)%list ->
  400 <= code < 500 ->
  code <> 429 ->
  post = [] /\
  fst (consultar_optante cnpj_in use_cache ttl max_retries w) =
    Returned (falha (_clean_cnpj cnpj_in) (Py.strftime (Qfloor (w_clock w)))
                ("Erro HTTP " ++ pretty code ++ " ao consultar CNPJá")).
Proof.
  intros Htrace Hcode Hne.
  destruct (lookup_log_is_a_retry_run _ _ _ _ _ _ Htrace) as [Hnil|Hloop];
    [destruct pre; discriminate Hnil|].
  assert (Hre : retryable (1 + gets pre) (Response code hdr body) = None).
  { unfold retryable. destruct (code =? 429) eqn:E1; [lia|].
    destruct (500 <=? code) eqn:E2; [lia|].
    destruct (400 <=? code) eqn:E3; [reflexivity|lia]. }
  destruct (retry_run_final _ _ _ _ _ _ _ _ _ _ Hloop pre url _ post eq_refl Hre)
    as (_ & Hfinal).
  exact (Hfinal code hdr body eq_refl ltac:(lia)).
Qed.

Lemma client_error_is_not_retried_witness :
  w_trace (snd (consultar_optante "22.222.222/0001-22" true 86400 3
                  (Sample.world SampleRetry.not_found ∅))) =
    (w_trace (Sample.world SampleRetry.not_found ∅) ++ [] ++
     EvGet SampleJobs.url (Response 404 None (BadJson "")) :: [])%list /\
  400 <= 404 < 500 /\
  404 <> 429 /\
  @nil Event = [] /\
  fst (consultar_optante "22.222.222/0001-22" true 86400 3
         (Sample.world SampleRetry.not_found ∅)) =
    Returned (falha (_clean_cnpj "22.222.222/0001-22")
                (Py.strftime (Qfloor (w_clock (Sample.world SampleRetry.not_found ∅))))
                ("Erro HTTP " ++ pretty 404 ++ " ao consultar CNPJá")).
Proof.
  assert (H : w_trace (snd (consultar_optante "22.222.222/0001-22" true 86400 3
                              (Sample.world SampleRetry.not_found ∅))) =
              (w_trace (Sample.world SampleRetry.not_found ∅) ++ [] ++
               EvGet SampleJobs.url (Response 404 None (BadJson "")) :: [])%list)
    by (vm_compute; reflexivity).
  assert (H4 : 400 <= 404 < 500) by lia.
  assert (Hn : 404 <> 429) by lia.
  split; [exact H|]. split; [exact H4|]. split; [exact Hn|].
  exact (client_error_is_not_retried "22.222.222/0001-22" true 86400 3
           (Sample.world SampleRetry.not_found ∅) [] [] SampleJobs.url
           404 None (BadJson "") H H4 Hn).
Defined.

(** X13. The fallback after the retry loop is never reached: no lookup
    returns the record with the text "Falha desconhecida". *)
Theorem fallback_is_unreachable
    (cnpj_in : string) (use_cache : bool) (ttl max_retries : Z) (w : World)
    (r : Resultado) :
  fst (consultar_optante cnpj_in use_cache ttl max_retries w) = Returned r ->
  erro r <> "Falha desconhecida" /\
  (erro r = "" \/
   razao_social r = "" /\ simples_nacional r = "" /\ simei r = "").
Proof.
  destruct (consultar_optante cnpj_in use_cache ttl max_retries w)
    as [res w'] eqn:Hrun.
  cbn [fst]. intros ->.
  assert (Hretry : forall a o pause err,
            retryable a o = Some (pause, err) -> err <> "Falha desconhecida").
  { intros a o pause err. unfold retryable.
    destruct o as [cls msg|code hdr body].
    - intros [= _ <-]. discriminate.
    - destruct (code =? 429); [intros [= _ <-]; discriminate|].
      destruct (500 <=? code); [intros [= _ <-]; discriminate|].
      destruct (400 <=? code); [discriminate|].
      destruct body; [intros [= _ <-]; discriminate|discriminate]. }
  destruct (consultar_optante_sound _ _ _ _ _ _ _ Hrun)
    as (tr & _ & _ & [(_ & _ & E)|[(_ & _ & _ & row & _ & E)|(_ & Hloop)]]).
  - injection E as ->. split; [discriminate|]. right. auto.
  - injection E as ->. split; [discriminate|]. left. reflexivity.
  - clear Hrun. remember (Returned r) as res eqn:Hres.
    induction Hloop as [a i pause err tr res Hre Hlt Hrun' IH
                       |a i pause err Hre Hge
                       |a i code hdr0 body0 Hnet Hcode Hne
                       |a i code hdr0 v p Hnet Hcode Hp
                       |a i code hdr0 v msg Hnet Hcode Hp].
    + exact (IH Hres).
    + injection Hres as <-. split; [exact (Hretry _ _ _ _ Hre)|]. right. auto.
    + injection Hres as <-. split; [discriminate|]. right. auto.
    + injection Hres as <-.
      destruct (montar_payload_fields _ _ _ _ Hp) as (_ & _ & He & _).
      rewrite He. split; [discriminate|]. left. reflexivity.
    + discriminate Hres.
Qed.

Lemma fallback_is_unreachable_witness :
  fst (consultar_optante "22.222.222/0001-22" true 86400 3
         (Sample.world SampleRetry.not_found ∅)) =
    Returned (falha "22222222000122" "2026-11-03 14:01:00"
                "Erro HTTP 404 ao consultar CNPJá") /\
  erro (falha "22222222000122" "2026-11-03 14:01:00"
          "Erro HTTP 404 ao consultar CNPJá") <> "Falha desconhecida" /\
  (erro (falha "22222222000122" "2026-11-03 14:01:00"
           "Erro HTTP 404 ao consultar CNPJá") = "" \/
   razao_social (falha "22222222000122" "2026-11-03 14:01:00"
                   "Erro HTTP 404 ao consultar CNPJá") = "" /\
   simples_nacional (falha "22222222000122" "2026-11-03 14:01:00"
                       "Erro HTTP 404 ao consultar CNPJá") = "" /\
   simei (falha "22222222000122" "2026-11-03 14:01:00"
            "Erro HTTP 404 ao consultar CNPJá") = "").
Proof.
  assert (H : fst (consultar_optante "22.222.222/0001-22" true 86400 3
                     (Sample.world SampleRetry.not_found ∅)) =
              Returned (falha "22222222000122" "2026-11-03 14:01:00"
                          "Erro HTTP 404 ao consultar CNPJá"))
    by (vm_compute; reflexivity).
  split; [exact H|].
  exact (fallback_is_unreachable "22.222.222/0001-22" true 86400 3
           (Sample.world SampleRetry.not_found ∅) _ H).
Defined.

(** ** The batch runner, by its rows and its requests *)

Lemma tick_frame cb done total w : same_store w (snd (_tick cb done total w)).
Proof.
  destruct cb as [f|]; unfold _tick, bind, emit, on_app; simpl.
  - destruct (f done total (w_app w)). repeat split.
  - repeat split.
Qed.

Lemma poll_frame sc w : same_store w (snd (cancel_requested sc w)).
Proof.
  destruct sc as [f|]; unfold cancel_requested, bind, emit, on_app; simpl.
  - destruct (f (w_app w)). repeat split.
  - repeat split.
Qed.

Lemma loop_run_items hc hs delay total cnpjs done tr rs ending :
  loop_run hc hs delay total cnpjs done tr rs ending ->
  Forall2 (fun c r => cnpj r = _clean_cnpj c) (take (length rs) cnpjs) rs /\
  (ending = Exhausted -> length rs = length cnpjs) /\
  (ending = Broken -> hs = true).
Proof.
  induction 1 as [done|c rest done Hsc|c rest done lg e Hlog
                 |c rest done lg r tr rs ending Hlog Hc Hrun IH].
  - repeat split; [constructor|discriminate].
  - repeat split; [constructor|discriminate|auto].
  - repeat split; [constructor|discriminate|discriminate].
  - destruct IH as (Hitems & Hex & Hbr). cbn [length take].
    split; [constructor; assumption|]. split; [|exact Hbr].
    intros E. rewrite (Hex E). reflexivity.
Qed.

(** The loop over the invalid rows makes one record per row, stamped with
    the time at which the loop runs; it makes no request and no pause. *)
Lemma lote_invalidos_rows cb total rows : forall acc done w,
  exists w',
    lote_invalidos cb total rows acc done w =
      (Returned
         (acc ++ map (linha_invalida (Py.strftime (Qfloor (w_clock w)))) rows)%list,
       w') /\
    same_store w w'.
Proof.
  induction rows as [|row rest IH]; intros acc done w.
  - exists w. simpl. rewrite app_nil_r. repeat split.
  - cbn [lote_invalidos]. unfold bind at 1. unfold datetime_now at 1.
    unfold bind at 1.
    destruct (tick_run cb (done + 1) total w) as (w1 & Htick & _ & _).
    pose proof (tick_frame cb (done + 1) total w) as (Hclock & Hcalls & Hcache).
    rewrite Htick in Hclock, Hcalls, Hcache |- *. cbn [snd] in Hclock, Hcalls, Hcache.
    match goal with
    | |- context [lote_invalidos cb total rest ?acc' (done + 1) w1] =>
        destruct (IH acc' (done + 1) w1) as (w' & Hrows & Hc1 & Hc2 & Hc3)
    end.
    exists w'. split.
    + rewrite Hrows, Hclock, <- app_assoc. reflexivity.
    + unfold same_store. rewrite Hc1, Hc2, Hc3. auto.
Qed.

(** The loop over the valid identifiers makes at most three requests for
    each of them. *)
Lemma lote_validos_calls cb sc secs total cnpjs : forall acc done w res w',
  lote_validos cb sc secs total cnpjs acc done w = (res, w') ->
  (w_calls w <= w_calls w' <= w_calls w + 3 * length cnpjs)%nat.
Proof.
  induction cnpjs as [|c rest IH]; intros acc done w res w' Hrun.
  - injection Hrun as <- <-. simpl. lia.
  - cbn [lote_validos] in Hrun. unfold bind at 1 in Hrun.
    destruct (poll_run sc w) as (w1 & Hpoll & _ & _).
    pose proof (poll_frame sc w) as (_ & Hf1 & _).
    rewrite Hpoll in Hrun, Hf1. cbn [snd] in Hf1.
    destruct (poll_answer sc (w_app w)).
    + injection Hrun as <- <-. cbn [length]. lia.
    + unfold bind at 1 in Hrun. unfold default_cache_ttl at 1 in Hrun.
      unfold bind at 1 in Hrun.
      destruct (consultar_optante c true (w_ttl w1) 3 w1) as [[r|e] w2] eqn:Hlook;
        pose proof (proj1 (consultar_optante_store _ _ _ _ _ _ _ Hlook)) as Hc2;
        change (Z.to_nat (Z.max 1 3)) with 3%nat in Hc2.
      2:{ injection Hrun as <- <-. cbn [length]. lia. }
      unfold bind at 1 in Hrun. unfold emit at 1 in Hrun.
      unfold pop_cached in Hrun. unfold bind at 1 in Hrun.
      destruct (tick_run cb (done + 1) total (log (EvResult r) w2))
        as (w4 & Htick & _ & _).
      pose proof (tick_frame cb (done + 1) total (log (EvResult r) w2))
        as (_ & Hf4 & _).
      rewrite Htick in Hrun, Hf4. cbn [snd] in Hf4. simpl in Hf4.
      unfold bind at 1 in Hrun.
      destruct (_cached r); simpl in Hrun; apply IH in Hrun; simpl in Hrun;
        cbn [length]; lia.
Qed.

(** The whole run, by its rows and its requests. *)
Lemma consultar_optante_lote_rows df secs cb sc w res w' :
  consultar_optante_lote df secs cb sc w = (res, w') ->
  (w_calls w <= w_calls w' <= w_calls w + 3 * length (cnpjs_of df))%nat /\
  forall rows, res = Returned rows ->
    exists rs extra,
      rows = (rows_of rs ++ extra)%list /\
      Forall2 (fun c r => cnpj r = _clean_cnpj c)
        (take (length rs) (cnpjs_of df)) rs /\
      (extra = [] \/
       extra = map (linha_invalida (Py.strftime (Qfloor (w_clock w'))))
                 (invalid_rows df)) /\
      (sc = None ->
       length rs = length (cnpjs_of df) /\
       extra = map (linha_invalida (Py.strftime (Qfloor (w_clock w'))))
                 (invalid_rows df)).
Proof.
  intros Hrun. unfold consultar_optante_lote in Hrun.
  unfold bind at 1 in Hrun.
  destruct (tick_run cb 0 (total_of df) w) as (w0 & Htick & _ & _).
  pose proof (tick_frame cb 0 (total_of df) w) as (_ & Hc0 & _).
  rewrite Htick in Hc0. cbn [snd] in Hc0.
  rewrite Htick, try_finally_close in Hrun. unfold bind at 1 in Hrun.
  destruct (lote_validos cb sc (Py.maxQ PUBLIC_API_MIN_DELAY secs) (total_of df)
              (cnpjs_of df) [] 0 w0) as [res1 w1] eqn:Hloop.
  pose proof (lote_validos_calls _ _ _ _ _ _ _ _ _ _ Hloop) as Hc1.
  destruct (lote_validos_sound _ _ _ _ _ _ _ _ _ _ Hloop)
    as (tr & rs & ending & _ & Hrel & Hres1 & _ & _).
  destruct (loop_run_items _ _ _ _ _ _ _ _ _ Hrel) as (Hitems & Hex & Hbr).
  destruct res1 as [[acc done]|e].
  2:{ injection Hrun as <- <-. split; [lia|]. intros rows Habs. discriminate Habs. }
  assert (Hfull : sc = None -> length rs = length (cnpjs_of df)).
  { intros Hsc. destruct ending as [| |e]; [exact (Hex eq_refl)| |].
    - specialize (Hbr eq_refl). rewrite Hsc in Hbr. discriminate Hbr.
    - discriminate Hres1. }
  assert (Hacc : acc = rows_of rs).
  { destruct ending; try discriminate Hres1; injection Hres1 as -> _; reflexivity. }
  subst acc. unfold bind at 1 in Hrun.
  destruct (poll_run sc w1) as (w2 & Hpoll & _ & _).
  pose proof (poll_frame sc w1) as (_ & Hc2 & _).
  rewrite Hpoll in Hrun, Hc2. cbn [snd] in Hc2.
  destruct (poll_answer sc (w_app w1)) eqn:Hb.
  - unfold ret in Hrun. injection Hrun as <- <-. split; [lia|].
    intros rows [= <-]. exists rs, []. rewrite app_nil_r.
    split; [reflexivity|]. split; [exact Hitems|]. split; [left; reflexivity|].
    intros ->. discriminate Hb.
  - unfold invalid_rows. destruct (invalidos_of df) as [inv|].
    + destruct (lote_invalidos_rows cb (total_of df) inv (rows_of rs) done w2)
        as (w3 & Hinv & Hclock & Hc3 & _).
      rewrite Hinv in Hrun. injection Hrun as <- <-. split; [lia|].
      intros rows [= <-]. rewrite Hclock. eexists rs, _.
      split; [reflexivity|]. split; [exact Hitems|]. split; [right; reflexivity|].
      intros Hsc. split; [exact (Hfull Hsc)|reflexivity].
    + unfold ret in Hrun. injection Hrun as <- <-. split; [lia|].
      intros rows [= <-]. exists rs, []. rewrite app_nil_r.
      split; [reflexivity|]. split; [exact Hitems|]. split; [left; reflexivity|].
      intros Hsc. split; [exact (Hfull Hsc)|reflexivity].
Qed.

Lemma rows_of_length rs : length (rows_of rs) = length rs.
Proof. apply length_map. Qed.

(** X14. The rows that the runner returns are, in order, the records of
    the lookups of the first identifiers, each for its cleaned identifier,
    followed by nothing or by one record per invalid row, which carries
    [str(cnpj) or str(cnpj_input)], the error text and the time of the
    run's end.  Without a [should_cancel] every identifier and every
    invalid row has its record: there are [total] rows. *)
Theorem batch_rows_follow_the_input
    (df_validos : option DataFrame) (sleep_seconds : Q)
    (cb : option ProgressCb) (sc : option CancelCb) (w : World)
    (rows : list Linha) :
  let run := consultar_optante_lote df_validos sleep_seconds cb sc w in
  let now := Py.strftime (Qfloor (w_clock (snd run))) in
  fst run = Returned rows ->
  exists rs extra,
    rows = (rows_of rs ++ extra)%list /\
    Forall2 (fun c r => cnpj r = _clean_cnpj c)
      (take (length rs) (cnpjs_of df_validos)) rs /\
    (extra = [] \/ extra = map (linha_invalida now) (invalid_rows df_validos)) /\
    (sc = None ->
     length rs = length (cnpjs_of df_validos) /\
     extra = map (linha_invalida now) (invalid_rows df_validos) /\
     Z.of_nat (length rows) = total_of df_validos).
Proof.
  cbv zeta.
  destruct (consultar_optante_lote df_validos sleep_seconds cb sc w)
    as [res w'] eqn:Hrun.
  cbn [fst snd]. intros ->.
  destruct (proj2 (consultar_optante_lote_rows _ _ _ _ _ _ _ Hrun) rows eq_refl)
    as (rs & extra & Hrows & Hitems & Hextra & Hnone).
  exists rs, extra. split; [exact Hrows|]. split; [exact Hitems|].
  split; [exact Hextra|]. intros Hsc. destruct (Hnone Hsc) as (Hlen & Hex).
  split; [exact Hlen|]. split; [exact Hex|].
  rewrite Hrows, length_app, rows_of_length, Hlen, Hex, length_map.
  unfold total_of, invalid_rows. destruct (invalidos_of df_validos); simpl; lia.
Qed.

Lemma batch_rows_follow_the_input_witness :
  exists rows,
    fst (consultar_optante_lote (Some SampleJobs.three_items) (25 # 2)
           None None SampleJobs.world) = Returned rows /\
    exists rs extra,
      rows = (rows_of rs ++ extra)%list /\
      Forall2 (fun c r => cnpj r = _clean_cnpj c)
        (take (length rs) (cnpjs_of (Some SampleJobs.three_items))) rs /\
      (extra = [] \/
       extra = map (linha_invalida
                      (Py.strftime
                         (Qfloor
                            (w_clock
                               (snd (consultar_optante_lote
                                       (Some SampleJobs.three_items) (25 # 2)
                                       None None SampleJobs.world))))))
                 (invalid_rows (Some SampleJobs.three_items))) /\
      (@None CancelCb = None ->
       length rs = length (cnpjs_of (Some SampleJobs.three_items)) /\
       extra = map (linha_invalida
                      (Py.strftime
                         (Qfloor
                            (w_clock
                               (snd (consultar_optante_lote
                                       (Some SampleJobs.three_items) (25 # 2)
                                       None None SampleJobs.world))))))
                 (invalid_rows (Some SampleJobs.three_items)) /\
       Z.of_nat (length rows) = total_of (Some SampleJobs.three_items)).
Proof.
  eexists. split; [vm_compute; reflexivity|].
  apply (batch_rows_follow_the_input (Some SampleJobs.three_items) (25 # 2)
           None None SampleJobs.world).
  vm_compute. reflexivity.
Defined.

(** X15. A run of the batch makes at most three requests for each valid
    identifier, whatever the answers; in particular a batch without valid
    identifiers makes none. *)
Theorem batch_request_bound
    (df_validos : option DataFrame) (sleep_seconds : Q)
    (cb : option ProgressCb) (sc : option CancelCb) (w : World) :
  let w' := snd (consultar_optante_lote df_validos sleep_seconds cb sc w) in
  (w_calls w <= w_calls w' <= w_calls w + 3 * length (cnpjs_of df_validos))%nat.
Proof.
  cbv zeta.
  destruct (consultar_optante_lote df_validos sleep_seconds cb sc w)
    as [res w'] eqn:Hrun.
  exact (proj1 (consultar_optante_lote_rows _ _ _ _ _ _ _ Hrun)).
Qed.

(** ** Uploads and jobs *)

Lemma maxQ_lower (a b : Q) : (a <= Py.maxQ a b)%Q.
Proof.
  unfold Py.maxQ, Py.Qltb. destruct (Qle_bool b a) eqn:E; simpl.
  - apply Qle_refl.
  - destruct (Qlt_le_dec a b) as [Hlt|Hle]; [apply Qlt_le_weak; exact Hlt|].
    apply Qle_bool_iff in Hle. congruence.
Qed.

Lemma maxQ_idem (a b : Q) : Py.maxQ a (Py.maxQ a b) = Py.maxQ a b.
Proof.
  unfold Py.maxQ. destruct (Py.Qltb a b) eqn:E.
  - rewrite E. reflexivity.
  - destruct (Py.Qltb a a); reflexivity.
Qed.

(** X16. [POST /lotes] either registers exactly one job, queued, not
    done, without file or error, whose total is the number of valid
    identifiers plus the number of invalid rows (at least one), under the
    fresh id and with every other job untouched, and schedules the worker
    with the delay [max(12.5, sleep_seconds)], for which the runner uses
    the same pause as for [sleep_seconds]; or it raises an HTTP error 400
    or 500 and changes nothing. *)
Theorem upload_registers_one_job_or_nothing
    (df : DataFrame) (output : string) (sleep_seconds : Q) (job_id : string)
    (w : World) :
  match criar_lote df output sleep_seconds job_id w with
  | (Returned (id, delay), w') =>
      id = job_id /\
      delay = Py.maxQ (25 # 2) sleep_seconds /\ (25 # 2 <= delay)%Q /\
      clamped_delay delay = clamped_delay sleep_seconds /\
      (Py.strip (Py.lower output) = "csv" \/ Py.strip (Py.lower output) = "xlsx") /\
      0 < total_of (Some df) /\
      jobs (w_app w') !! job_id =
        Some (novo_job (Py.strip (Py.lower output)) (total_of (Some df))) /\
      (forall other, other <> job_id ->
         jobs (w_app w') !! other = jobs (w_app w) !! other) /\
      same_store w w' /\ w_trace w' = w_trace w
  | (Raised e, w') =>
      w' = w /\
      exists code detail, e = HTTPException code detail /\ (code = 400 \/ code = 500)
  end.
Proof.
  unfold criar_lote.
  set (out := Py.strip (Py.lower output)).
  assert (Hout : Py.mem out ["csv"; "xlsx"] = true -> out = "csv" \/ out = "xlsx").
  { unfold Py.mem. simpl.
    destruct (String.eqb_spec out "csv") as [->|_]; [auto|].
    destruct (String.eqb_spec out "xlsx") as [->|_]; [auto|]. 
    try discriminate. }
  destruct (Py.mem out ["csv"; "xlsx"]) eqn:Hmem; simpl.
  2:{ unfold raise. split; [reflexivity|]. eauto. }
  unfold total_of, cnpjs_of, invalidos_of.
  destruct (col_cnpj df) as [cells|].
  2:{ unfold raise. split; [reflexivity|]. eauto. }
  destruct (omap id cells) as [|c cs] eqn:Hcells; simpl.
  - destruct (attrs_invalidos df) as [[|r rs]|]; simpl;
      try (unfold raise; split; [reflexivity|]; eauto).
    unfold bind, on_app, ret. simpl. rewrite lookup_insert_eq.
    repeat split; try apply maxQ_lower; try lia; auto.
    + unfold clamped_delay, PUBLIC_API_MIN_DELAY. rewrite maxQ_idem. reflexivity.
    + intros other Hne. apply lookup_insert_ne. congruence.
  - unfold bind, on_app, ret. simpl. rewrite lookup_insert_eq.
    repeat split; try apply maxQ_lower; auto.
    + unfold clamped_delay, PUBLIC_API_MIN_DELAY. rewrite maxQ_idem. reflexivity.
    + destruct (attrs_invalidos df); lia.
    + intros other Hne. apply lookup_insert_ne. congruence.
Qed.

Lemma job_kept_cancelar job_id job0 id' app :
  job_kept job_id job0 app -> job_kept job_id job0 (snd (cancelar id' app)).
Proof.
  intros (job & Hjob & Hd & Hf & Hn & He). unfold cancelar.
  destruct (jobs app !! id') as [job'|] eqn:Hjob'; [|exists job; auto].
  destruct (j_done job') eqn:Hdone; [exists job; auto|].
  unfold job_kept. simpl.
  destruct (decide (id' = job_id)) as [->|Hne].
  - rewrite lookup_insert_eq. rewrite Hjob in Hjob'. injection Hjob' as <-.
    eexists. split; [reflexivity|].
    destruct (j_status job); simpl; auto.
  - rewrite lookup_insert_ne by exact Hne. exists job. auto.
Qed.

Lemma job_kept_serve_incoming job_id job0 app :
  job_kept job_id job0 app -> job_kept job_id job0 (serve_incoming app).
Proof.
  intros Hk. unfold serve_incoming.
  destruct (incoming app (observations app)) as [id'|]; [|exact Hk].
  exact (job_kept_cancelar job_id job0 id' app Hk).
Qed.

Lemma job_kept_progress_cb job_id job0 done total app :
  job_kept job_id job0 app ->
  job_kept job_id job0 (snd (job_progress_cb job_id done total app)).
Proof.
  intros (job & Hjob & Hrest). unfold job_progress_cb, update_job. rewrite Hjob.
  unfold job_kept. simpl. rewrite lookup_insert_eq.
  eexists. split; [reflexivity|exact Hrest].
Qed.

(** The worker's callbacks write neither the file, nor the error, nor the
    end of the job. *)
Lemma job_kept_kept job_id job0 :
  kept_by (Some (job_progress_cb job_id)) (Some (job_should_cancel job_id))
    (job_kept job_id job0).
Proof.
  split.
  - intros d t a. apply job_kept_progress_cb.
  - intros a. apply job_kept_serve_incoming.
Qed.

(** The handler of the worker ends the job in [Error]. *)
Lemma falhar_run job_id e job0 w :
  job_kept job_id job0 (w_app w) ->
  exists job w',
    falhar job_id e w = (Returned tt, w') /\
    jobs (w_app w') !! job_id = Some job /\
    j_status job = Error /\ j_done job = true /\
    j_error job = Some (exn_name e ++ ": " ++ exn_str e) /\
    j_file_bytes job = j_file_bytes job0 /\
    j_file_name job = j_file_name job0.
Proof.
  intros (job & Hjob & _ & Hf & Hn & _). unfold falhar.
  unfold bind at 1. erewrite job_update_run by exact Hjob.
  unfold bind at 1. erewrite job_update_run by (simpl; apply lookup_insert_eq).
  erewrite job_update_run by (simpl; apply lookup_insert_eq).
  eexists _, _. split; [reflexivity|]. simpl. rewrite lookup_insert_eq.
  split; [reflexivity|]. simpl. auto.
Qed.

(** The end of a run whose file is built: the job is done, with the
    file, and [Canceled] or [Done] by the cancel event. *)
Lemma finalizar_run job_id output rows file job0 w :
  build_output_bytes rows output = Returned file ->
  job_kept job_id job0 (w_app w) ->
  exists job w',
    finalizar job_id output rows w = (Returned tt, w') /\
    jobs (w_app w') !! job_id = Some job /\
    j_done job = true /\ j_file_bytes job = Some file /\
    j_file_name job = j_file_name job0 /\ j_error job = j_error job0 /\
    ((j_status job = Canceled /\ j_cancel_event job = true) \/
     (j_status job = Done /\ j_cancel_event job = false /\
      j_progress job = j_total job)).
Proof.
  intros Hfile Hk.
  destruct (job_kept_serve_incoming _ _ _ Hk) as (j1 & Hj1 & _ & _ & Hn & He).
  unfold finalizar. rewrite Hfile.
  unfold bind at 1. unfold lift at 1. unfold bind at 1. unfold on_app at 1.
  cbv beta iota. unfold bind at 1.
  erewrite (job_update_run _ _ _ j1) by exact Hj1.
  unfold bind at 1.
  erewrite job_update_run by (simpl; apply lookup_insert_eq).
  unfold bind at 1. unfold get_job at 1. simpl.
  rewrite lookup_insert_eq. simpl.
  destruct (j_cancel_event j1) eqn:Hev.
  - erewrite job_update_run by (simpl; apply lookup_insert_eq).
    eexists _, _. split; [reflexivity|]. simpl. rewrite lookup_insert_eq.
    split; [reflexivity|]. simpl. repeat split; auto.
  - unfold bind at 1.
    erewrite job_update_run by (simpl; apply lookup_insert_eq).
    erewrite job_update_run by (simpl; apply lookup_insert_eq).
    eexists _, _. split; [reflexivity|]. simpl. rewrite lookup_insert_eq.
    split; [reflexivity|]. simpl. repeat split; auto.
Qed.

(** X17. Once its job is in the table, the worker never raises: it ends
    with the job done and in one of three states.  [Done]: no cancel
    event, progress equal to total, and the file, which the download
    endpoint serves.  [Canceled]: the cancel event set, and the file of
    the partial result, which the download endpoint serves.  [Error]: an
    error message, and the file field as it was. *)
Theorem worker_ends_the_job
    (job_id : string) (df : DataFrame) (output : string) (sleep_seconds : Q)
    (w : World) (job0 : Job) :
  jobs (w_app w) !! job_id = Some job0 ->
  let run := processar_job job_id df output sleep_seconds w in
  fst run = Returned tt /\
  exists job,
    jobs (w_app (snd run)) !! job_id = Some job /\
    j_done job = true /\ j_file_name job = j_file_name job0 /\
    match j_status job with
    | Done =>
        j_cancel_event job = false /\ j_progress job = j_total job /\
        j_error job = j_error job0 /\
        exists file, j_file_bytes job = Some file /\
                     download job_id (w_app (snd run)) = Returned file
    | Canceled =>
        j_cancel_event job = true /\ j_error job = j_error job0 /\
        exists file, j_file_bytes job = Some file /\
                     download job_id (w_app (snd run)) = Returned file
    | Error =>
        (exists msg, j_error job = Some msg) /\
        j_file_bytes job = j_file_bytes job0
    | _ => False
    end.
Proof.
  intros Hj0. cbv zeta. unfold processar_job. rewrite except_bind.
  rewrite (job_update_run _ _ _ _ Hj0).
  set (w1 := with_app _ w).
  assert (Hk1 : job_kept job_id job0 (w_app w1)).
  { unfold job_kept. simpl. rewrite lookup_insert_eq.
    eexists. split; [reflexivity|]. simpl. auto. }
  rewrite except_bind.
  destruct (consultar_optante_lote (Some df) sleep_seconds
              (Some (job_progress_cb job_id)) (Some (job_should_cancel job_id)) w1)
    as [res w2] eqn:Hrun.
  destruct (consultar_optante_lote_sound _ _ _ _ _ _ _ Hrun)
    as (trl & rs & ending & _ & Hkeep & _).
  pose proof (Hkeep _ (job_kept_kept job_id job0) Hk1) as Hk2.
  assert (Hfail : forall e w3,
            job_kept job_id job0 (w_app w3) ->
            fst (falhar job_id e w3) = Returned tt /\
            exists job,
              jobs (w_app (snd (falhar job_id e w3))) !! job_id = Some job /\
              j_done job = true /\ j_file_name job = j_file_name job0 /\
              match j_status job with
              | Done =>
                  j_cancel_event job = false /\ j_progress job = j_total job /\
                  j_error job = j_error job0 /\
                  exists file, j_file_bytes job = Some file /\
                    download job_id (w_app (snd (falhar job_id e w3))) = Returned file
              | Canceled =>
                  j_cancel_event job = true /\ j_error job = j_error job0 /\
                  exists file, j_file_bytes job = Some file /\
                    download job_id (w_app (snd (falhar job_id e w3))) = Returned file
              | Error =>
                  (exists msg, j_error job = Some msg) /\
                  j_file_bytes job = j_file_bytes job0
              | _ => False
              end).
  { intros e w3 Hk3.
    destruct (falhar_run job_id e job0 w3 Hk3)
      as (job & w4 & Hrun4 & Hjob & Hst & Hdn & Her & Hfb & Hfn).
    rewrite Hrun4. cbn [fst snd]. split; [reflexivity|].
    exists job. rewrite Hst. repeat split; eauto. }
  destruct res as [rows|e]; [|exact (Hfail e w2 Hk2)].
  unfold except_Exception.
  destruct (build_output_bytes rows output) as [file|e] eqn:Hfile.
  - destruct (finalizar_run job_id output rows file job0 w2 Hfile Hk2)
      as (job & w3 & Hfin & Hjob & Hdn & Hfb & Hfn & Her & Hst).
    rewrite Hfin. cbn [fst snd]. split; [reflexivity|].
    exists job. split; [exact Hjob|]. split; [exact Hdn|]. split; [exact Hfn|].
    assert (Hdl : download job_id (w_app w3) = Returned file).
    { unfold download. rewrite Hjob, Hdn, Hfb. reflexivity. }
    destruct Hst as [(-> & Hev)|(-> & Hev & Hpr)]; repeat split; eauto.
  - assert (Hfin : finalizar job_id output rows w2 = (Raised e, w2)).
    { unfold finalizar, bind, lift. rewrite Hfile. reflexivity. }
    rewrite Hfin. exact (Hfail e w2 Hk2).
Qed.

Lemma worker_ends_the_job_witness :
  jobs (w_app SampleJobs.world) !! "job-1" = Some SampleJobs.queued /\
  let run := processar_job "job-1" SampleJobs.three_items "csv" (25 # 2)
               SampleJobs.world in
  fst run = Returned tt /\
  exists job,
    jobs (w_app (snd run)) !! "job-1" = Some job /\
    j_done job = true /\ j_file_name job = j_file_name SampleJobs.queued /\
    match j_status job with
    | Done =>
        j_cancel_event job = false /\ j_progress job = j_total job /\
        j_error job = j_error SampleJobs.queued /\
        exists file, j_file_bytes job = Some file /\
                     download "job-1" (w_app (snd run)) = Returned file
    | Canceled =>
        j_cancel_event job = true /\ j_error job = j_error SampleJobs.queued /\
        exists file, j_file_bytes job = Some file /\
                     download "job-1" (w_app (snd run)) = Returned file
    | Error =>
        (exists msg, j_error job = Some msg) /\
        j_file_bytes job = j_file_bytes SampleJobs.queued
    | _ => False
    end.
Proof.
  assert (H : jobs (w_app SampleJobs.world) !! "job-1" = Some SampleJobs.queued)
    by (vm_compute; reflexivity).
  split; [exact H|].
  exact (worker_ends_the_job "job-1" SampleJobs.three_items "csv" (25 # 2)
           SampleJobs.world SampleJobs.queued H).
Defined.

(** X18. Nothing is done for a job that is not in the table: the cancel
    and the download endpoints answer 404 and the worker raises
    [KeyError], each leaving the state as it was. *)
Theorem unknown_job_is_rejected
    (job_id : string) (df : DataFrame) (output : string) (sleep_seconds : Q)
    (w : World) :
  jobs (w_app w) !! job_id = None ->
  cancelar job_id (w_app w) =
    (Raised (HTTPException 404 "job não encontrado"), w_app w) /\
  download job_id (w_app w) = Raised (HTTPException 404 "job não encontrado") /\
  processar_job job_id df output sleep_seconds w = (Raised (KeyError job_id), w).
Proof.
  intros Hjob. unfold cancelar, download. rewrite Hjob.
  split; [reflexivity|]. split; [reflexivity|].
  unfold processar_job. rewrite except_bind.
  rewrite (job_update_absent _ _ _ Hjob).
  unfold falhar, bind. rewrite (job_update_absent _ _ _ Hjob). reflexivity.
Qed.

Lemma unknown_job_is_rejected_witness :
  jobs (w_app SampleJobs.world) !! "job-2" = None /\
  cancelar "job-2" (w_app SampleJobs.world) =
    (Raised (HTTPException 404 "job não encontrado"), w_app SampleJobs.world) /\
  download "job-2" (w_app SampleJobs.world) =
    Raised (HTTPException 404 "job não encontrado") /\
  processar_job "job-2" SampleJobs.three_items "csv" (25 # 2) SampleJobs.world =
    (Raised (KeyError "job-2"), SampleJobs.world).
Proof.
  assert (H : jobs (w_app SampleJobs.world) !! "job-2" = None)
    by (vm_compute; reflexivity).
  split; [exact H|].
  exact (unknown_job_is_rejected "job-2" SampleJobs.three_items "csv" (25 # 2)
           SampleJobs.world H).
Defined.

(** X19. A cancel request for a job that is not done answers
    ["canceling"] and sets the job's cancel event; the status becomes
    [Canceling] when it was [Queued] or [Running] and stays as it was
    otherwise; no other field and no other job changes; and the request,
    repeated, changes nothing more. *)
Theorem cancel_request_sets_the_event
    (job_id : string) (app : App) (job : Job) :
  jobs app !! job_id = Some job ->
  j_done job = false ->
  let app' := snd (cancelar job_id app) in
  fst (cancelar job_id app) = Returned Canceling /\
  jobs app' !! job_id =
    Some (set_status (canceling_status (j_status job)) (set_cancel_event job)) /\
  cancel_event_is_set job_id app' = true /\
  (forall other, other <> job_id -> jobs app' !! other = jobs app !! other) /\
  cancelar job_id app' = (Returned Canceling, app').
Proof.
  intros Hjob Hdone. cbv zeta.
  assert (Hrun : cancelar job_id app =
                 (Returned Canceling,
                  with_jobs (<[job_id := set_status (canceling_status (j_status job))
                                           (set_cancel_event job)]> (jobs app)) app)).
  { unfold cancelar. rewrite Hjob, Hdone. f_equal. f_equal. f_equal.
    destruct job as [st pr tot dn fb fn er ev]. destruct st; reflexivity. }
  rewrite Hrun. cbn [fst snd].
  split; [reflexivity|]. split; [apply lookup_insert_eq|].
  split; [unfold cancel_event_is_set; simpl; rewrite lookup_insert_eq; reflexivity|].
  split; [intros other Hne; simpl; apply lookup_insert_ne; congruence|].
  unfold cancelar at 1. simpl. rewrite lookup_insert_eq. simpl. rewrite Hdone.
  f_equal. unfold with_jobs. simpl. f_equal. rewrite insert_insert_eq. f_equal.
  destruct job as [st pr tot dn fb fn er ev]. destruct st; reflexivity.
Qed.

Lemma cancel_request_sets_the_event_witness :
  jobs SampleJobs.app !! "job-1" = Some SampleJobs.queued /\
  j_done SampleJobs.queued = false /\
  let app' := snd (cancelar "job-1" SampleJobs.app) in
  fst (cancelar "job-1" SampleJobs.app) = Returned Canceling /\
  jobs app' !! "job-1" =
    Some (set_status (canceling_status (j_status SampleJobs.queued))
            (set_cancel_event SampleJobs.queued)) /\
  cancel_event_is_set "job-1" app' = true /\
  (forall other, other <> "job-1" ->
     jobs app' !! other = jobs SampleJobs.app !! other) /\
  cancelar "job-1" app' = (Returned Canceling, app').
Proof.
  assert (H1 : jobs SampleJobs.app !! "job-1" = Some SampleJobs.queued)
    by (vm_compute; reflexivity).
  assert (H2 : j_done SampleJobs.queued = false) by reflexivity.
  split; [exact H1|]. split; [exact H2|].
  exact (cancel_request_sets_the_event "job-1" SampleJobs.app SampleJobs.queued
           H1 H2).
Defined.

(** ** The output file *)

Lemma sub_backslash_D_id (s : string) :
  Py.all (fun c => negb (Ascii.eqb c "\")) s = true ->
  sub_backslash_D false s = s.
Proof.
  induction s as [|c r IH]; [reflexivity|]. simpl.
  destruct (Ascii.eqb c "\"); simpl; [discriminate|].
  intros H. rewrite (IH H). reflexivity.
Qed.

Lemma digits_have_no_backslash (s : string) :
  Py.all Py.is_digit s = true ->
  Py.all (fun c => negb (Ascii.eqb c "\")) s = true.
Proof.
  induction s as [|c r IH]; [reflexivity|]. simpl.
  intros H. apply andb_true_iff in H as (Hc & Hr). rewrite (IH Hr), andb_true_r.
  destruct (Ascii.eqb_spec c "\") as [->|_]; [discriminate Hc|reflexivity].
Qed.

(** What [build_output_bytes] does to a row. *)
Lemma cnpj_as_text_row (row : Linha) :
  l_razao_social (cnpj_as_text row) = l_razao_social row /\
  l_simples_nacional (cnpj_as_text row) = l_simples_nacional row /\
  l_simei (cnpj_as_text row) = l_simei row /\
  l_data_consulta (cnpj_as_text row) = l_data_consulta row /\
  l_erro (cnpj_as_text row) = l_erro row /\
  (Py.all (fun c => negb (Ascii.eqb c "\")) (l_cnpj row) = true ->
   l_cnpj (cnpj_as_text row) = Py.zfill 14 (l_cnpj row)) /\
  (Py.all Py.is_digit (l_cnpj row) = true ->
   l_cnpj (cnpj_as_text row) =
     String.concat "" (repeat "0" (14 - String.length (l_cnpj row)))
     ++ l_cnpj row) /\
  (fullmatch_d14 (l_cnpj row) = true -> cnpj_as_text row = row).
Proof.
  assert (Hpad : Py.all Py.is_digit (l_cnpj row) = true ->
                 Py.zfill 14 (l_cnpj row) =
                 String.concat "" (repeat "0" (14 - String.length (l_cnpj row)))
                 ++ l_cnpj row).
  { intros Hd. unfold Py.zfill. destruct (l_cnpj row) as [|c r] eqn:E.
    - simpl. reflexivity.
    - simpl in Hd. apply andb_true_iff in Hd as (Hc & _).
      destruct (Ascii.eqb_spec c "+") as [->|_]; [discriminate Hc|].
      destruct (Ascii.eqb_spec c "-") as [->|_]; [discriminate Hc|].
      reflexivity. }
  repeat split.
  - intros Hb. unfold cnpj_as_text. cbn [l_cnpj].
    rewrite (sub_backslash_D_id _ Hb). reflexivity.
  - intros Hd. unfold cnpj_as_text. cbn [l_cnpj].
    rewrite (sub_backslash_D_id _ (digits_have_no_backslash _ Hd)).
    exact (Hpad Hd).
  - intros Hv. unfold fullmatch_d14 in Hv.
    apply andb_true_iff in Hv as (Hlen & Hd). apply Nat.eqb_eq in Hlen.
    unfold cnpj_as_text.
    rewrite (sub_backslash_D_id _ (digits_have_no_backslash _ Hd)).
    rewrite (Hpad Hd), Hlen. simpl. destruct row; reflexivity.
Qed.



(** ** Finding the identifiers in the upload *)

Lemma find_first {A} (f : A -> bool) (l : list A) (x : A) :
  List.find f l = Some x ->
  exists before after,
    l = (before ++ x :: after)%list /\ f x = true /\
    Forall (fun y => f y = false) before.
Proof.
  induction l as [|a l IH]; simpl; [discriminate|].
  destruct (f a) eqn:Ha.
  - intros [= ->]. exists [], l. repeat split; [exact Ha|constructor].
  - intros H. destruct (IH H) as (before & after & -> & Hx & Hb).
    exists (a :: before), after. repeat split; [exact Hx|].
    constructor; assumption.
Qed.

Lemma find_nowhere {A} (f : A -> bool) (l : list A) :
  List.find f l = None -> Forall (fun y => f y = false) l.
Proof.
  induction l as [|a l IH]; simpl; [constructor|].
  destruct (f a) eqn:Ha; [discriminate|]. intros H. constructor; auto.
Qed.

(** X21. [_find_cnpj_column] returns a label of the frame: the first one
    that is a candidate name; when there is none, the first one that
    contains "cnpj"; when there is none either, the only label of a frame
    with one column.  It raises the 400 error exactly when no label is a
    candidate or contains "cnpj" and the frame does not have exactly one
    column. *)
Theorem find_cnpj_column_by_name (columns : list string) :
  let candidate := fun c => Py.mem c io_files.CNPJ_COL_CANDIDATES in
  let named := fun c => Py.contains "cnpj" c in
  match io_files._find_cnpj_column columns with
  | Returned c =>
      exists before after,
        columns = (before ++ c :: after)%list /\
        ((candidate c = true /\ Forall (fun k => candidate k = false) before) \/
         (Forall (fun k => candidate k = false) columns /\
          named c = true /\ Forall (fun k => named k = false) before) \/
         (Forall (fun k => candidate k = false /\ named k = false) columns /\
          before = [] /\ after = []))
  | Raised e =>
      (exists detail, e = HTTPException 400 detail) /\
      length columns <> 1%nat /\
      Forall (fun k => candidate k = false /\ named k = false) columns
  end.
Proof.
  cbv zeta. unfold io_files._find_cnpj_column.
  destruct (List.find (fun c => Py.mem c io_files.CNPJ_COL_CANDIDATES) columns)
    as [c|] eqn:H1.
  { destruct (find_first _ _ _ H1) as (before & after & Hsplit & Hc & Hb).
    exists before, after. split; [exact Hsplit|]. left. auto. }
  pose proof (find_nowhere _ _ H1) as Hnone1.
  destruct (List.find (fun c => Py.contains "cnpj" c) columns) as [c|] eqn:H2.
  { destruct (find_first _ _ _ H2) as (before & after & Hsplit & Hc & Hb).
    exists before, after. split; [exact Hsplit|]. right. left. auto. }
  pose proof (find_nowhere _ _ H2) as Hnone2.
  assert (Hboth : Forall (fun k => Py.mem k io_files.CNPJ_COL_CANDIDATES = false /\
                                   Py.contains "cnpj" k = false) columns).
  { apply List.Forall_forall. intros k Hk. split.
    - exact (proj1 (List.Forall_forall _ _) Hnone1 k Hk).
    - exact (proj1 (List.Forall_forall _ _) Hnone2 k Hk). }
  destruct columns as [|c [|c' rest]].
  - split; [eauto|]. split; [discriminate|exact Hboth].
  - exists [], []. split; [reflexivity|]. right. right. auto.
  - split; [eauto|]. split; [discriminate|exact Hboth].
Qed.

Lemma guess_loop_best columns : forall best_col best_score bc bs,
  io_files.guess_loop columns best_col best_score = (bc, bs) ->
  (bc = best_col /\ bs = best_score /\
   Forall (fun col => io_files.score (snd col) <= best_score) columns) \/
  (exists before c cells after,
     columns = (before ++ (c, cells) :: after)%list /\
     bc = Some c /\ bs = io_files.score cells /\
     best_score < io_files.score cells /\
     Forall (fun col => io_files.score (snd col) < io_files.score cells) before /\
     Forall (fun col => io_files.score (snd col) <= io_files.score cells) after).
Proof.
  induction columns as [|[c cells] rest IH]; intros b0 s0 bc bs Hrun.
  - injection Hrun as <- <-. left. repeat split. constructor.
  - cbn [io_files.guess_loop] in Hrun.
    destruct (s0 <? io_files.score cells) eqn:Hlt.
    + apply Z.ltb_lt in Hlt.
      destruct (IH _ _ _ _ Hrun)
        as [(-> & -> & Hall)|(before & c' & cells' & after & -> & -> & -> & Hs & Hb & Ha)].
      * right. exists [], c, cells, rest. repeat split; [exact Hlt|constructor|exact Hall].
      * right. exists ((c, cells) :: before), c', cells', after.
        repeat split; [lia| |exact Ha].
        constructor; [exact Hs|exact Hb].
    + apply Z.ltb_ge in Hlt.
      destruct (IH _ _ _ _ Hrun)
        as [(-> & -> & Hall)|(before & c' & cells' & after & -> & -> & -> & Hs & Hb & Ha)].
      * left. repeat split. constructor; [exact Hlt|exact Hall].
      * right. exists ((c, cells) :: before), c', cells', after.
        repeat split; [exact Hs| |exact Ha].
        constructor; [simpl; lia|exact Hb].
Qed.

Lemma score_nonneg cells : 0 <= io_files.score cells.
Proof. unfold io_files.score. lia. Qed.

(** X22. [_guess_cnpj_column_by_content] returns the first column with
    the greatest number of cells that clean to 14 digits, when that
    number is positive, and [None] exactly when no cell of any column
    does. *)
Theorem guess_cnpj_column_is_the_best
    (df : list (string * list (option string))) :
  NoDup (map fst df) ->
  match io_files._guess_cnpj_column_by_content df with
  | Some c =>
      exists before cells after,
        df = (before ++ (c, cells) :: after)%list /\
        0 < io_files.score cells /\
        Forall (fun col => io_files.score (snd col) < io_files.score cells) before /\
        Forall (fun col => io_files.score (snd col) <= io_files.score cells) after
  | None => Forall (fun col => io_files.score (snd col) = 0) df
  end.
Proof.
  intros _. unfold io_files._guess_cnpj_column_by_content.
  destruct (io_files.guess_loop df None 0) as [bc bs] eqn:Hrun.
  destruct (guess_loop_best _ _ _ _ _ Hrun)
    as [(-> & -> & Hall)|(before & c & cells & after & -> & -> & -> & Hs & Hb & Ha)].
  - simpl. apply List.Forall_forall. intros col Hcol.
    pose proof (proj1 (List.Forall_forall _ _) Hall col Hcol) as Hle.
    pose proof (score_nonneg (snd col)). simpl in Hle. lia.
  - destruct (0 <? io_files.score cells) eqn:Hlt; [|apply Z.ltb_ge in Hlt; lia].
    exists before, cells, after. auto.
Qed.

Lemma guess_cnpj_column_is_the_best_witness :
  NoDup (map fst SampleUpload.columns) /\
  match io_files._guess_cnpj_column_by_content SampleUpload.columns with
  | Some c =>
      exists before cells after,
        SampleUpload.columns = (before ++ (c, cells) :: after)%list /\
        0 < io_files.score cells /\
        Forall (fun col => io_files.score (snd col) < io_files.score cells) before /\
        Forall (fun col => io_files.score (snd col) <= io_files.score cells) after
  | None => Forall (fun col => io_files.score (snd col) = 0) SampleUpload.columns
  end.
Proof.
  assert (H : NoDup (map fst SampleUpload.columns))
    by (apply (bool_decide_eq_true_1 (NoDup (map fst SampleUpload.columns)));
        vm_compute; reflexivity).
  split; [exact H|].
  exact (guess_cnpj_column_is_the_best SampleUpload.columns H).
Defined.

Lemma string_length_app (a b : string) :
  String.length (a ++ b) = (String.length a + String.length b)%nat.
Proof. induction a as [|c a IH]; simpl; [reflexivity|]. rewrite IH. reflexivity. Qed.

Lemma filter_app (p : ascii -> bool) (a b : string) :
  Py.filter p (a ++ b) = Py.filter p a ++ Py.filter p b.
Proof.
  induction a as [|c a IH]; simpl; [reflexivity|].
  destruct (p c); simpl; rewrite IH; reflexivity.
Qed.

Lemma all_app (p : ascii -> bool) (a b : string) :
  Py.all p (a ++ b) = Py.all p a && Py.all p b.
Proof.
  induction a as [|c a IH]; simpl; [reflexivity|].
  rewrite IH, andb_assoc. reflexivity.
Qed.

Lemma digits_n_spec n : forall s ds rest,
  io_files.digits_n n s = Some (ds, rest) ->
  String.length ds = n /\ Py.all Py.is_digit ds = true.
Proof.
  induction n as [|n IH]; intros s ds rest; simpl.
  - intros [= <- _]. auto.
  - destruct s as [|c r]; [discriminate|].
    destruct (Py.is_digit c) eqn:Hc; [|discriminate].
    destruct (io_files.digits_n n r) as [[ds' rest']|] eqn:Hn; [|discriminate].
    intros [= <- _]. destruct (IH _ _ _ Hn) as (Hlen & Hall).
    simpl. rewrite Hc, Hall, Hlen. auto.
Qed.

Lemma optional_no_digit ch s :
  Py.is_digit ch = false ->
  Py.filter Py.is_digit (fst (io_files.optional ch s)) = "".
Proof.
  intros Hch. unfold io_files.optional. destruct s as [|c r]; [reflexivity|].
  destruct (Ascii.eqb_spec c ch) as [->|_]; [|reflexivity].
  simpl. rewrite Hch. reflexivity.
Qed.

(** What the pattern matches cleans to 14 digits. *)
Lemma match_here_clean (oracle : string -> bool) (s m : string) :
  io_files.match_here oracle s = Some m ->
  fullmatch_d14 (Py.filter Py.is_digit m) = true.
Proof.
  unfold io_files.match_here.
  destruct (io_files.digits_n 2 s) as [[d1 s1]|] eqn:H1; [|discriminate].
  pose proof (optional_no_digit "." s1 eq_refl) as Hp1.
  destruct (io_files.optional "." s1) as [p1 s2].
  destruct (io_files.digits_n 3 s2) as [[d2 s3]|] eqn:H2; [|discriminate].
  pose proof (optional_no_digit "." s3 eq_refl) as Hp2.
  destruct (io_files.optional "." s3) as [p2 s4].
  destruct (io_files.digits_n 3 s4) as [[d3 s5]|] eqn:H3; [|discriminate].
  pose proof (optional_no_digit "/" s5 eq_refl) as Hp3.
  destruct (io_files.optional "/" s5) as [p3 s6].
  destruct (io_files.digits_n 4 s6) as [[d4 s7]|] eqn:H4; [|discriminate].
  pose proof (optional_no_digit "-" s7 eq_refl) as Hp4.
  destruct (io_files.optional "-" s7) as [p4 s8].
  destruct (io_files.digits_n 2 s8) as [[d5 s9]|] eqn:H5; [|discriminate].
  destruct (io_files.no_boundary oracle s9); [discriminate|].
  intros [= <-]. cbn [fst] in *.
  destruct (digits_n_spec _ _ _ _ H1) as (L1 & A1).
  destruct (digits_n_spec _ _ _ _ H2) as (L2 & A2).
  destruct (digits_n_spec _ _ _ _ H3) as (L3 & A3).
  destruct (digits_n_spec _ _ _ _ H4) as (L4 & A4).
  destruct (digits_n_spec _ _ _ _ H5) as (L5 & A5).
  rewrite !filter_app, Hp1, Hp2, Hp3, Hp4.
  rewrite !(filter_all _ _ A1), !(filter_all _ _ A2), !(filter_all _ _ A3),
    !(filter_all _ _ A4), !(filter_all _ _ A5).
  cbn [String.append].
  unfold fullmatch_d14.
  rewrite !string_length_app, !all_app, L1, L2, L3, L4, L5, A1, A2, A3, A4, A5.
  reflexivity.
Qed.

Lemma search_clean (oracle : string -> bool) (s : string) : forall before m,
  io_files.search oracle before s = Some m ->
  fullmatch_d14 (Py.filter Py.is_digit m) = true.
Proof.
  induction s as [|c r IH]; intros before m; simpl; [discriminate|].
  destruct (io_files.no_boundary oracle before).
  - apply IH.
  - destruct (io_files.match_here oracle (String c r)) as [m'|] eqn:Hm.
    + intros [= <-]. exact (match_here_clean _ _ _ Hm).
    + apply IH.
Qed.


(** The identifier is found in a cell that holds other text, with and
    without its punctuation. *)
Example extract_first_cnpj_samples :
  io_files._extract_first_cnpj_from_row io_files.ascii_word
    [Some "ACME"; None; Some "CNPJ: 12.345.678/0001-90 (matriz)"] = "12345678000190" /\
  io_files._extract_first_cnpj_from_row io_files.ascii_word
    [Some "nan"; Some "tel 11 5555-0000, doc 12345678000190"] = "12345678000190" /\
  io_files._extract_first_cnpj_from_row io_files.ascii_word
    [Some "x12.345.678/0001-90"; Some "123456780001901"] = "" /\
  io_files._extract_first_cnpj_from_row io_files.ascii_word
    [Some "12.345.678/0001-90x"] = "" /\
  io_files._extract_first_cnpj_from_row io_files.ascii_word
    [Some "12345.678/0001-90"] = "12345678000190" /\
  io_files._extract_first_cnpj_from_row io_files.ascii_word
    [Some "a 12.345678/000190"] = "12345678000190".
Proof. repeat split. Qed.

(** ** The upload, split into valid and invalid rows *)

Lemma mem_In (c : string) (l : list string) : Py.mem c l = true <-> In c l.
Proof.
  unfold Py.mem. rewrite existsb_exists. split.
  - intros (x & Hx & Heq). apply String.eqb_eq in Heq. subst x. exact Hx.
  - intros Hin. exists c. split; [exact Hin|apply String.eqb_refl].
Qed.

Lemma drop_duplicates_spec (l : list string) : forall seen,
  NoDup (io_files.drop_duplicates seen l) /\
  forall x, In x (io_files.drop_duplicates seen l) <-> In x l /\ ~ In x seen.
Proof.
  induction l as [|c rest IH]; intros seen; simpl.
  - split; [constructor|]. intros x. tauto.
  - destruct (Py.mem c seen) eqn:Hmem.
    + apply mem_In in Hmem. destruct (IH seen) as (Hnd & Hin).
      split; [exact Hnd|]. intros x. rewrite Hin. split.
      * intros (Hx & Hs). auto.
      * intros ([->|Hx] & Hs); [contradiction|auto].
    + assert (Hc : ~ In c seen).
      { intros Hin. apply mem_In in Hin. congruence. }
      destruct (IH (c :: seen)) as (Hnd & Hin). split.
      * constructor; [|exact Hnd]. intros Helem.
        apply list_elem_of_In, Hin in Helem. simpl in Helem. tauto.
      * intros x. simpl. rewrite Hin. simpl. split.
        -- intros [->|(Hx & Hs)]; [auto|]. split; [auto|]. tauto.
        -- intros ([->|Hx] & Hs); [auto|].
           destruct (String.eqb_spec c x) as [->|Hne]; [auto|].
           right. split; [exact Hx|]. intros [E|E]; [congruence|contradiction].
Qed.

Lemma drop_duplicates_length (l : list string) : forall seen,
  (length (io_files.drop_duplicates seen l) <= length l)%nat.
Proof.
  induction l as [|c rest IH]; intros seen; simpl; [lia|].
  destruct (Py.mem c seen); simpl.
  - specialize (IH seen). lia.
  - specialize (IH (c :: seen)). lia.
Qed.

Lemma omap_id_Some {A} (l : list A) : omap id (map Some l) = l.
Proof. induction l as [|a l IH]; simpl; [reflexivity|]. f_equal. exact IH. Qed.

Lemma filter_split_length {A} (f : A -> bool) (l : list A) :
  (length (List.filter f l) + length (List.filter (fun x => negb (f x)) l))%nat
  = length l.
Proof.
  induction l as [|a l IH]; simpl; [reflexivity|].
  destruct (f a); simpl; lia.
Qed.

(** What [split_rows] makes of the identifiers of the rows. *)
Lemma split_rows_spec (inputs : list (option string)) :
  let df := Some (io_files.split_rows inputs) in
  NoDup (cnpjs_of df) /\
  (forall c, In c (cnpjs_of df) <->
             In c (map io_files._clean_cnpj inputs) /\ fullmatch_d14 c = true) /\
  invalid_rows df =
    map (fun v => {| i_cnpj := io_files._clean_cnpj v;
                     i_cnpj_input := io_files.py_str v |})
      (List.filter (fun v => negb (fullmatch_d14 (io_files._clean_cnpj v))) inputs) /\
  total_of df <= Z.of_nat (length inputs) /\
  (inputs <> [] -> 0 < total_of df).
Proof.
  cbv zeta. unfold total_of, invalid_rows, cnpjs_of, invalidos_of.
  unfold io_files.split_rows. cbn [col_cnpj attrs_invalidos].
  rewrite omap_id_Some.
  set (valid := map (fun r : option string * string * bool => snd (fst r))
                  (List.filter (fun r => snd r) (map io_files.classify inputs))).
  assert (Hvalid : valid =
                   List.filter fullmatch_d14 (map io_files._clean_cnpj inputs)).
  { unfold valid. clear valid. induction inputs as [|v l IH]; [reflexivity|].
    simpl. unfold io_files._is_valid_14.
    destruct (fullmatch_d14 (io_files._clean_cnpj v)); simpl; rewrite IH; reflexivity. }
  assert (Hinv : map (fun r : option string * string * bool =>
                        {| i_cnpj := snd (fst r);
                           i_cnpj_input := io_files.py_str (fst (fst r)) |})
                   (List.filter (fun r => negb (snd r)) (map io_files.classify inputs)) =
                 map (fun v => {| i_cnpj := io_files._clean_cnpj v;
                                  i_cnpj_input := io_files.py_str v |})
                   (List.filter (fun v => negb (fullmatch_d14 (io_files._clean_cnpj v)))
                      inputs)).
  { clear valid Hvalid. induction inputs as [|v l IH]; [reflexivity|].
    simpl. unfold io_files._is_valid_14.
    destruct (fullmatch_d14 (io_files._clean_cnpj v)); simpl; rewrite IH; reflexivity. }
  rewrite Hinv. clear Hinv.
  destruct (drop_duplicates_spec valid []) as (Hnd & Hin).
  split; [exact Hnd|]. split.
  { intros c. rewrite Hin, Hvalid, filter_In. simpl. tauto. }
  split; [reflexivity|].
  pose proof (drop_duplicates_length valid []) as Hlen.
  pose proof (filter_split_length (fun v => fullmatch_d14 (io_files._clean_cnpj v))
                inputs) as Hsplit.
  assert (Hvlen : length valid =
                  length (List.filter (fun v => fullmatch_d14 (io_files._clean_cnpj v))
                            inputs)).
  { rewrite Hvalid. clear. induction inputs as [|v l IH]; [reflexivity|].
    simpl. destruct (fullmatch_d14 (io_files._clean_cnpj v)); simpl; rewrite IH;
      reflexivity. }
  rewrite length_map. split; [lia|].
  intros Hne.
  destruct (List.filter (fun v => negb (fullmatch_d14 (io_files._clean_cnpj v))) inputs)
    as [|i inv] eqn:Hinv; [|simpl; lia].
  simpl in Hsplit. destruct valid as [|c rest] eqn:Hv.
  - destruct inputs; [contradiction|]. simpl in Hvlen, Hsplit. lia.
  - simpl. lia.
Qed.

Lemma find_cnpj_column_in labels c :
  io_files._find_cnpj_column labels = Returned c -> In c labels.
Proof.
  unfold io_files._find_cnpj_column.
  destruct (List.find _ labels) as [c1|] eqn:H1.
  { intros [= <-]. exact (proj1 (find_some _ _ H1)). }
  destruct (List.find (fun c => Py.contains "cnpj" c) labels) as [c2|] eqn:H2.
  { intros [= <-]. exact (proj1 (find_some _ _ H2)). }
  destruct labels as [|c0 [|c1 rest]]; try discriminate.
  intros [= <-]. left. reflexivity.
Qed.

Lemma guess_cnpj_column_in df c :
  io_files._guess_cnpj_column_by_content df = Some c -> In c (map fst df).
Proof.
  unfold io_files._guess_cnpj_column_by_content.
  destruct (io_files.guess_loop df None 0) as [bc bs] eqn:Hrun.
  destruct (guess_loop_best _ _ _ _ _ Hrun)
    as [(-> & -> & _)|(before & c' & cells & after & -> & -> & -> & _)].
  - simpl. discriminate.
  - destruct (0 <? io_files.score cells); [|discriminate].
    intros [= <-]. rewrite map_app, in_app_iff. right. left. reflexivity.
Qed.

Lemma column_length labels rows col :
  In col labels -> length (io_files.column labels rows col) = length rows.
Proof.
  intros Hin. unfold io_files.column.
  assert (Hidx : exists i, io_files.column_index col labels = Some i).
  { induction labels as [|c rest IH]; [contradiction|]. simpl.
    destruct (String.eqb_spec c col) as [_|Hne]; [eauto|].
    destruct Hin as [E|Hin]; [contradiction|].
    destruct (IH Hin) as (i & ->). eauto. }
  destruct Hidx as (i & ->). apply length_map.
Qed.

(** The identifiers of the rows, one for each row, from which the frame
    is made. *)
Lemma read_input_inputs ws labels rows df :
  io_files.read_input_file_to_df ws labels rows = Returned df ->
  exists inputs,
    length inputs = length rows /\ df = io_files.split_rows inputs.
Proof.
  unfold io_files.read_input_file_to_df.
  set (cols := io_files._normalize_columns labels).
  destruct cols as [|c0 cs] eqn:Hcols; [discriminate|]. rewrite <- Hcols.
  unfold io_files.choose_column.
  destruct (io_files._find_cnpj_column cols) as [c|e] eqn:Hfind.
  - simpl. intros [= <-]. eexists. split; [|reflexivity].
    apply column_length. exact (find_cnpj_column_in _ _ Hfind).
  - destruct e; try discriminate. simpl.
    destruct (io_files._guess_cnpj_column_by_content (io_files.columns_of cols rows))
      as [c|] eqn:Hguess; intros [= <-]; (eexists; split; [|reflexivity]).
    + apply column_length. apply guess_cnpj_column_in in Hguess.
      unfold io_files.columns_of in Hguess. rewrite map_map in Hguess.
      simpl in Hguess. rewrite map_id in Hguess. exact Hguess.
    + apply length_map.
Qed.



(** X25. A parsed upload with at least one row always makes a job, when
    the output format is csv or xlsx: [POST /lotes] raises neither the
    error for a missing column nor the one for a file without
    identifiers, and registers the job with a total between one and the
    number of rows. *)
Theorem parsed_upload_makes_a_job
    (starts_with_word : string -> bool) (labels : list string)
    (rows : list (list (option string))) (df : DataFrame)
    (output : string) (sleep_seconds : Q) (job_id : string) (w : World) :
  NoDup (io_files._normalize_columns labels) ->
  rows <> [] ->
  io_files.read_input_file_to_df starts_with_word labels rows = Returned df ->
  Py.strip (Py.lower output) = "csv" \/ Py.strip (Py.lower output) = "xlsx" ->
  fst (criar_lote df output sleep_seconds job_id w) =
    Returned (job_id, Py.maxQ (25 # 2) sleep_seconds) /\
  jobs (w_app (snd (criar_lote df output sleep_seconds job_id w))) !! job_id =
    Some (novo_job (Py.strip (Py.lower output)) (total_of (Some df))) /\
  0 < total_of (Some df) <= Z.of_nat (length rows).
Proof.
  intros _ Hrows Hread Hout.
  destruct (read_input_inputs _ _ _ _ Hread) as (inputs & Hlen & ->).
  destruct (split_rows_spec inputs) as (_ & _ & _ & Htot & Hpos).
  assert (Hne : inputs <> []).
  { intros ->. destruct rows; [contradiction|discriminate]. }
  specialize (Hpos Hne). rewrite Hlen in Htot.
  split; [|split; [|lia]].
  - unfold criar_lote.
    destruct Hout as [-> | ->]; cbn [Py.mem existsb String.eqb Ascii.eqb Bool.eqb orb negb];
      unfold total_of, cnpjs_of, invalidos_of in Hpos;
      cbn [io_files.split_rows col_cnpj attrs_invalidos] in Hpos |- *;
      destruct (omap id _) as [|c cs]; cbn [length] in Hpos |- *;
      try reflexivity;
      destruct (map _ (List.filter _ (map io_files.classify inputs))) as [|i inv];
      cbn [length] in Hpos |- *; try reflexivity; lia.
  - unfold criar_lote.
    destruct Hout as [-> | ->]; cbn [Py.mem existsb String.eqb Ascii.eqb Bool.eqb orb negb];
      unfold total_of, cnpjs_of, invalidos_of in Hpos |- *;
      cbn [io_files.split_rows col_cnpj attrs_invalidos] in Hpos |- *;
      destruct (omap id _) as [|c cs]; cbn [length] in Hpos |- *;
      try (unfold bind, on_app, ret; simpl; apply lookup_insert_eq);
      destruct (map _ (List.filter _ (map io_files.classify inputs))) as [|i inv];
      cbn [length] in Hpos |- *;
      try (unfold bind, on_app, ret; simpl; apply lookup_insert_eq); lia.
Qed.

Lemma parsed_upload_makes_a_job_witness :
  NoDup (io_files._normalize_columns SampleUpload.labels) /\
  SampleUpload.rows <> [] /\
  io_files.read_input_file_to_df io_files.ascii_word SampleUpload.labels
    SampleUpload.rows = Returned SampleUpload.frame /\
  (Py.strip (Py.lower " CSV") = "csv" \/ Py.strip (Py.lower " CSV") = "xlsx") /\
  fst (criar_lote SampleUpload.frame " CSV" 1 "job-2" SampleJobs.world) =
    Returned ("job-2", Py.maxQ (25 # 2) 1) /\
  jobs (w_app (snd (criar_lote SampleUpload.frame " CSV" 1 "job-2" SampleJobs.world)))
    !! "job-2" =
    Some (novo_job (Py.strip (Py.lower " CSV")) (total_of (Some SampleUpload.frame))) /\
  0 < total_of (Some SampleUpload.frame) <= Z.of_nat (length SampleUpload.rows).
Proof.
  assert (H0 : NoDup (io_files._normalize_columns SampleUpload.labels))
    by (apply (bool_decide_eq_true_1
                 (NoDup (io_files._normalize_columns SampleUpload.labels)));
        vm_compute; reflexivity).
  assert (H2 : SampleUpload.rows <> []) by discriminate.
  assert (H1 : io_files.read_input_file_to_df io_files.ascii_word SampleUpload.labels
                 SampleUpload.rows = Returned SampleUpload.frame)
    by (vm_compute; reflexivity).
  assert (H3 : Py.strip (Py.lower " CSV") = "csv" \/
               Py.strip (Py.lower " CSV") = "xlsx") by (left; reflexivity).
  split; [exact H0|]. split; [exact H2|]. split; [exact H1|]. split; [exact H3|].
  exact (parsed_upload_makes_a_job io_files.ascii_word SampleUpload.labels
           SampleUpload.rows SampleUpload.frame " CSV" 1 "job-2" SampleJobs.world
           H0 H2 H1 H3).
Defined.

(** ** Entries past their ttl *)

(** X26. A cache row older than a positive ttl is not served: the lookup
    of a valid identifier goes to the network, starting with a request to
    the identifier's URL, and what it returns is not marked as cached. *)
Theorem expired_entry_is_not_served
    (cnpj_in : string) (ttl max_retries : Z) (w : World) (row : CacheRow)
    (fetched_at : Z) :
  fullmatch_d14 (_clean_cnpj cnpj_in) = true ->
  w_cache w !! _clean_cnpj cnpj_in = Some row ->
  c_fetched_at row = Some fetched_at ->
  0 < fetched_at ->
  0 < ttl < int_of_float (w_clock w) - fetched_at ->
  let run := consultar_optante cnpj_in true ttl max_retries w in
  (forall r, fst run = Returned r -> _cached r = false) /\
  exists tr,
    w_trace (snd run) =
      (w_trace w ++
       EvGet (OPEN_CNPJA_BASE ++ "/" ++ _clean_cnpj cnpj_in) (w_net w (w_calls w))
       :: tr)%list.
Proof.
  intros Hfm Hrow Hat Hpos Httl. cbv zeta.
  destruct (consultar_optante cnpj_in true ttl max_retries w) as [res w'] eqn:Hrun.
  cbn [fst snd].
  assert (Hloop : exists tr,
            w_trace w' = (w_trace w ++ tr)%list /\
            retry_run (w_net w) (_clean_cnpj cnpj_in)
              (Py.strftime (Qfloor (w_clock w)))
              (OPEN_CNPJA_BASE ++ "/" ++ _clean_cnpj cnpj_in) true
              (Py.maxZ 1 max_retries) 1 (w_calls w) tr res).
  { unfold consultar_optante, bind, datetime_now in Hrun.
    rewrite Hfm in Hrun. simpl in Hrun.
    unfold _cache_get, bind, time_time, read_cache in Hrun.
    rewrite Hrow in Hrun. simpl in Hrun. rewrite Hat in Hrun.
    replace (0 <? ttl) with true in Hrun by (symmetry; apply Z.ltb_lt; lia).
    replace (0 <? fetched_at) with true in Hrun by (symmetry; apply Z.ltb_lt; lia).
    replace (ttl <? int_of_float (w_clock w) - fetched_at) with true in Hrun
      by (symmetry; apply Z.ltb_lt; lia).
    simpl in Hrun. pose proof (maxZ_1_pos max_retries) as Hmax.
    unfold py_range in Hrun.
    replace (Z.to_nat (Py.maxZ 1 max_retries + 1 - 1))
      with (S (Z.to_nat (Py.maxZ 1 max_retries - 1))) in Hrun by lia.
    destruct (tentativas_sound _ _ _ _ (Py.maxZ 1 max_retries)
                (Z.to_nat (Py.maxZ 1 max_retries - 1)) 1 _ _ _ _ ltac:(lia) Hrun)
      as (tr & Htr & _ & Hrel).
    exists tr. auto. }
  destruct Hloop as (tr & Htr & Hrel). split.
  - intros r ->. exact (proj1 (proj2 (proj2 (retry_run_result _ _ _ _ _ _ _ _ _ _ Hrel)))).
  - destruct (retry_run_head _ _ _ _ _ _ _ _ _ _ Hrel) as (tr' & ->).
    exists tr'. exact Htr.
Qed.

Lemma expired_entry_is_not_served_witness :
  fullmatch_d14 (_clean_cnpj "11.111.111/0001-11") = true /\
  w_cache SampleJobs.world !! _clean_cnpj "11.111.111/0001-11" = Some Sample.old_row /\
  c_fetched_at Sample.old_row = Some 1793696400 /\
  0 < 1793696400 /\
  0 < 3600 < int_of_float (w_clock SampleJobs.world) - 1793696400 /\
  let run := consultar_optante "11.111.111/0001-11" true 3600 3 SampleJobs.world in
  (forall r, fst run = Returned r -> _cached r = false) /\
  exists tr,
    w_trace (snd run) =
      (w_trace SampleJobs.world ++
       EvGet (OPEN_CNPJA_BASE ++ "/" ++ _clean_cnpj "11.111.111/0001-11")
         (w_net SampleJobs.world (w_calls SampleJobs.world))
       :: tr)%list.
Proof.
  assert (H1 : fullmatch_d14 (_clean_cnpj "11.111.111/0001-11") = true) by reflexivity.
  assert (H2 : w_cache SampleJobs.world !! _clean_cnpj "11.111.111/0001-11" =
               Some Sample.old_row) by (vm_compute; reflexivity).
  assert (H3 : c_fetched_at Sample.old_row = Some 1793696400) by reflexivity.
  assert (H4 : 0 < 1793696400) by lia.
  assert (H5 : 0 < 3600 < int_of_float (w_clock SampleJobs.world) - 1793696400)
    by (vm_compute; split; reflexivity).
  split; [exact H1|]. split; [exact H2|]. split; [exact H3|]. split; [exact H4|].
  split; [exact H5|].
  exact (expired_entry_is_not_served "11.111.111/0001-11" 3600 3 SampleJobs.world
           Sample.old_row 1793696400 H1 H2 H3 H4 H5).
Defined.
